(** * Sub-Zero: the cancellation workflow and its activities

    A shallow embedding of
      - [src/agent/browser_agent.py]                       ([cancel_subscription]),
      - [src/orchestration/activities/browser_activities.py]
        ([start_cancellation], [inject_2fa_code], [capture_proof]),
      - [src/orchestration/activities/notification_activities.py]
        ([send_push_notification]),
      - [src/orchestration/workflows/cancellation_workflow.py]
        ([CancellationWorkflow]: [__init__], [provide_2fa_code],
        [get_status], [run]),
    followed by the properties of the orchestration engine.

    Python dictionaries are finite maps from strings to values, exceptions
    are an explicit result type, and the workflow coroutine is a tree of
    operations that an interpreter runs from one suspension point to the
    next. *)

From stdpp Require Import gmap strings list fin_maps pretty sorting.

Set Warnings "-register-all".
Open Scope string_scope.

(* ===================================================================== *)
(** * Python values and dictionaries *)
(* ===================================================================== *)

(** The values that flow through the payloads.  [VObj] stands for any other
    Python object (a float, a list, the agent's history object): the code
    only ever tests such an object for truth or formats it with [str]. *)
Inductive value : Type :=
| VNone
| VBool (b : bool)
| VInt (z : Z)
| VStr (s : string)
| VDict (d : gmap string value)
| VObj (truth : bool) (text : string).

Abbreviation dict := (gmap string value).

(** Python's truth test ([if x], [not x], [all([...])]). *)
Definition truthy (v : value) : bool :=
  match v with
  | VNone => false
  | VBool b => b
  | VInt z => negb (Z.eqb z 0)
  | VStr s => negb (String.eqb s "")
  | VDict d => negb (Nat.eqb (size d) 0)
  | VObj t _ => t
  end.

(** [all([...])] *)
Definition all (vs : list value) : bool := forallb truthy vs.

(** [v == "literal"]: only a string with the same characters is equal to a
    string literal. *)
Definition eq_str (v : value) (s : string) : bool :=
  match v with
  | VStr t => String.eqb t s
  | _ => false
  end.

(** [c is not None], for an attribute of type [str | None] *)
Definition is_not_None (c : option string) : bool :=
  match c with
  | Some _ => true
  | None => false
  end.

(** [str(d)] of a dictionary is Python's [repr], which this development
    does not reproduce: it is left as a parameter, so every result holds
    whatever the rendering is. *)
Class Render := repr_dict : gmap string value -> string.

(** [str(v)], as used by the f-strings. *)
Definition py_str `{Render} (v : value) : string :=
  match v with
  | VNone => "None"
  | VBool true => "True"
  | VBool false => "False"
  | VInt z => pretty z
  | VStr s => s
  | VDict d => repr_dict d
  | VObj _ text => text
  end.

(** [d.get(k)] and [d.get(k, default)] *)
Definition py_get (d : dict) (k : string) : value :=
  default VNone (d !! k).
Definition py_get_default (d : dict) (k : string) (dflt : value) : value :=
  default dflt (d !! k).

(** ** Strings: [needle in hay] and [s.lower()] *)

Fixpoint contains (needle hay : string) : bool :=
  String.prefix needle hay ||
  match hay with
  | EmptyString => false
  | String _ rest => contains needle rest
  end.

Definition lower_ascii (c : Ascii.ascii) : Ascii.ascii :=
  let n := Ascii.nat_of_ascii c in
  if (65 <=? n)%nat && (n <=? 90)%nat then Ascii.ascii_of_nat (n + 32) else c.

(** [s.lower()] on the ASCII range. *)
Fixpoint lower (s : string) : string :=
  match s with
  | EmptyString => EmptyString
  | String c rest => String (lower_ascii c) (lower rest)
  end.

(* ===================================================================== *)
(** * Exceptions *)
(* ===================================================================== *)

(** Instances of Python's [Exception].  [Exception msg] is any exception
    raised by a library call, known by its text [str(e)]. *)
Inductive exn : Type :=
| Exception (msg : string)
| KeyError (key : string)
| TimeoutError
| ActivityError (msg : string).

(** [str(e)] *)
Definition exn_str (e : exn) : string :=
  match e with
  | Exception msg => msg
  | KeyError key => "'" ++ key ++ "'"
  | TimeoutError => ""
  | ActivityError msg => msg
  end.

(** The result of a call: it returns or it raises. *)
Inductive Exc (A : Type) : Type :=
| Returned (a : A)
| Raised (e : exn).
Arguments Returned {A} a.
Arguments Raised {A} e.

(** ** Activity code: results and the structlog records written on the way *)

Inductive level : Type := INFO | ERROR.

(** [logger.info(event, **fields)], [logger.error(event, **fields)] *)
Record LogRecord : Type := {
  log_level : level;
  log_event : string;
  log_fields : list (string * value)
}.

Record Act (A : Type) : Type := {
  logged : list LogRecord;
  outcome : Exc A
}.
Arguments logged {A} _.
Arguments outcome {A} _.

Definition act_bind {A B} (f : A -> Act B) (m : Act A) : Act B :=
  match outcome m with
  | Returned a =>
      {| logged := logged m ++ logged (f a); outcome := outcome (f a) |}
  | Raised e => {| logged := logged m; outcome := Raised e |}
  end.

(** [x ← m; k] runs [m] and, unless it raised, [k] on its result;
    [m ;; k] ignores the result. *)
#[export] Instance Act_ret : MRet Act :=
  fun A a => {| logged := []; outcome := Returned a |}.
#[export] Instance Act_bind : MBind Act := @act_bind.

(** A call into a library outside the repository. *)
Definition call {A} (r : Exc A) : Act A := {| logged := []; outcome := r |}.

Definition logger_info (event : string) (fields : list (string * value)) : Act unit :=
  {| logged := [ {| log_level := INFO; log_event := event; log_fields := fields |} ];
     outcome := Returned tt |}.
Definition logger_error (event : string) (fields : list (string * value)) : Act unit :=
  {| logged := [ {| log_level := ERROR; log_event := event; log_fields := fields |} ];
     outcome := Returned tt |}.

(** [try: body  except Exception as e: handler e] *)
Definition try_except {A} (body : Act A) (handler : exn -> Act A) : Act A :=
  match outcome body with
  | Returned a => body
  | Raised e =>
      {| logged := logged body ++ logged (handler e);
         outcome := outcome (handler e) |}
  end.

(** [try: body  finally: cleanup]; the cleanup runs after the body, and an
    exception of the cleanup replaces the outcome of the body. *)
Definition try_finally {A} (body : Act A) (cleanup : Act unit) : Act A :=
  {| logged := logged body ++ logged cleanup;
     outcome := match outcome cleanup with
                | Returned _ => outcome body
                | Raised e => Raised e
                end |}.

(** [d[k]] *)
Definition getitem (d : dict) (k : string) : Exc value :=
  match d !! k with
  | Some v => Returned v
  | None => Raised (KeyError k)
  end.

(* ===================================================================== *)
(** * The browser agent (src/agent/browser_agent.py) *)
(* ===================================================================== *)

(** What the libraries outside the repository do during one call of
    [start_cancellation]: each call of the browser-use library returns or
    raises, and the clock is read three times.  The prompt handed to the
    agent is opaque to the model. *)
Record BrowserExt : Type := {
  new_browser : bool -> Exc unit;        (* Browser(config=get_browser_config(use_steel)) *)
  new_agent : Exc unit;                  (* Agent(task=..., llm=llm, browser=browser, ...) *)
  agent_run : Exc unit;                  (* await agent.run(max_steps=20) *)
  browser_screenshot : string -> Exc unit; (* await browser.screenshot(path) *)
  result_history : Exc value;            (* result.history() *)
  browser_close : Exc unit;              (* await browser.close() *)
  path_clock : string;                   (* datetime.now().isoformat(), line 73 *)
  stamp_clock : string;                  (* datetime.now().isoformat(), line 80 *)
  session_clock : string                 (* str(datetime.now().timestamp()) *)
}.

(** The same for the three activities that are placeholders: they only
    sleep ([await asyncio.sleep(...)], which returns) and read the clock. *)
Record StubExt : Type := {
  now_isoformat : string;                (* datetime.now().isoformat() in the try block *)
  handler_isoformat : string             (* datetime.now().isoformat() in the except block *)
}.

Section Activities.
Context {R : Render}.

(** browser_agent.py, lines 30-97. *)
Definition cancel_subscription (ext : BrowserExt)
    (service_name login_url email password use_steel : value) : Act dict :=
  call (new_browser ext (truthy use_steel)) ;;
  call (new_agent ext) ;;
  try_finally
    (try_except
       (call (agent_run ext) ;;
        let screenshot_path :=
          "proofs/" ++ py_str service_name ++ "_" ++ path_clock ext ++ ".png" in
        call (browser_screenshot ext screenshot_path) ;;
        history ← call (result_history ext);
        mret ({[ "status" := VStr "SUCCESS";
                 "service" := service_name;
                 "screenshot" := VStr screenshot_path;
                 "timestamp" := VStr (stamp_clock ext);
                 "agent_history" := history ]} : dict))
       (fun e =>
          if contains "2FA" (exn_str e)
             || contains "verification" (lower (exn_str e))
          then mret ({[ "status" := VStr "2FA_REQUIRED";
                        "service" := service_name;
                        "message" := VStr "User needs to provide verification code" ]} : dict)
          else mret ({[ "status" := VStr "FAILED";
                        "service" := service_name;
                        "error" := VStr (exn_str e) ]} : dict)))
    (call (browser_close ext)).

(* ===================================================================== *)
(** * Browser activities (src/orchestration/activities/browser_activities.py) *)
(* ===================================================================== *)

(** browser_activities.py, lines 20-106. *)
Definition start_cancellation (ext : BrowserExt) (request : dict) : Act dict :=
  logger_info "Starting cancellation"
    [("user_id", py_get request "user_id");
     ("service_name", py_get request "service_name")] ;;
  try_except
    (let service_name := py_get request "service_name" in
     let login_url := py_get request "login_url" in
     let email := py_get request "email" in
     let password := py_get request "password" in
     let use_steel := py_get_default request "use_steel" (VBool false) in
     if negb (all [service_name; login_url; email; password]) then
       logger_error "Missing required parameters" [] ;;
       mret ({[ "status" := VStr "FAILED";
                "message" := VStr "Missing required parameters: service_name, login_url, email, password" ]} : dict)
     else
       result ← cancel_subscription ext service_name login_url email password use_steel;
       let session_id :=
         py_str service_name ++ "_" ++ py_str (py_get request "user_id")
           ++ "_" ++ session_clock ext in
       status ← call (getitem result "status");
       if eq_str status "2FA_REQUIRED" then
         logger_info "2FA required" [("session_id", VStr session_id)] ;;
         mret ({[ "status" := VStr "2FA_REQUIRED";
                  "session_id" := VStr session_id;
                  "message" := py_get_default result "message" (VStr "Verification code required");
                  "service_name" := service_name ]} : dict)
       else if eq_str status "SUCCESS" then
         logger_info "Cancellation successful" [("session_id", VStr session_id)] ;;
         mret ({[ "status" := VStr "SUCCESS";
                  "session_id" := VStr session_id;
                  "screenshot_path" := py_get result "screenshot";
                  "timestamp" := py_get result "timestamp";
                  "service_name" := service_name ]} : dict)
       else
         logger_error "Cancellation failed" [("error", py_get result "error")] ;;
         mret ({[ "status" := VStr "FAILED";
                  "message" := py_get_default result "error" (VStr "Unknown error occurred");
                  "service_name" := service_name ]} : dict))
    (fun e =>
       logger_error "Exception during cancellation" [("error", VStr (exn_str e))] ;;
       mret ({[ "status" := VStr "FAILED";
                "message" := VStr ("Exception occurred: " ++ exn_str e);
                "service_name" := py_get request "service_name" ]} : dict)).

(** browser_activities.py, lines 109-162. *)
Definition inject_2fa_code (ext : StubExt) (request : dict) : Act dict :=
  logger_info "Injecting 2FA code" [("session_id", py_get request "session_id")] ;;
  try_except
    (let session_id := py_get request "session_id" in
     let code := py_get request "code" in
     if negb (truthy session_id) || negb (truthy code) then
       logger_error "Missing required parameters for 2FA injection" [] ;;
       mret ({[ "status" := VStr "FAILED";
                "message" := VStr "Missing required parameters: session_id, code" ]} : dict)
     else
       logger_info "2FA code injected successfully" [("session_id", session_id)] ;;
       mret ({[ "status" := VStr "SUCCESS";
                "session_id" := session_id;
                "message" := VStr "2FA code verified and cancellation continued" ]} : dict))
    (fun e =>
       logger_error "Exception during 2FA injection" [("error", VStr (exn_str e))] ;;
       mret ({[ "status" := VStr "FAILED";
                "message" := VStr ("Failed to inject 2FA code: " ++ exn_str e) ]} : dict)).

(** browser_activities.py, lines 165-224. *)
Definition capture_proof (ext : StubExt) (request : dict) : Act dict :=
  logger_info "Capturing cancellation proof" [("session_id", py_get request "session_id")] ;;
  try_except
    (let session_id := py_get request "session_id" in
     if negb (truthy session_id) then
       logger_error "Missing session_id for proof capture" [] ;;
       mret ({[ "screenshot_url" := VNone;
                "message" := VStr "Missing session_id" ]} : dict)
     else
       let timestamp := now_isoformat ext in
       let screenshot_url :=
         "https://storage.supabase.co/proof/" ++ py_str session_id ++ "/screenshot.png" in
       let video_url :=
         "https://steel.dev/sessions/" ++ py_str session_id ++ "/recording.mp4" in
       logger_info "Proof captured" [("screenshot_url", VStr screenshot_url)] ;;
       mret ({[ "screenshot_url" := VStr screenshot_url;
                "video_url" := VStr video_url;
                "timestamp" := VStr timestamp;
                "session_id" := session_id ]} : dict))
    (fun e =>
       logger_error "Exception during proof capture" [("error", VStr (exn_str e))] ;;
       mret ({[ "screenshot_url" := VNone;
                "video_url" := VNone;
                "message" := VStr ("Failed to capture proof: " ++ exn_str e) ]} : dict)).

(* ===================================================================== *)
(** * Notification activity
      (src/orchestration/activities/notification_activities.py) *)
(* ===================================================================== *)

(** notification_activities.py, lines 14-82. *)
Definition send_push_notification (ext : StubExt) (request : dict) : Act dict :=
  logger_info "Sending push notification"
    [("user_id", py_get request "user_id"); ("title", py_get request "title")] ;;
  try_except
    (let user_id := py_get request "user_id" in
     let title := py_get request "title" in
     let body := py_get request "body" in
     let data := py_get_default request "data" (VDict ∅) in
     if negb (all [user_id; title; body]) then
       logger_error "Missing required parameters for push notification" [] ;;
       mret ({[ "status" := VStr "FAILED";
                "delivery_status" := VStr "Missing required parameters: user_id, title, body";
                "timestamp" := VStr (now_isoformat ext) ]} : dict)
     else
       logger_info "Push notification sent" [("user_id", user_id)] ;;
       mret ({[ "status" := VStr "SUCCESS";
                "delivery_status" := VStr "Notification sent to all user devices";
                "timestamp" := VStr (now_isoformat ext);
                "user_id" := user_id;
                "notification" := VDict {[ "title" := title;
                                           "body" := body;
                                           "data" := data ]} ]} : dict))
    (fun e =>
       logger_error "Exception during push notification" [("error", VStr (exn_str e))] ;;
       mret ({[ "status" := VStr "FAILED";
                "delivery_status" := VStr ("Failed to send notification: " ++ exn_str e);
                "timestamp" := VStr (handler_isoformat ext) ]} : dict)).

End Activities.

(* ===================================================================== *)
(** * The workflow (src/orchestration/workflows/cancellation_workflow.py) *)
(* ===================================================================== *)

(** The attributes of a [CancellationWorkflow] object. *)
Record CancellationWorkflow : Type := {
  two_fa_code : option string;           (* str | None *)
  status : string
}.

(** [__init__], lines 25-27. *)
Definition __init__ : CancellationWorkflow :=
  {| two_fa_code := None; status := "PENDING" |}.

(** The signal handler [provide_2fa_code], lines 29-32. *)
Definition provide_2fa_code (self : CancellationWorkflow) (code : string)
    : CancellationWorkflow :=
  {| two_fa_code := Some code; status := status self |}.

(** The query [get_status], lines 34-36. *)
Definition get_status (self : CancellationWorkflow) : string := status self.

(** ** Temporal's interface, as [run] uses it *)

(** [RetryPolicy(...)]; times are in seconds. *)
Record RetryPolicy : Type := {
  initial_interval : Z;
  backoff_coefficient : Z;
  maximum_interval : Z;
  maximum_attempts : nat
}.

Inductive ActivityName : Type :=
| StartCancellation
| InjectTwoFaCode
| CaptureProof
| SendPushNotification.

(** The keyword arguments of [workflow.execute_activity]. *)
Record ActivityOptions : Type := {
  start_to_close_timeout : Z;
  retry_policy : option RetryPolicy
}.

(** What [await workflow.execute_activity(...)] comes back with: the
    activity's return value, or a failure that the call raises as an
    [ActivityError]. *)
Inductive ActivityResult : Type :=
| Completed (result : dict)
| Failed (msg : string).

(** The coroutine [run] as a tree of operations.  [ExecuteActivity] and
    [WaitCondition] are the two places where it can be suspended. *)
Inductive Wf (A : Type) : Type :=
| Ret (a : A)
| Raise (e : exn)
| SetStatus (s : string) (k : Wf A)
| GetSelf (k : CancellationWorkflow -> Wf A)
| Now (k : string -> Wf A)
| ExecuteActivity (a : ActivityName) (payload : dict) (opts : ActivityOptions)
    (k : ActivityResult -> Wf A)
| WaitCondition (cond : CancellationWorkflow -> bool) (timeout : Z)
    (k : bool -> Wf A).
Arguments Ret {A} a.
Arguments Raise {A} e.
Arguments SetStatus {A} s k.
Arguments GetSelf {A} k.
Arguments Now {A} k.
Arguments ExecuteActivity {A} a payload opts k.
Arguments WaitCondition {A} cond timeout k.

Fixpoint wf_bind {A B} (f : A -> Wf B) (m : Wf A) : Wf B :=
  match m with
  | Ret a => f a
  | Raise e => Raise e
  | SetStatus s k => SetStatus s (wf_bind f k)
  | GetSelf k => GetSelf (fun self => wf_bind f (k self))
  | Now k => Now (fun t => wf_bind f (k t))
  | ExecuteActivity a payload opts k =>
      ExecuteActivity a payload opts (fun r => wf_bind f (k r))
  | WaitCondition cond timeout k =>
      WaitCondition cond timeout (fun ok => wf_bind f (k ok))
  end.

#[export] Instance Wf_ret : MRet Wf := @Ret.
#[export] Instance Wf_bind : MBind Wf := @wf_bind.

(** [self.status = s] *)
Definition set_status (s : string) : Wf unit := SetStatus s (Ret tt).

(** [self.two_fa_code] *)
Definition get_two_fa_code : Wf (option string) :=
  GetSelf (fun self => Ret (two_fa_code self)).

(** [workflow.now().isoformat()] *)
Definition workflow_now_isoformat : Wf string := Now Ret.

(** [await workflow.execute_activity(a, payload, **opts)] *)
Definition execute_activity (a : ActivityName) (payload : dict)
    (opts : ActivityOptions) : Wf dict :=
  ExecuteActivity a payload opts
    (fun r => match r with
              | Completed result => Ret result
              | Failed msg => Raise (ActivityError msg)
              end).

(** [await workflow.wait_condition(cond, timeout=...)]: returns once the
    condition holds, raises if the timeout comes first.  What the engine
    raises is [asyncio.TimeoutError], which is the [TimeoutError] that [run]
    names (one class since Python 3.11). *)
Definition wait_condition (cond : CancellationWorkflow -> bool) (timeout : Z)
    : Wf unit :=
  WaitCondition cond timeout
    (fun ok => if ok then Ret tt else Raise TimeoutError).

(** [d[k]] inside the workflow. *)
Definition wf_getitem (d : dict) (k : string) : Wf value :=
  match getitem d k with
  | Returned v => Ret v
  | Raised e => Raise e
  end.

(** [try: body  except TimeoutError: handler] *)
Fixpoint try_except_TimeoutError {A} (body : Wf A) (handler : Wf A) : Wf A :=
  match body with
  | Ret a => Ret a
  | Raise TimeoutError => handler
  | Raise e => Raise e
  | SetStatus s k => SetStatus s (try_except_TimeoutError k handler)
  | GetSelf k => GetSelf (fun self => try_except_TimeoutError (k self) handler)
  | Now k => Now (fun t => try_except_TimeoutError (k t) handler)
  | ExecuteActivity a payload opts k =>
      ExecuteActivity a payload opts
        (fun r => try_except_TimeoutError (k r) handler)
  | WaitCondition cond timeout k =>
      WaitCondition cond timeout
        (fun ok => try_except_TimeoutError (k ok) handler)
  end.

(** [timedelta(seconds=n)], [timedelta(minutes=n)] *)
Definition seconds (n : Z) : Z := n.
Definition minutes (n : Z) : Z := 60 * n.

(** [RetryPolicy(initial_interval=..., maximum_interval=...,
    maximum_attempts=...)]: the coefficient [run] leaves unset is
    temporalio's default, 2. *)
Definition mkRetryPolicy (initial maximum : Z) (attempts : nat) : RetryPolicy :=
  {| initial_interval := initial;
     backoff_coefficient := 2;
     maximum_interval := maximum;
     maximum_attempts := attempts |}.

(** The value stored under ["code"]: [self.two_fa_code]. *)
Definition code_value (c : option string) : value :=
  match c with
  | Some code => VStr code
  | None => VNone
  end.

Section Workflow.
Context {R : Render}.

(** [run] is written from its end to its beginning: each definition is
    the rest of [run] from the given line on. *)

(** Lines 112-119: the proof has arrived. *)
Definition finalize (request proof : dict) : Wf dict :=
  set_status "COMPLETED" ;;
  screenshot_url ← wf_getitem proof "screenshot_url";
  cancelled_at ← workflow_now_isoformat;
  mret ({[ "status" := VStr "SUCCESS";
           "screenshot_url" := screenshot_url;
           "video_url" := py_get proof "video_url";
           "savings_per_year" := py_get_default request "annual_cost" (VInt 0);
           "cancelled_at" := VStr cancelled_at ]} : dict).

(** Lines 106-119: the call of [capture_proof] and what follows. *)
Definition capture_task (request : dict) (session_id : value) : Wf dict :=
  proof ← execute_activity CaptureProof
            {[ "session_id" := session_id ]}
            {| start_to_close_timeout := seconds 30; retry_policy := None |};
  finalize request proof.

(** Step 4, lines 103-122: capture proof and finalize. *)
Definition step4_capture_proof (request result : dict) : Wf dict :=
  st ← wf_getitem result "status";
  if eq_str st "SUCCESS" then
    set_status "CAPTURING_PROOF" ;;
    session_id ← wf_getitem result "session_id";
    capture_task request session_id
  else
    set_status "FAILED" ;;
    mret result.

(** Lines 94-122: the call of [inject_2fa_code] and what follows. *)
Definition inject_task (request : dict) (session_id : value)
    (code : option string) : Wf dict :=
  result ← execute_activity InjectTwoFaCode
             {[ "session_id" := session_id; "code" := code_value code ]}
             {| start_to_close_timeout := minutes 3; retry_policy := None |};
  step4_capture_proof request result.

(** Step 3, lines 92-122: inject the code, then go on to step 4. *)
Definition step3_inject_2fa (request result : dict) : Wf dict :=
  set_status "VERIFYING_2FA" ;;
  session_id ← wf_getitem result "session_id";
  code ← get_two_fa_code;
  inject_task request session_id code.

(** Lines 82-122: wait for the code, for at most ten minutes.  The
    [return] of the [except] block leaves [run]; without a timeout the flow
    goes on to step 3. *)
Definition wait_for_2fa_code (request result : dict) : Wf dict :=
  timed_out ← try_except_TimeoutError
                (wait_condition
                   (fun self => is_not_None (two_fa_code self))
                   (minutes 10) ;;
                 mret None)
                (set_status "TIMEOUT" ;;
                 mret (Some ({[ "status" := VStr "FAILED";
                                "reason" := VStr "2FA code not provided in time" ]} : dict)));
  match timed_out with
  | Some returned => mret returned
  | None => step3_inject_2fa request result
  end.

(** Lines 72-122: the call of [send_push_notification], whose result is
    dropped, and what follows. *)
Definition notify_task (request result : dict) (user_id service_name : value)
    : Wf dict :=
  execute_activity SendPushNotification
    {[ "user_id" := user_id;
       "title" := VStr (py_str service_name ++ " needs verification");
       "body" := VStr "Enter the code from your SMS/email to continue cancellation" ]}
    {| start_to_close_timeout := seconds 30; retry_policy := None |} ;;
  wait_for_2fa_code request result.

(** Step 2, lines 67-122: the 2FA branch. *)
Definition step2_handle_2fa (request result : dict) : Wf dict :=
  set_status "AWAITING_2FA" ;;
  user_id ← wf_getitem request "user_id";
  service_name ← wf_getitem request "service_name";
  notify_task request result user_id service_name.

(** Lines 67-122: what [run] does with the result of step 1. *)
Definition after_step1 (request result : dict) : Wf dict :=
  st ← wf_getitem result "status";
  if eq_str st "2FA_REQUIRED" then
    step2_handle_2fa request result
  else
    step4_capture_proof request result.

(** Step 1, lines 60-122: the call of [start_cancellation] and what
    follows. *)
Definition begin_task (request : dict) (policy : RetryPolicy) : Wf dict :=
  result ← execute_activity StartCancellation request
             {| start_to_close_timeout := minutes 5;
                retry_policy := Some policy |};
  after_step1 request result.

(** [run], lines 38-122. *)
Definition run (request : dict) : Wf dict :=
  set_status "STARTING" ;;
  let retry_policy := mkRetryPolicy (seconds 1) (minutes 5) 3 in
  set_status "NAVIGATING" ;;
  begin_task request retry_policy.

(** The places where [run] can be, between two workflow tasks: suspended
    on one of its four activities or on the wait, or at its end.  Each
    comes with the status the instance shows there. *)
Inductive Point (request : dict) : string -> Wf dict -> Prop :=
| AtBegin :
    Point request "NAVIGATING"
      (begin_task request (mkRetryPolicy (seconds 1) (minutes 5) 3))
| AtNotify result user_id service_name :
    result !! "status" = Some (VStr "2FA_REQUIRED") ->
    request !! "user_id" = Some user_id ->
    request !! "service_name" = Some service_name ->
    Point request "AWAITING_2FA"
      (notify_task request result user_id service_name)
| AtWait result :
    result !! "status" = Some (VStr "2FA_REQUIRED") ->
    Point request "AWAITING_2FA" (wait_for_2fa_code request result)
| AtInject session_id code :
    Point request "VERIFYING_2FA" (inject_task request session_id code)
| AtCapture session_id :
    Point request "CAPTURING_PROOF" (capture_task request session_id)
| AtReturn cur d : Point request cur (Ret d)
| AtRaise cur e : Point request cur (Raise e).

End Workflow.

(* ===================================================================== *)
(** * Running a workflow instance *)
(* ===================================================================== *)

(** What an execution leaves behind, in order: every assignment to
    [self.status], every activity handed to the engine, every signal and
    timer that reached the instance. *)
Inductive HistoryEvent : Type :=
| Transition (previous new : string)
| ActivityScheduled (a : ActivityName) (payload : dict) (opts : ActivityOptions)
| SignalReceived (code : string)
| TimerFired.

(** A workflow instance: the object, what is left of [run], and the
    history so far. *)
Record Instance : Type := {
  self : CancellationWorkflow;
  task : Wf dict;
  history : list HistoryEvent
}.

(** Runs the coroutine up to its next suspension point (an activity to
    wait for, or a condition that does not hold yet) or to its end.  The
    code between two suspension points runs without interruption; [now] is
    the clock of the current workflow task. *)
Fixpoint advance (now : string) (obj : CancellationWorkflow)
    (hist : list HistoryEvent) (m : Wf dict) : Instance :=
  match m with
  | Ret _ | Raise _ => {| self := obj; task := m; history := hist |}
  | SetStatus s k =>
      advance now {| two_fa_code := two_fa_code obj; status := s |}
        (hist ++ [Transition (status obj) s]) k
  | GetSelf k => advance now obj hist (k obj)
  | Now k => advance now obj hist (k now)
  | ExecuteActivity a payload opts _ =>
      {| self := obj; task := m;
         history := hist ++ [ActivityScheduled a payload opts] |}
  | WaitCondition cond _ k =>
      if cond obj then advance now obj hist (k true)
      else {| self := obj; task := m; history := hist |}
  end.

(** What the engine delivers to a suspended instance. *)
Inductive Job : Type :=
| SignalWorkflow (code : string)
| ResolveActivity (r : ActivityResult)
| FireTimer.

(** One workflow task.  A signal runs the handler, and wakes [run] if it
    is waiting on a condition; the result of the pending activity resumes
    [run]; the timer of the pending wait makes it raise.  A job that does
    not fit the suspension point is refused, and so is any job once [run]
    has returned or raised: the coroutine is over. *)
Definition activate (now : string) (j : Job) (i : Instance) : option Instance :=
  match j, task i with
  | SignalWorkflow code, ExecuteActivity _ _ _ _ =>
      Some {| self := provide_2fa_code (self i) code;
              task := task i;
              history := history i ++ [SignalReceived code] |}
  | SignalWorkflow code, WaitCondition _ _ _ =>
      Some (advance now (provide_2fa_code (self i) code)
              (history i ++ [SignalReceived code]) (task i))
  | ResolveActivity r, ExecuteActivity _ _ _ k =>
      Some (advance now (self i) (history i) (k r))
  | FireTimer, WaitCondition _ _ k =>
      Some (advance now (self i) (history i ++ [TimerFired]) (k false))
  | _, _ => None
  end.

(** A sequence of workflow tasks, each with its clock. *)
Fixpoint exec (jobs : list (string * Job)) (i : Instance) : option Instance :=
  match jobs with
  | [] => Some i
  | (now, j) :: rest =>
      match activate now j i with
      | Some i' => exec rest i'
      | None => None
      end
  end.

(** The first workflow task: the object is created and [run] starts. *)
Definition start `{Render} (now : string) (request : dict) : Instance :=
  advance now __init__ [] (run request).

(** The return value of [run], once it has returned. *)
Definition result_of (i : Instance) : option dict :=
  match task i with
  | Ret d => Some d
  | _ => None
  end.

(** The activities handed to the engine so far, in order. *)
Definition activities_of (hist : list HistoryEvent) : list ActivityName :=
  omap (fun ev => match ev with
                  | ActivityScheduled a _ _ => Some a
                  | _ => None
                  end) hist.

(** The values [self.status] has taken, in order of assignment. *)
Definition statuses_of (hist : list HistoryEvent) : list string :=
  omap (fun ev => match ev with
                  | Transition _ new => Some new
                  | _ => None
                  end) hist.

(* ===================================================================== *)
(** * The engine's retry policy and activity invoker *)
(* ===================================================================== *)

Inductive ErrorClass : Type := Retryable | Terminal.

Inductive Decision : Type :=
| RetryAfter (delay : Z)
| GiveUp.

(** Modelled from the spec: the Retry Policy of section 4.1, which the
    repository leaves to the Temporal engine.  The delay after the n-th
    failed attempt is the initial interval times the backoff factor to the
    power n-1, capped at the maximum interval. *)
Definition backoff_delay (p : RetryPolicy) (attempt : nat) : Z :=
  Z.min (initial_interval p * backoff_coefficient p ^ Z.of_nat (attempt - 1))
        (maximum_interval p).

(** Modelled from the spec: the decision of the Retry Policy of section
    4.1, given the number of the attempt that failed and the class of its
    error: a terminal error gives up at once, a retryable one gives up when
    the maximum attempt count is reached. *)
Definition retry_decision (p : RetryPolicy) (attempt : nat) (c : ErrorClass)
    : Decision :=
  match c with
  | Terminal => GiveUp
  | Retryable =>
      if (attempt <? maximum_attempts p)%nat
      then RetryAfter (backoff_delay p attempt)
      else GiveUp
  end.

(** One attempt at an activity: it returns, or it fails (an exception of
    the activity, or its start-to-close timeout). *)
Inductive Attempt : Type :=
| Succeeds (result : dict)
| Fails (c : ErrorClass) (error : string).

Record AttemptRecord : Type := {
  attempt_no : nat;
  waited_before : Z;                     (* the backoff delay before this attempt *)
  attempt_outcome : Attempt
}.

(** Modelled from the spec: the Activity Invoker of section 4.2, which the
    repository leaves to the Temporal engine.  [world n] is what the n-th
    attempt does; after each failure the Retry Policy is consulted, and on
    exhaustion the last error is the terminal failure.  Every attempt is
    recorded. *)
Fixpoint invoke_from (p : RetryPolicy) (world : nat -> Attempt)
    (n : nat) (waited : Z) (retries_left : nat)
    : ActivityResult * list AttemptRecord :=
  let record := {| attempt_no := n; waited_before := waited;
                   attempt_outcome := world n |} in
  match world n with
  | Succeeds result => (Completed result, [record])
  | Fails c error =>
      match retry_decision p n c, retries_left with
      | RetryAfter delay, S retries =>
          let '(r, records) := invoke_from p world (S n) delay retries in
          (r, record :: records)
      | _, _ => (Failed error, [record])
      end
  end.

Definition invoke (p : RetryPolicy) (world : nat -> Attempt)
    : ActivityResult * list AttemptRecord :=
  invoke_from p world 1 0 (maximum_attempts p - 1).

(** Modelled from the spec: how the worker reports one run of an activity
    function to the Activity Invoker of section 4.2: a returned dictionary
    is the result, a raised exception is a retryable failure. *)
Definition attempt_of (r : Act dict) : Attempt :=
  match outcome r with
  | Returned d => Succeeds d
  | Raised e => Fails Retryable (exn_str e)
  end.

(* ===================================================================== *)
(** * The transition graph of the status field *)
(* ===================================================================== *)

(** PENDING -> STARTING -> NAVIGATING -> (AWAITING_2FA -> VERIFYING_2FA)?
    -> CAPTURING_PROOF -> COMPLETED, and AWAITING_2FA -> TIMEOUT.  No edge
    leaves COMPLETED, FAILED or TIMEOUT. *)
Definition edges : list (string * string) :=
  [ ("PENDING", "STARTING");
    ("STARTING", "NAVIGATING");
    ("NAVIGATING", "AWAITING_2FA");
    ("AWAITING_2FA", "VERIFYING_2FA");
    ("VERIFYING_2FA", "CAPTURING_PROOF");
    ("NAVIGATING", "CAPTURING_PROOF");
    ("CAPTURING_PROOF", "COMPLETED");
    ("AWAITING_2FA", "TIMEOUT") ].

Definition terminal (s : string) : bool :=
  bool_decide (s ∈ ["COMPLETED"; "FAILED"; "TIMEOUT"]).

(** An edge of the graph, or FAILED from a status that is not terminal:
    nothing is allowed after COMPLETED, FAILED or TIMEOUT. *)
Definition allowed (previous new : string) : bool :=
  bool_decide ((previous, new) ∈ edges)
  || (String.eqb new "FAILED" && negb (terminal previous)).

(** Walks a history from the status [cur]: every assignment must start
    from the status the previous one left and follow the graph.  The
    result is the status at the end. *)
Fixpoint follows (cur : string) (hist : list HistoryEvent) : option string :=
  match hist with
  | [] => Some cur
  | Transition previous new :: rest =>
      if String.eqb previous cur && allowed previous new
      then follows new rest
      else None
  | _ :: rest => follows cur rest
  end.

(** Every assignment that [m] can still make, started in status [cur],
    follows the graph, and [m] never suspends in a terminal status. *)
Fixpoint graph_ok (cur : string) (m : Wf dict) : Prop :=
  match m with
  | Ret _ | Raise _ => True
  | SetStatus s k => allowed cur s = true ∧ graph_ok s k
  | GetSelf k => ∀ obj, graph_ok cur (k obj)
  | Now k => ∀ t, graph_ok cur (k t)
  | ExecuteActivity _ _ _ k => terminal cur = false ∧ ∀ r, graph_ok cur (k r)
  | WaitCondition _ _ k => terminal cur = false ∧ ∀ ok, graph_ok cur (k ok)
  end.

(** [Φ] holds wherever [m], started in status [cur], can stop: [Φ] is
    given the status and what is left of [m] there. *)
Fixpoint always (Φ : string -> Wf dict -> Prop) (cur : string) (m : Wf dict)
    : Prop :=
  match m with
  | Ret _ | Raise _ => Φ cur m
  | SetStatus s k => always Φ s k
  | GetSelf k => ∀ obj, always Φ cur (k obj)
  | Now k => ∀ t, always Φ cur (k t)
  | ExecuteActivity _ _ _ k => Φ cur m ∧ ∀ r, always Φ cur (k r)
  | WaitCondition _ _ k => Φ cur m ∧ ∀ ok, always Φ cur (k ok)
  end.

(** [run] has returned or raised. *)
Definition finished (i : Instance) : Prop :=
  match task i with
  | Ret _ | Raise _ => True
  | _ => False
  end.

(** [run] is suspended: on an activity, or on a condition that does not
    hold. *)
Definition suspended (i : Instance) : Prop :=
  match task i with
  | ExecuteActivity _ _ _ _ => True
  | WaitCondition cond _ _ => cond (self i) = false
  | _ => False
  end.

(** The number of times the code was handed to the submit-2FA activity. *)
Definition is_inject (a : ActivityName) : bool :=
  match a with
  | InjectTwoFaCode => true
  | _ => false
  end.

Definition inject_count (hist : list HistoryEvent) : nat :=
  length (List.filter is_inject (activities_of hist)).

(** [m] schedules the submit-2FA activity at most once on every path, and
    not at all without [budget]. *)
Fixpoint injects_once (budget : bool) (m : Wf dict) : Prop :=
  match m with
  | Ret _ | Raise _ => True
  | SetStatus _ k => injects_once budget k
  | GetSelf k => ∀ obj, injects_once budget (k obj)
  | Now k => ∀ t, injects_once budget (k t)
  | ExecuteActivity a _ _ k =>
      if is_inject a
      then budget = true ∧ ∀ r, injects_once false (k r)
      else ∀ r, injects_once budget (k r)
  | WaitCondition _ _ k => ∀ ok, injects_once budget (k ok)
  end.

(** The same for an instance, whose pending activity is already in the
    history. *)
Definition injects_once_more (i : Instance) : Prop :=
  (inject_count (history i) ≤ 1)%nat ∧
  match task i with
  | ExecuteActivity _ _ _ k =>
      ∀ r, injects_once (Nat.eqb (inject_count (history i)) 0) (k r)
  | WaitCondition _ _ k =>
      ∀ ok, injects_once (Nat.eqb (inject_count (history i)) 0) (k ok)
  | _ => True
  end.

(** On every path of [m] the submit-2FA activity is scheduled only once a
    code is there: [has] says whether one is there already, and a wait that
    returns normally must guarantee one. *)
Fixpoint reads_after_wait (has : bool) (m : Wf dict) : Prop :=
  match m with
  | Ret _ | Raise _ => True
  | SetStatus _ k => reads_after_wait has k
  | GetSelf k => ∀ obj, reads_after_wait has (k obj)
  | Now k => ∀ t, reads_after_wait has (k t)
  | ExecuteActivity a _ _ k =>
      (is_inject a = true -> has = true) ∧ ∀ r, reads_after_wait has (k r)
  | WaitCondition cond _ k =>
      (∀ obj, cond obj = true -> is_Some (two_fa_code obj))
      ∧ reads_after_wait true (k true)
      ∧ reads_after_wait has (k false)
  end.

(** The same for an instance: once the code has been handed to the
    activity, [two_fa_code] still holds one. *)
Definition code_kept (i : Instance) : Prop :=
  ((1 ≤ inject_count (history i))%nat -> is_Some (two_fa_code (self i)))
  ∧ ∃ has, (has = true -> is_Some (two_fa_code (self i)))
           ∧ reads_after_wait has (task i).

(** Signals as jobs: each code with the clock of its workflow task. *)
Definition signals (codes : list (string * string)) : list (string * Job) :=
  map (λ tc, (tc.1, SignalWorkflow tc.2)) codes.

(** The content of [two_fa_code] after a series of signals. *)
Definition last_code (c : option string) (codes : list (string * string))
    : option string :=
  foldl (λ _ tc, Some tc.2) c codes.

(** The three statuses an activity result can carry. *)
Definition known_status (d : dict) : Prop :=
  d !! "status" = Some (VStr "SUCCESS")
  ∨ d !! "status" = Some (VStr "2FA_REQUIRED")
  ∨ d !! "status" = Some (VStr "FAILED").

(** What holds of every instance an execution can reach. *)
Definition invariant (i : Instance) : Prop :=
  follows "PENDING" (history i) = Some (status (self i))
  ∧ graph_ok (status (self i)) (task i)
  ∧ injects_once_more i.

(** Once the status is terminal, the assignment that made it so is the
    last event of the history: nothing was recorded after it. *)
Definition settled (i : Instance) : Prop :=
  terminal (status (self i)) = true ->
  ∃ before previous,
    history i = (before ++ [Transition previous (status (self i))])%list.

(* ===================================================================== *)
(** * The progress of a run *)
(* ===================================================================== *)

#[export] Instance ActivityName_eq_dec : EqDecision ActivityName.
Proof. solve_decision. Defined.

(** The statuses an instance can show between two workflow tasks, each
    with the activities that have been handed to the engine by then, in
    order of scheduling. *)
Definition progress : list (string * list ActivityName) :=
  [ ("NAVIGATING", [StartCancellation]);
    ("AWAITING_2FA", [StartCancellation]);
    ("AWAITING_2FA", [StartCancellation; SendPushNotification]);
    ("TIMEOUT", [StartCancellation; SendPushNotification]);
    ("VERIFYING_2FA", [StartCancellation; SendPushNotification]);
    ("VERIFYING_2FA", [StartCancellation; SendPushNotification; InjectTwoFaCode]);
    ("CAPTURING_PROOF", [StartCancellation]);
    ("CAPTURING_PROOF", [StartCancellation; CaptureProof]);
    ("CAPTURING_PROOF", [StartCancellation; SendPushNotification; InjectTwoFaCode]);
    ("CAPTURING_PROOF",
       [StartCancellation; SendPushNotification; InjectTwoFaCode; CaptureProof]);
    ("COMPLETED", [StartCancellation; CaptureProof]);
    ("COMPLETED",
       [StartCancellation; SendPushNotification; InjectTwoFaCode; CaptureProof]);
    ("FAILED", [StartCancellation]);
    ("FAILED", [StartCancellation; SendPushNotification; InjectTwoFaCode]) ].

Definition fits (cur : string) (done : list ActivityName) : bool :=
  bool_decide ((cur, done) ∈ progress).
Arguments fits : simpl never.

(** Wherever [m], started in status [cur] with the activities [done]
    behind it, can stop, the status and the activities fit [progress]. *)
Fixpoint keeps_order (cur : string) (done : list ActivityName) (m : Wf dict)
    : Prop :=
  match m with
  | Ret _ | Raise _ => fits cur done = true
  | SetStatus s k => keeps_order s done k
  | GetSelf k => ∀ obj, keeps_order cur done (k obj)
  | Now k => ∀ t, keeps_order cur done (k t)
  | ExecuteActivity a _ _ k =>
      fits cur (done ++ [a]) = true ∧ ∀ r, keeps_order cur (done ++ [a]) (k r)
  | WaitCondition _ _ k =>
      fits cur done = true ∧ ∀ ok, keeps_order cur done (k ok)
  end.

(** The same for an instance, whose pending activity is already in the
    history. *)
Definition in_order (i : Instance) : Prop :=
  fits (status (self i)) (activities_of (history i)) = true
  ∧ match task i with
    | ExecuteActivity _ _ _ k =>
        ∀ r, keeps_order (status (self i)) (activities_of (history i)) (k r)
    | WaitCondition _ _ k =>
        ∀ ok, keeps_order (status (self i)) (activities_of (history i)) (k ok)
    | _ => True
    end.

(** The activity results among the jobs of an execution. *)
Definition is_result (j : Job) : bool :=
  match j with
  | ResolveActivity _ => true
  | _ => false
  end.

Definition results_in (jobs : list (string * Job)) : nat :=
  length (List.filter (λ tj, is_result tj.2) jobs).

(** The number of activities an instance is waiting for: one or none. *)
Definition pending (i : Instance) : nat :=
  match task i with
  | ExecuteActivity _ _ _ _ => 1
  | _ => 0
  end.

(* ===================================================================== *)
(** * Credential utilities (src/backend/lib/credential_vault.py) *)
(* ===================================================================== *)

(** Exceptions of Python's built-in operations. *)
Inductive builtin_error : Type :=
| IndexError (msg : string)
| TypeError
| ValueError (msg : string)
| AttributeError (msg : string).

(** The result of code that can raise one of them. *)
Inductive Fallible (A : Type) : Type :=
| Value (a : A)
| Throws (e : builtin_error).
Arguments Value {A} a.
Arguments Throws {A} e.

#[export] Instance Fallible_ret : MRet Fallible := @Value.
#[export] Instance Fallible_bind : MBind Fallible :=
  fun A B f m => match m with
                 | Value a => f a
                 | Throws e => Throws e
                 end.

(** [field in credentials] *)
Definition py_in (k : string) (d : dict) : bool :=
  match d !! k with
  | Some _ => true
  | None => false
  end.

(** The character [@]. *)
Definition at_sign : Ascii.ascii := Ascii.ascii_of_nat 64.

(** [s.split(sep)] for a separator of one character. *)
Fixpoint str_split (sep : Ascii.ascii) (s : string) : list string :=
  match s with
  | EmptyString => [EmptyString]
  | String c rest =>
      if Ascii.eqb c sep then EmptyString :: str_split sep rest
      else match str_split sep rest with
           | part :: parts => String c part :: parts
           | [] => [String c EmptyString]
           end
  end.

(** [parts[n]] on a list and [s[n]] on a string. *)
Definition list_item {A} (l : list A) (n : nat) : Fallible A :=
  match l !! n with
  | Some a => Value a
  | None => Throws (IndexError "list index out of range")
  end.

Definition str_item (s : string) (n : nat) : Fallible string :=
  match String.get n s with
  | Some c => Value (String c EmptyString)
  | None => Throws (IndexError "string index out of range")
  end.

(** credential_vault.py, lines 151-162. *)
Definition validate_credentials (credentials : dict) : bool :=
  forallb (λ field, py_in field credentials) ["email"; "password"].

(** credential_vault.py, lines 182-189: the body of the loop, for one item
    of the dictionary.  [isinstance(value, str)] holds of the strings. *)
Definition sanitize_item (key : string) (v : value) : Fallible value :=
  if String.eqb key "password" || contains "secret" (lower key) then
    Value (VStr "***")
  else
    match v with
    | VStr s =>
        if String.eqb key "email" && contains "@" s then
          let parts := str_split at_sign s in
          part0 ← list_item parts 0;
          initial ← str_item part0 0;
          part1 ← list_item parts 1;
          Value (VStr (initial ++ "***@" ++ part1))
        else Value v
    | _ => Value v
    end.

(** credential_vault.py, lines 165-191.  The loop visits the items of the
    dictionary one after the other and stores each under its own key, so
    neither the result nor an exception depends on the order of the
    visit. *)
Definition sanitize_credentials_for_logging (credentials : dict) : Fallible dict :=
  map_fold (λ key v acc,
              sanitized ← acc;
              v' ← sanitize_item key v;
              Value (<[key := v']> sanitized))
           (Value ∅) credentials.

(* ===================================================================== *)
(** * The Plaid client (src/backend/lib/plaid_client.py) *)
(* ===================================================================== *)

(** [plaid.Environment]: the three hosts. *)
Inductive Environment : Type := Sandbox | Development | Production.

(** [os.getenv(name, default)], on the process environment. *)
Definition getenv (environ : gmap string string) (name dflt : string) : string :=
  default dflt (environ !! name).

(** [PlaidClient._get_plaid_host], lines 45-55. *)
Definition _get_plaid_host (environ : gmap string string) : Environment :=
  let env := getenv environ "PLAID_ENV" "sandbox" in
  let hosts : gmap string Environment :=
    {[ "sandbox" := Sandbox;
       "development" := Development;
       "production" := Production ]} in
  default Sandbox (hosts !! env).

(** ** Strings, on the ASCII range *)

(** [c.isspace()]: tab, line feed, vertical tab, form feed, carriage
    return, the four separators 28-31 and the space. *)
Definition is_space (c : Ascii.ascii) : bool :=
  let n := Ascii.nat_of_ascii c in
  ((9 <=? n)%nat && (n <=? 13)%nat) || ((28 <=? n)%nat && (n <=? 32)%nat).

Definition is_upper (c : Ascii.ascii) : bool :=
  let n := Ascii.nat_of_ascii c in (65 <=? n)%nat && (n <=? 90)%nat.

Definition is_lower (c : Ascii.ascii) : bool :=
  let n := Ascii.nat_of_ascii c in (97 <=? n)%nat && (n <=? 122)%nat.

Definition upper_ascii (c : Ascii.ascii) : Ascii.ascii :=
  if is_lower c then Ascii.ascii_of_nat (Ascii.nat_of_ascii c - 32) else c.

(** [s.strip()] *)
Fixpoint lstrip (s : string) : string :=
  match s with
  | EmptyString => EmptyString
  | String c rest => if is_space c then lstrip rest else s
  end.

Fixpoint rstrip (s : string) : string :=
  match s with
  | EmptyString => EmptyString
  | String c rest =>
      match rstrip rest with
      | EmptyString => if is_space c then EmptyString else String c EmptyString
      | kept => String c kept
      end
  end.

Definition strip (s : string) : string := rstrip (lstrip s).

(** [s.replace(old, '')] for a non-empty [old]: the occurrences of [old]
    are dropped from left to right; [skip] counts the characters of the
    current occurrence that are still to be dropped. *)
Fixpoint drop_occurrences (old : string) (skip : nat) (s : string) : string :=
  match s with
  | EmptyString => EmptyString
  | String c rest =>
      match skip with
      | S k => drop_occurrences old k rest
      | O =>
          if String.prefix old s
          then drop_occurrences old (String.length old - 1) rest
          else String c (drop_occurrences old 0 rest)
      end
  end.

Definition replace_by_nothing (old s : string) : string :=
  drop_occurrences old 0 s.

(** [s.split()]: the words between runs of whitespace. *)
Fixpoint split_whitespace (s : string) : list string :=
  match s with
  | EmptyString => []
  | String c rest =>
      if is_space c then split_whitespace rest
      else
        match rest with
        | EmptyString => [String c EmptyString]
        | String c' _ =>
            if is_space c' then String c EmptyString :: split_whitespace rest
            else match split_whitespace rest with
                 | word :: words => String c word :: words
                 | [] => [String c EmptyString]
                 end
        end
  end.

(** [sep.join(words)] *)
Fixpoint join (sep : string) (words : list string) : string :=
  match words with
  | [] => EmptyString
  | [word] => word
  | word :: rest => word ++ sep ++ join sep rest
  end.

(** [s.title()]: a letter that follows a letter is lowered, any other
    letter is raised. *)
Fixpoint title_from (previous_is_cased : bool) (s : string) : string :=
  match s with
  | EmptyString => EmptyString
  | String c rest =>
      if is_lower c then
        String (if previous_is_cased then c else upper_ascii c)
               (title_from true rest)
      else if is_upper c then
        String (if previous_is_cased then lower_ascii c else c)
               (title_from true rest)
      else String c (title_from false rest)
  end.

Definition title (s : string) : string := title_from false s.

(** [PlaidClient._normalize_merchant_name], lines 235-248. *)
Definition _normalize_merchant_name (merchant_name : string) : string :=
  let name := strip merchant_name in
  let name := replace_by_nothing ".com"
                (replace_by_nothing ".COM" (replace_by_nothing "*" name)) in
  let name := join " " (split_whitespace name) in
  title name.

(** ** [detect_subscriptions] *)

(** The value under ['date']: a string, or a [datetime.date] given by its
    day number. *)
Inductive DateValue : Type :=
| DateStr (s : string)
| DateObj (ordinal : Z).

(** The value under ['amount'], a float, as [set(amounts)] tells its
    elements apart.  Two numbers are one element when [==] says so.  A NaN
    is equal to nothing, not even to another NaN; the set takes it for an
    element it already has only when it is the very same object.  So a NaN
    comes with the identity of its float object: [float(...)] in
    [_format_transaction] makes a new object for every transaction. *)
Inductive Amount (Number : Type) : Type :=
| Num (x : Number)
| NaN (object : nat).
Arguments Num {Number} x.
Arguments NaN {Number} object.

#[export] Instance Amount_eq_dec {Number} `{EqDecision Number} :
  EqDecision (Amount Number).
Proof. solve_decision. Defined.

(** What the model leaves open: the numbers a float can be, with their
    [==], [Decimal(str(x))], and [datetime.strptime(s, '%Y-%m-%d')], which
    gives the day number or raises. *)
Class PlaidData : Type := {
  Number : Type;
  Number_eq_dec :: EqDecision Number;
  Decimal : Type;
  Decimal_of_str : Amount Number -> Decimal;
  strptime : string -> Fallible Z
}.

Section Detection.
Context `{PlaidData}.

(** A formatted transaction, with the entries that [detect_subscriptions]
    reads.  The merchant name is a string or [None]: [_format_transaction]
    takes it with [transaction.get('merchant_name', transaction['name'])],
    which is [None] when Plaid sends the key with a null value. *)
Record Transaction : Type := {
  txn_merchant_name : option string;
  txn_date : DateValue;
  txn_amount : Amount Number
}.

(** A detected subscription; ['merchant_name'] is the key of the group. *)
Record Subscription : Type := {
  sub_merchant_name : option string;
  sub_normalized_name : string;
  sub_monthly_price : Decimal;
  sub_last_charge_date : DateValue;
  sub_status : string;
  sub_logo_url : option string;
  sub_cancellation_url : option string
}.

(** Lines 195-198: [merchant_charges], a dictionary in insertion order. *)
Fixpoint add_charge (merchant : option string) (txn : Transaction)
    (merchant_charges : list (option string * list Transaction))
    : list (option string * list Transaction) :=
  match merchant_charges with
  | [] => [(merchant, [txn])]
  | (m, charges) :: rest =>
      if decide (m = merchant) then (m, (charges ++ [txn])%list) :: rest
      else (m, charges) :: add_charge merchant txn rest
  end.

(** Lines 193-198. *)
Definition group_by_merchant (transactions : list Transaction)
    : list (option string * list Transaction) :=
  foldl (λ merchant_charges txn,
           add_charge (txn_merchant_name txn) txn merchant_charges)
        [] transactions.

(** The comparison of two dates by [list.sort]: strings as strings, dates
    as dates. *)
Definition same_type (a b : DateValue) : bool :=
  match a, b with
  | DateStr _, DateStr _ | DateObj _, DateObj _ => true
  | _, _ => false
  end.

Definition date_le (a b : DateValue) : bool :=
  match a, b with
  | DateStr s, DateStr t => String.leb s t
  | DateObj m, DateObj n => (m <=? n)%Z
  | _, _ => false
  end.

Fixpoint insert_charge (x : Transaction) (sorted : list Transaction)
    : list Transaction :=
  match sorted with
  | [] => [x]
  | y :: rest =>
      if date_le (txn_date x) (txn_date y) then x :: sorted
      else y :: insert_charge x rest
  end.

(** Line 208, [charges.sort(key=lambda x: x['date'])]: a stable sort, so
    charges of the same date keep their order; comparing a string with a
    date raises [TypeError]. *)
Definition sort_by_date (charges : list Transaction)
    : Fallible (list Transaction) :=
  match charges with
  | [] => Value []
  | first :: rest =>
      if forallb (λ c, same_type (txn_date first) (txn_date c)) rest
      then Value (foldr insert_charge [] charges)
      else Throws TypeError
  end.

(** Line 217: the date of a charge as a day number. *)
Definition to_datetime (d : DateValue) : Fallible Z :=
  match d with
  | DateStr s => strptime s
  | DateObj ordinal => Value ordinal
  end.

(** A list comprehension whose body can raise. *)
Fixpoint comprehension {A B} (f : A -> Fallible B) (l : list A)
    : Fallible (list B) :=
  match l with
  | [] => Value []
  | x :: rest => y ← f x; ys ← comprehension f rest; Value (y :: ys)
  end.

(** Line 218. *)
Fixpoint intervals (dates : list Z) : list Z :=
  match dates with
  | a :: (b :: _) as rest => (b - a)%Z :: intervals rest
  | _ => []
  end.

(** Lines 219-222: [25 <= avg_interval <= 35], where [avg_interval] is the
    sum of the intervals divided by their number, or 0 without intervals.
    The quotient of two integers is compared with 25 and 35 exactly. *)
Definition roughly_monthly (intervals : list Z) : bool :=
  match intervals with
  | [] => false
  | _ =>
      let total := foldr Z.add 0%Z intervals in
      let n := Z.of_nat (length intervals) in
      ((25 * n <=? total) && (total <=? 35 * n))%Z
  end.

(** [l[-1]] *)
Definition last_item {A} (l : list A) : Fallible A :=
  match last l with
  | Some a => Value a
  | None => Throws (IndexError "list index out of range")
  end.

(** [self._normalize_merchant_name(merchant)] as [detect_subscriptions]
    calls it, on the key of a group: on [None], [merchant_name.strip()]
    raises. *)
Definition normalized (merchant : option string) : Fallible string :=
  match merchant with
  | Some merchant_name => Value (_normalize_merchant_name merchant_name)
  | None => Throws (AttributeError "'NoneType' object has no attribute 'strip'")
  end.

(** Lines 203-231: the body of the loop over the merchants.  The entries
    of the dictionary are computed in the order in which they are
    written. *)
Definition detect_recurring (merchant : option string)
    (charges : list Transaction) : Fallible (option Subscription) :=
  if (length charges <? 2)%nat then Value None
  else
    charges ← sort_by_date charges;
    let amounts := map txn_amount charges in
    if (length (remove_dups amounts) =? 1)%nat && (2 <=? length charges)%nat then
      dates ← comprehension (λ c, to_datetime (txn_date c)) charges;
      if roughly_monthly (intervals dates) then
        normalized_name ← normalized merchant;
        first_amount ← list_item amounts 0;
        last_charge ← last_item charges;
        Value (Some {| sub_merchant_name := merchant;
                       sub_normalized_name := normalized_name;
                       sub_monthly_price := Decimal_of_str first_amount;
                       sub_last_charge_date := txn_date last_charge;
                       sub_status := "active";
                       sub_logo_url := None;
                       sub_cancellation_url := None |})
      else Value None
    else Value None.

(** [PlaidClient.detect_subscriptions], lines 176-233. *)
Definition detect_subscriptions (transactions : list Transaction)
    : Fallible (list Subscription) :=
  foldl (λ acc mc,
           detected ← acc;
           found ← detect_recurring mc.1 mc.2;
           Value (detected ++ option_list found)%list)
        (Value []) (group_by_merchant transactions).

End Detection.

(** The day numbers of charges that are dated by date objects, and the
    first and the last of a list of days. *)
Definition day_numbers `{PlaidData} (charges : list Transaction) : list Z :=
  omap (λ c, match txn_date c with
             | DateObj ordinal => Some ordinal
             | DateStr _ => None
             end) charges.

Definition earliest (days : list Z) : Z :=
  foldr Z.min (default 0%Z (head days)) days.

Definition latest (days : list Z) : Z :=
  foldr Z.max (default 0%Z (head days)) days.

(** [merchant_charges.get(merchant, [])] *)
Fixpoint charges_of `{PlaidData} (merchant : option string)
    (merchant_charges : list (option string * list Transaction))
    : list Transaction :=
  match merchant_charges with
  | [] => []
  | (m, charges) :: rest =>
      if decide (m = merchant) then charges else charges_of merchant rest
  end.

(** Every charge is dated by a date object. *)
Definition dated `{PlaidData} (charges : list Transaction) : Prop :=
  Forall (λ c, ∃ ordinal, txn_date c = DateObj ordinal) charges.

(** The test of the loop body on charges dated by date objects: at least
    two charges, one amount, and between 25 and 35 days per interval from
    the earliest to the latest charge. *)
Definition recurring `{PlaidData} (charges : list Transaction) : Prop :=
  (2 ≤ length charges)%nat
  ∧ (∀ c c', c ∈ charges -> c' ∈ charges -> txn_amount c = txn_amount c')
  ∧ (25 * (Z.of_nat (length charges) - 1)
       ≤ latest (day_numbers charges) - earliest (day_numbers charges)
       ≤ 35 * (Z.of_nat (length charges) - 1))%Z.

(** The transactions of a merchant, in the order of the input. *)
Definition transactions_of `{PlaidData} (merchant : option string)
    (transactions : list Transaction) : list Transaction :=
  filter (λ txn, txn_merchant_name txn = merchant) transactions.

(** Every character of [s] passes [P]. *)
Fixpoint all_chars (P : Ascii.ascii -> bool) (s : string) : bool :=
  match s with
  | EmptyString => true
  | String c rest => P c && all_chars P rest
  end.

(** A word: not empty, no whitespace. *)
Definition word (w : string) : Prop :=
  w ≠ "" ∧ all_chars (λ c, negb (is_space c)) w = true.

Definition star : Ascii.ascii := Ascii.ascii_of_nat 42.

Definition not_star (c : Ascii.ascii) : bool := negb (Ascii.eqb c star).

(* ===================================================================== *)
(** * Tactics *)
(* ===================================================================== *)

(** Splits on what each library call of the agent does. *)
Ltac each_call ext :=
  repeat (cbn; match goal with
    | |- context [new_browser ext ?b] => destruct (new_browser ext b) as [[]|?]
    | |- context [new_agent ext] => destruct (new_agent ext) as [[]|?]
    | |- context [agent_run ext] => destruct (agent_run ext) as [[]|?]
    | |- context [browser_screenshot ext ?p] =>
        destruct (browser_screenshot ext p) as [[]|?]
    | |- context [result_history ext] => destruct (result_history ext)
    | |- context [browser_close ext] => destruct (browser_close ext) as [[]|?]
    | |- context [if ?b then _ else _] => destruct b
    end); cbn.

(** Splits a goal about every path of a piece of [run]: one case for each
    result of an activity, each dictionary lookup and each test. *)
Ltac each_path :=
  unfold wf_getitem, getitem;
  repeat (cbn;
    match goal with
    | |- True => exact I
    | |- _ = _ => reflexivity
    | |- _ => assumption
    | |- _ ∧ _ => split
    | |- ∀ _, _ => intro
    | |- context [match ?o with Some _ => _ | None => _ end] => destruct o
    | |- context [match ?r with Completed _ => _ | Failed _ => _ end] =>
        destruct r
    | |- context [if ?b then _ else _] => destruct b
    end).

(* ===================================================================== *)
(** * Sample data for concrete runs *)
(* ===================================================================== *)

Definition sample_render : Render := fun _ => "{...}".

Definition netflix_request : dict :=
  {[ "user_id" := VStr "123";
     "service_name" := VStr "Netflix";
     "login_url" := VStr "https://netflix.com/login";
     "email" := VStr "user@example.com";
     "password" := VStr "hunter2";
     "annual_cost" := VInt 180 ]}.

(** The agent finishes the cancellation. *)
Definition agent_succeeds : BrowserExt :=
  {| new_browser := λ _, Returned tt;
     new_agent := Returned tt;
     agent_run := Returned tt;
     browser_screenshot := λ _, Returned tt;
     result_history := Returned (VObj true "AgentHistoryList(...)");
     browser_close := Returned tt;
     path_clock := "2026-01-05T10:00:07";
     stamp_clock := "2026-01-05T10:00:08";
     session_clock := "1767607208.5" |}.

(** The agent stops at a verification prompt. *)
Definition agent_meets_2fa : BrowserExt :=
  {| new_browser := λ _, Returned tt;
     new_agent := Returned tt;
     agent_run := Raised (Exception "2FA_REQUIRED: the site asks for a code");
     browser_screenshot := λ _, Returned tt;
     result_history := Returned (VObj true "AgentHistoryList(...)");
     browser_close := Returned tt;
     path_clock := "2026-01-05T10:00:07";
     stamp_clock := "2026-01-05T10:00:08";
     session_clock := "1767607208.5" |}.

(** The browser cannot even be created. *)
Definition browser_unreachable : BrowserExt :=
  {| new_browser := λ _, Raised (Exception "connection refused");
     new_agent := Returned tt;
     agent_run := Returned tt;
     browser_screenshot := λ _, Returned tt;
     result_history := Returned (VObj true "AgentHistoryList(...)");
     browser_close := Returned tt;
     path_clock := "2026-01-05T10:00:07";
     stamp_clock := "2026-01-05T10:00:08";
     session_clock := "1767607208.5" |}.

Definition wall_clock : StubExt :=
  {| now_isoformat := "2026-01-05T10:03:00";
     handler_isoformat := "2026-01-05T10:03:01" |}.

(** What [start_cancellation] returns to the workflow in the two cases. *)
Definition begin_2fa_required : dict :=
  {[ "status" := VStr "2FA_REQUIRED";
     "session_id" := VStr "Netflix_123_1767607208.5";
     "message" := VStr "User needs to provide verification code";
     "service_name" := VStr "Netflix" ]}.

Definition begin_success : dict :=
  {[ "status" := VStr "SUCCESS";
     "session_id" := VStr "Netflix_123_1767607208.5";
     "screenshot_path" := VStr "proofs/Netflix_2026-01-05T10:00:07.png";
     "timestamp" := VStr "2026-01-05T10:00:08";
     "service_name" := VStr "Netflix" ]}.

(** What [send_push_notification] returns for the push of [run]. *)
Definition push_sent : dict :=
  {[ "status" := VStr "SUCCESS";
     "delivery_status" := VStr "Notification sent to all user devices";
     "timestamp" := VStr "2026-01-05T10:03:00";
     "user_id" := VStr "123";
     "notification" :=
       VDict {[ "title" := VStr "Netflix needs verification";
                "body" := VStr "Enter the code from your SMS/email to continue cancellation";
                "data" := VDict ∅ ]} ]}.

(** What [inject_2fa_code] returns for the code 482913. *)
Definition code_injected : dict :=
  {[ "status" := VStr "SUCCESS";
     "session_id" := VStr "Netflix_123_1767607208.5";
     "message" := VStr "2FA code verified and cancellation continued" ]}.

(** What [capture_proof] returns for that session. *)
Definition proof_captured : dict :=
  {[ "screenshot_url" :=
       VStr "https://storage.supabase.co/proof/Netflix_123_1767607208.5/screenshot.png";
     "video_url" :=
       VStr "https://steel.dev/sessions/Netflix_123_1767607208.5/recording.mp4";
     "timestamp" := VStr "2026-01-05T10:03:00";
     "session_id" := VStr "Netflix_123_1767607208.5" ]}.

(** The workflow tasks of a run with a 2FA challenge: the begin activity
    reports the challenge, the push is sent, the user submits 482913, the
    code is injected. *)
Definition until_waiting : list (string * Job) :=
  [ ("2026-01-05T10:00:09", ResolveActivity (Completed begin_2fa_required));
    ("2026-01-05T10:00:10", ResolveActivity (Completed push_sent)) ].

Definition until_verifying : list (string * Job) :=
  until_waiting ++ [ ("2026-01-05T10:02:30", SignalWorkflow "482913") ].

Definition until_capturing : list (string * Job) :=
  until_verifying
  ++ [ ("2026-01-05T10:02:32", ResolveActivity (Completed code_injected)) ].

(** Every attempt of the activity runs into its start-to-close timeout. *)
Definition always_times_out (n : nat) : Attempt :=
  Fails Retryable "activity StartToClose timeout".

(** What [send_push_notification] returns when a parameter is missing. *)
Definition push_failed : dict :=
  {[ "status" := VStr "FAILED";
     "delivery_status" := VStr "Missing required parameters: user_id, title, body";
     "timestamp" := VStr "2026-01-05T10:03:00" ]}.

(** A request that names no user: the user_id is the empty string. *)
Definition request_without_user : dict :=
  {[ "user_id" := VStr "";
     "service_name" := VStr "Netflix";
     "login_url" := VStr "https://netflix.com/login";
     "email" := VStr "user@example.com";
     "password" := VStr "hunter2";
     "annual_cost" := VInt 180 ]}.

(** What [start_cancellation] returns for it at a verification prompt. *)
Definition begin_2fa_without_user : dict :=
  {[ "status" := VStr "2FA_REQUIRED";
     "session_id" := VStr "Netflix__1767607208.5";
     "message" := VStr "User needs to provide verification code";
     "service_name" := VStr "Netflix" ]}.

(** The payload of the push for the sample request. *)
Definition push_payload : dict :=
  {[ "user_id" := VStr "123";
     "title" := VStr "Netflix needs verification";
     "body" := VStr "Enter the code from your SMS/email to continue cancellation" ]}.

(** What the [except] block of [capture_proof] returns. *)
Definition proof_not_captured : dict :=
  {[ "screenshot_url" := VNone;
     "video_url" := VNone;
     "message" := VStr "Failed to capture proof: upload failed" ]}.

(** The agent finishes the cancellation, but the browser cannot be
    closed. *)
Definition browser_does_not_close : BrowserExt :=
  {| new_browser := λ _, Returned tt;
     new_agent := Returned tt;
     agent_run := Returned tt;
     browser_screenshot := λ _, Returned tt;
     result_history := Returned (VObj true "AgentHistoryList(...)");
     browser_close := Raised (Exception "Target closed");
     path_clock := "2026-01-05T10:00:07";
     stamp_clock := "2026-01-05T10:00:08";
     session_clock := "1767607208.5" |}.

(** A request without a password. *)
Definition request_without_password : dict :=
  {[ "user_id" := VStr "123";
     "service_name" := VStr "Netflix";
     "login_url" := VStr "https://netflix.com/login";
     "email" := VStr "user@example.com" ]}.

(** What [start_cancellation] returns when the agent gives up. *)
Definition begin_failed : dict :=
  {[ "status" := VStr "FAILED";
     "message" := VStr "cancel button not found";
     "service_name" := VStr "Netflix" ]}.

(** What [inject_2fa_code] returns without a code. *)
Definition code_rejected : dict :=
  {[ "status" := VStr "FAILED";
     "message" := VStr "Missing required parameters: session_id, code" ]}.

(** Credentials as the vault stores them. *)
Definition sample_credentials : dict :=
  {[ "email" := VStr "user@example.com";
     "password" := VStr "hunter2";
     "totp_SECRET" := VStr "JBSWY3DPEHPK3PXP";
     "username" := VStr "user" ]}.

(** What the sanitizer makes of them. *)
Definition sanitized_sample : dict :=
  {[ "email" := VStr "u***@example.com";
     "password" := VStr "***";
     "totp_SECRET" := VStr "***";
     "username" := VStr "user" ]}.

(** Numbers given by their decimal text, which is what [str] writes and
    [Decimal] reads, and a [strptime] that knows two days. *)
Definition sample_data : PlaidData :=
  {| Number := string;
     Decimal := string;
     Decimal_of_str := λ amount,
       match amount with
       | Num text => text
       | NaN _ => "NaN"
       end;
     strptime := λ s,
       if String.eqb s "2024-01-01" then Value 738886%Z
       else if String.eqb s "2024-01-31" then Value 738916%Z
       else Throws (ValueError "time data does not match format '%Y-%m-%d'") |}.

(** An amount of the sample data by its text, and a NaN by its object. *)
Definition amount (text : string) : Amount (@Number sample_data) := Num text.
Definition nan (object : nat) : Amount (@Number sample_data) := NaN object.

(** Three monthly charges of one merchant, a single charge of another, a
    single charge without a merchant name, and two monthly charges whose
    amounts are two NaN objects; all dated by date objects (1 January 2024
    is day 738886). *)
Definition sample_transactions : list (@Transaction sample_data) :=
  [ {| txn_merchant_name := Some "NETFLIX.COM";
       txn_date := DateObj 738916; txn_amount := amount "15.99" |};
    {| txn_merchant_name := Some "Corner Gym";
       txn_date := DateObj 738890; txn_amount := amount "30.0" |};
    {| txn_merchant_name := None;
       txn_date := DateObj 738900; txn_amount := amount "4.5" |};
    {| txn_merchant_name := Some "NETFLIX.COM";
       txn_date := DateObj 738886; txn_amount := amount "15.99" |};
    {| txn_merchant_name := Some "Broken Feed";
       txn_date := DateObj 738886; txn_amount := nan 0 |};
    {| txn_merchant_name := Some "NETFLIX.COM";
       txn_date := DateObj 738946; txn_amount := amount "15.99" |};
    {| txn_merchant_name := Some "Broken Feed";
       txn_date := DateObj 738916; txn_amount := nan 1 |} ].

(** What is detected in them. *)
Definition sample_subscription : @Subscription sample_data :=
  {| sub_merchant_name := Some "NETFLIX.COM";
     sub_normalized_name := "Netflix";
     sub_monthly_price := "15.99" : @Decimal sample_data;
     sub_last_charge_date := DateObj 738946;
     sub_status := "active";
     sub_logo_url := None;
     sub_cancellation_url := None |}.

(** Two monthly charges of one amount without a merchant name. *)
Definition nameless_transactions : list (@Transaction sample_data) :=
  [ {| txn_merchant_name := None;
       txn_date := DateObj 738886; txn_amount := amount "9.99" |};
    {| txn_merchant_name := Some "Corner Gym";
       txn_date := DateObj 738890; txn_amount := amount "30.0" |};
    {| txn_merchant_name := None;
       txn_date := DateObj 738916; txn_amount := amount "9.99" |} ].

(** A charge dated by a string and a charge dated by a date object. *)
Definition charge_dated_by_string : @Transaction sample_data :=
  {| txn_merchant_name := Some "NETFLIX.COM";
     txn_date := DateStr "2024-01-01"; txn_amount := amount "15.99" |}.

Definition charge_dated_by_date : @Transaction sample_data :=
  {| txn_merchant_name := Some "NETFLIX.COM";
     txn_date := DateObj 738916; txn_amount := amount "15.99" |}.

(* ===================================================================== *)
(** * Properties of the activities *)
(* ===================================================================== *)

(** The sample dictionaries are what the activities return. *)
Example start_cancellation_sample_2fa :
  outcome (@start_cancellation sample_render agent_meets_2fa netflix_request)
  = Returned begin_2fa_required.
Proof. reflexivity. Qed.

Example start_cancellation_sample_success :
  outcome (@start_cancellation sample_render agent_succeeds netflix_request)
  = Returned begin_success.
Proof. reflexivity. Qed.

Example send_push_notification_sample :
  outcome (send_push_notification wall_clock
             {[ "user_id" := VStr "123";
                "title" := VStr "Netflix needs verification";
                "body" := VStr "Enter the code from your SMS/email to continue cancellation" ]})
  = Returned push_sent.
Proof. reflexivity. Qed.

Example inject_2fa_code_sample :
  outcome (inject_2fa_code wall_clock
             {[ "session_id" := VStr "Netflix_123_1767607208.5";
                "code" := VStr "482913" ]})
  = Returned code_injected.
Proof. reflexivity. Qed.

Example start_cancellation_sample_unreachable :
  outcome (@start_cancellation sample_render browser_unreachable netflix_request)
  = Returned {[ "status" := VStr "FAILED";
                "message" := VStr "Exception occurred: connection refused";
                "service_name" := VStr "Netflix" ]}.
Proof. reflexivity. Qed.

Example send_push_notification_sample_failed :
  outcome (send_push_notification wall_clock
             {[ "user_id" := VStr "";
                "title" := VStr "Netflix needs verification";
                "body" := VStr "Enter the code from your SMS/email to continue cancellation" ]})
  = Returned push_failed.
Proof. reflexivity. Qed.

Example start_cancellation_sample_without_user :
  outcome (@start_cancellation sample_render agent_meets_2fa request_without_user)
  = Returned begin_2fa_without_user.
Proof. reflexivity. Qed.

Example capture_proof_sample :
  outcome (@capture_proof sample_render wall_clock
             {[ "session_id" := VStr "Netflix_123_1767607208.5" ]})
  = Returned proof_captured.
Proof. reflexivity. Qed.

Section ActivityProperties.
Context {R : Render}.

Lemma outcome_bind {A B} (m : Act A) (f : A -> Act B) :
  outcome (m ≫= f) =
  match outcome m with
  | Returned a => outcome (f a)
  | Raised e => Raised e
  end.
Proof. unfold mbind, Act_bind, act_bind. destruct (outcome m); reflexivity. Qed.

Lemma outcome_try_except {A} (body : Act A) (handler : exn -> Act A) :
  outcome (try_except body handler) =
  match outcome body with
  | Returned a => Returned a
  | Raised e => outcome (handler e)
  end.
Proof. unfold try_except. destruct (outcome body) eqn:E; simpl; auto. Qed.

(** When [cancel_subscription] returns, its result carries a status. *)
Lemma cancel_subscription_status ext sn lu em pw us result :
  outcome (cancel_subscription ext sn lu em pw us) = Returned result ->
  known_status result.
Proof.
  unfold cancel_subscription, try_finally, try_except, call, known_status. cbn.
  each_call ext; intros Heq; inversion Heq; subst; auto.
Qed.

(** An exception of the agent whose text mentions 2FA or verification
    becomes a 2FA_REQUIRED result, any other a FAILED result that carries
    the text. *)
Lemma cancel_subscription_classifies ext sn lu em pw us e :
  new_browser ext (truthy us) = Returned tt ->
  new_agent ext = Returned tt ->
  agent_run ext = Raised e ->
  browser_close ext = Returned tt ->
  outcome (cancel_subscription ext sn lu em pw us) =
  Returned
    (if contains "2FA" (exn_str e) || contains "verification" (lower (exn_str e))
     then {[ "status" := VStr "2FA_REQUIRED";
             "service" := sn;
             "message" := VStr "User needs to provide verification code" ]}
     else {[ "status" := VStr "FAILED";
             "service" := sn;
             "error" := VStr (exn_str e) ]}).
Proof.
  intros Hb Ha Hr Hc.
  unfold cancel_subscription, try_finally, try_except, call. cbn.
  rewrite Hb, Ha, Hr, Hc. cbn. destruct (_ || _); reflexivity.
Qed.

(** C10.  For every request and whatever the browser library does,
    [start_cancellation] returns a dictionary and never raises.  The result
    carries one of the three statuses; an exception that escapes
    [cancel_subscription] (which turns the agent's own exceptions into
    2FA_REQUIRED or FAILED results, see [cancel_subscription_classifies])
    becomes a FAILED result with its text.  So the first attempt of the
    engine always succeeds and the retry policy of [run] is never
    consulted. *)
Theorem start_cancellation_never_raises
    (exts : nat -> BrowserExt) (request : dict) :
  ∃ d,
    outcome (start_cancellation (exts 1%nat) request) = Returned d
    ∧ known_status d
    ∧ (∀ e,
         all [py_get request "service_name"; py_get request "login_url";
              py_get request "email"; py_get request "password"] = true ->
         outcome (cancel_subscription (exts 1%nat)
                    (py_get request "service_name") (py_get request "login_url")
                    (py_get request "email") (py_get request "password")
                    (py_get_default request "use_steel" (VBool false)))
           = Raised e ->
         d = {[ "status" := VStr "FAILED";
                "message" := VStr ("Exception occurred: " ++ exn_str e);
                "service_name" := py_get request "service_name" ]})
    ∧ invoke (mkRetryPolicy (seconds 1) (minutes 5) 3)
             (λ n, attempt_of (start_cancellation (exts n) request))
      = (Completed d,
         [ {| attempt_no := 1; waited_before := 0;
              attempt_outcome := Succeeds d |} ]).
Proof.
  assert (Hret : ∃ d, outcome (start_cancellation (exts 1%nat) request) = Returned d
                      ∧ known_status d
                      ∧ (∀ e,
         all [py_get request "service_name"; py_get request "login_url";
              py_get request "email"; py_get request "password"] = true ->
         outcome (cancel_subscription (exts 1%nat)
                    (py_get request "service_name") (py_get request "login_url")
                    (py_get request "email") (py_get request "password")
                    (py_get_default request "use_steel" (VBool false)))
           = Raised e ->
         d = {[ "status" := VStr "FAILED";
                "message" := VStr ("Exception occurred: " ++ exn_str e);
                "service_name" := py_get request "service_name" ]})).
  { unfold start_cancellation.
    rewrite outcome_bind. cbn [logger_info outcome].
    rewrite outcome_try_except.
    destruct (negb _) eqn:Hall.
    - eexists. split; [reflexivity|]. split; [right; right; reflexivity|].
      intros e Hall'. rewrite Hall' in Hall. discriminate.
    - rewrite outcome_bind.
      destruct (outcome (cancel_subscription _ _ _ _ _ _)) as [result|e] eqn:Hc.
      + apply cancel_subscription_status in Hc as Hst.
        rewrite outcome_bind. cbn [call outcome]. unfold getitem.
        destruct Hst as [Hst|[Hst|Hst]]; rewrite Hst; cbn;
          (eexists; split; [reflexivity|]; split; [|discriminate]);
          unfold known_status; auto.
      + cbn. eexists. split; [reflexivity|]. split; [right; right; reflexivity|].
        intros e' _ [= <-]. reflexivity. }
  destruct Hret as (d & Hd & Hst & Hex).
  exists d. repeat split; try assumption.
  unfold invoke, attempt_of. cbn -[start_cancellation]. rewrite Hd. reflexivity.
Qed.

End ActivityProperties.

(* ===================================================================== *)
(** * Properties of the interpreter *)
(* ===================================================================== *)

Lemma advance_two_fa_code now obj hist m :
  two_fa_code (self (advance now obj hist m)) = two_fa_code obj.
Proof.
  revert obj hist.
  induction m as [d|e|s k IH|k IH|k IH|a payload opts k IH|cond timeout k IH];
    intros obj hist; cbn [advance]; auto.
  - rewrite IH. reflexivity.
  - destruct (cond obj); auto.
Qed.

(** [advance] only adds to the history. *)
Lemma advance_history_app now obj hist m :
  history (advance now obj hist m)
  = (hist ++ history (advance now obj [] m))%list.
Proof.
  revert obj hist.
  induction m as [d|e|s k IH|k IH|k IH|a payload opts k IH|cond timeout k IH];
    intros obj hist; cbn [advance history].
  - symmetry. apply app_nil_r.
  - symmetry. apply app_nil_r.
  - rewrite IH. rewrite (IH _ ([] ++ _)%list). rewrite <- app_assoc. reflexivity.
  - apply IH.
  - apply IH.
  - reflexivity.
  - destruct (cond obj); [apply IH|]. symmetry. apply app_nil_r.
Qed.

(** [advance] stops at the end of [run] or at a suspension point. *)
Lemma advance_stops now obj hist m :
  finished (advance now obj hist m) ∨ suspended (advance now obj hist m).
Proof.
  revert obj hist.
  induction m as [d|e|s k IH|k IH|k IH|a payload opts k IH|cond timeout k IH];
    intros obj hist; cbn [advance]; auto.
  - left. exact I.
  - left. exact I.
  - right. exact I.
  - destruct (cond obj) eqn:Hc; [apply IH | right; exact Hc].
Qed.

Lemma follows_app cur h1 h2 :
  follows cur (h1 ++ h2) = follows cur h1 ≫= λ c, follows c h2.
Proof.
  revert cur. induction h1 as [|ev h1 IH]; intros cur; [reflexivity|].
  destruct ev; cbn [app follows]; auto.
  destruct (_ && _); auto.
Qed.

Lemma advance_graph now c0 obj hist m :
  follows c0 hist = Some (status obj) ->
  graph_ok (status obj) m ->
  follows c0 (history (advance now obj hist m))
    = Some (status (self (advance now obj hist m)))
  ∧ graph_ok (status (self (advance now obj hist m)))
             (task (advance now obj hist m)).
Proof.
  revert obj hist.
  induction m as [d|e|s k IH|k IH|k IH|a payload opts k IH|cond timeout k IH];
    intros obj hist Hf Hg; cbn [advance].
  - cbn [self task history]. auto.
  - cbn [self task history]. auto.
  - destruct Hg as [Ha Hk]. apply IH; [|exact Hk].
    rewrite follows_app, Hf. cbn. rewrite String.eqb_refl, Ha. reflexivity.
  - apply IH; [exact Hf | apply Hg].
  - apply IH; [exact Hf | apply Hg].
  - cbn [self task history]. split; [|exact Hg].
    rewrite follows_app, Hf. reflexivity.
  - destruct (cond obj); [apply IH; [exact Hf | apply Hg]|].
    cbn [self task history]. auto.
Qed.

Lemma inject_count_app h1 h2 :
  inject_count (h1 ++ h2) = (inject_count h1 + inject_count h2)%nat.
Proof.
  unfold inject_count, activities_of.
  rewrite omap_app, List.filter_app, length_app. reflexivity.
Qed.

Lemma advance_injects_once now obj hist m :
  (inject_count hist ≤ 1)%nat ->
  injects_once (Nat.eqb (inject_count hist) 0) m ->
  injects_once_more (advance now obj hist m).
Proof.
  revert obj hist.
  induction m as [d|e|s k IH|k IH|k IH|a payload opts k IH|cond timeout k IH];
    intros obj hist Hle Hm; cbn [advance].
  - split; [exact Hle | exact I].
  - split; [exact Hle | exact I].
  - apply IH; rewrite inject_count_app, Nat.add_0_r; assumption.
  - apply IH; [exact Hle | apply Hm].
  - apply IH; [exact Hle | apply Hm].
  - unfold injects_once_more; cbn [task history].
    rewrite inject_count_app. cbn [injects_once] in Hm.
    destruct a; cbn in Hm |- *; rewrite ?Nat.add_0_r; try (split; assumption).
    destruct Hm as [Hb Hk]. apply Nat.eqb_eq in Hb. rewrite Hb.
    split; [cbn; lia | exact Hk].
  - destruct (cond obj); [apply IH; [exact Hle | apply Hm]|].
    split; [exact Hle | exact Hm].
Qed.

Lemma activate_invariant now j i i' :
  invariant i -> activate now j i = Some i' -> invariant i'.
Proof.
  intros (Hf & Hg & Hle & Hi) Hact. unfold activate in Hact.
  destruct j as [code|r|], (task i) as [d|e|s k|k|k|a payload opts k|cond timeout k] eqn:Ht;
    try discriminate; injection Hact as <-.
  - (* a signal while an activity is pending *)
    unfold invariant, injects_once_more; cbn [self task history provide_2fa_code status].
    rewrite follows_app, Hf, inject_count_app, Nat.add_0_r.
    refine (conj eq_refl (conj Hg (conj Hle Hi))).
  - (* a signal that wakes the wait *)
    destruct (advance_graph now "PENDING" (provide_2fa_code (self i) code)
                (history i ++ [SignalReceived code])
                (WaitCondition cond timeout k)) as [Hf' Hg'].
    + rewrite follows_app, Hf. reflexivity.
    + exact Hg.
    + refine (conj Hf' (conj Hg' _)).
      apply (advance_injects_once now (provide_2fa_code (self i) code)
               (history i ++ [SignalReceived code])
               (WaitCondition cond timeout k));
        rewrite inject_count_app, Nat.add_0_r; assumption.
  - (* the pending activity resolves *)
    destruct (advance_graph now "PENDING" (self i) (history i) (k r))
      as [Hf' Hg']; [exact Hf | apply Hg |].
    refine (conj Hf' (conj Hg' _)).
    apply advance_injects_once; [exact Hle | apply Hi].
  - (* the timer of the wait fires *)
    destruct (advance_graph now "PENDING" (self i)
                (history i ++ [TimerFired]) (k false)) as [Hf' Hg'].
    + rewrite follows_app, Hf. reflexivity.
    + apply Hg.
    + refine (conj Hf' (conj Hg' _)).
      apply advance_injects_once;
        rewrite inject_count_app, Nat.add_0_r; [exact Hle | apply Hi].
Qed.

Lemma exec_invariant jobs i i' :
  invariant i -> exec jobs i = Some i' -> invariant i'.
Proof.
  revert i. induction jobs as [|[now j] jobs IH]; intros i Hinv Hex; cbn in Hex.
  - injection Hex as <-. exact Hinv.
  - destruct (activate now j i) as [i1|] eqn:Hact; [|discriminate].
    eapply IH; [|exact Hex]. eapply activate_invariant; eassumption.
Qed.

Lemma exec_app jobs1 jobs2 i :
  exec (jobs1 ++ jobs2) i = exec jobs1 i ≫= exec jobs2.
Proof.
  revert i. induction jobs1 as [|[now j] jobs1 IH]; intros i; [reflexivity|].
  cbn. destruct (activate now j i); [apply IH | reflexivity].
Qed.

(** Once [self.status] is terminal, [run] has finished and no job is
    accepted any more. *)
Lemma terminal_refuses i :
  graph_ok (status (self i)) (task i) ->
  terminal (status (self i)) = true ->
  ∀ now j, activate now j i = None.
Proof.
  intros Hg Ht now j. unfold activate.
  destruct (task i); cbn in Hg; destruct j; try reflexivity;
    destruct Hg as [Hn _]; congruence.
Qed.

(** No assignment starts from a terminal status. *)
Lemma allowed_not_terminal previous new :
  allowed previous new = true -> terminal previous = false.
Proof.
  unfold allowed. intros [Hedge|Hfailed]%orb_true_iff.
  - apply bool_decide_eq_true in Hedge. unfold edges in Hedge.
    repeat (apply elem_of_cons in Hedge as [[= -> ->]|Hedge]; [reflexivity|]).
    apply elem_of_nil in Hedge. destruct Hedge.
  - apply andb_true_iff in Hfailed as [_ Hn].
    apply negb_true_iff in Hn. exact Hn.
Qed.

(** What [follows] says about each assignment of a history. *)
Lemma follows_Transition cur before previous new after c :
  follows cur (before ++ Transition previous new :: after) = Some c ->
  follows cur before = Some previous ∧ allowed previous new = true.
Proof.
  rewrite follows_app. destruct (follows cur before) as [c0|]; [|discriminate].
  cbn [mbind option_bind follows].
  destruct (String.eqb previous c0) eqn:Heq; [|discriminate].
  apply String.eqb_eq in Heq. subst c0.
  destruct (allowed previous new); [|discriminate]. auto.
Qed.

(** A history that ends in a status that is not terminal has never
    assigned a terminal one. *)
Lemma follows_never_terminal cur hist c :
  follows cur hist = Some c ->
  terminal c = false ->
  terminal cur = false ∧ ∀ s, s ∈ statuses_of hist -> terminal s = false.
Proof.
  revert cur. induction hist as [|ev hist IH]; intros cur Hf Hc.
  - injection Hf as ->. split; [exact Hc|].
    intros s Hs. apply elem_of_nil in Hs. destruct Hs.
  - destruct ev as [p n|a payload opts|code|]; cbn [follows] in Hf;
      try (destruct (IH cur Hf Hc) as [Hcur Hall]; split; [exact Hcur | exact Hall]).
    destruct (String.eqb p cur) eqn:Heq; [|discriminate Hf].
    apply String.eqb_eq in Heq. subst p.
    destruct (allowed cur n) eqn:Ha; [|discriminate Hf]. cbn in Hf.
    destruct (IH n Hf Hc) as [Hn Hall].
    split; [apply (allowed_not_terminal cur n Ha)|].
    intros s Hs. change (s ∈ n :: statuses_of hist) in Hs.
    apply elem_of_cons in Hs as [->|Hs]; [exact Hn | apply Hall, Hs].
Qed.

Lemma advance_settled now obj hist m :
  graph_ok (status obj) m ->
  (terminal (status obj) = true ->
   ∃ before previous, hist = (before ++ [Transition previous (status obj)])%list) ->
  settled (advance now obj hist m).
Proof.
  revert obj hist.
  induction m as [d|e|s k IH|k IH|k IH|a payload opts k IH|cond timeout k IH];
    intros obj hist Hg Hs; cbn [advance].
  - exact Hs.
  - exact Hs.
  - destruct Hg as [_ Hk]. apply IH; [exact Hk|].
    cbn [status]. intros _. eauto.
  - apply IH; [apply Hg | exact Hs].
  - apply IH; [apply Hg | exact Hs].
  - destruct Hg as [Hn _]. intros Ht. cbn [self status] in Ht. congruence.
  - destruct (cond obj); [apply IH; [apply Hg | exact Hs]|].
    destruct Hg as [Hn _]. intros Ht. cbn [self status] in Ht. congruence.
Qed.

Lemma activate_settled now j i i' :
  graph_ok (status (self i)) (task i) ->
  activate now j i = Some i' -> settled i'.
Proof.
  intros Hg Hact. unfold activate in Hact.
  destruct j as [code|r|],
    (task i) as [d|e|s k|k|k|a payload opts k|cond timeout k] eqn:Ht;
    try discriminate; injection Hact as <-; destruct Hg as [Hn Hk].
  - intros Hterm. cbn [self provide_2fa_code status] in Hterm. congruence.
  - apply (advance_settled now (provide_2fa_code (self i) code)
             (history i ++ [SignalReceived code])
             (WaitCondition cond timeout k));
      cbn [provide_2fa_code status]; [split; assumption | intros; congruence].
  - apply (advance_settled now (self i) (history i) (k r));
      [apply Hk | intros; congruence].
  - apply (advance_settled now (self i) (history i ++ [TimerFired]) (k false));
      [apply Hk | intros; congruence].
Qed.

Lemma exec_settled jobs i i' :
  invariant i -> settled i -> exec jobs i = Some i' -> settled i'.
Proof.
  revert i. induction jobs as [|[now j] jobs IH]; intros i Hinv Hs Hex;
    cbn in Hex.
  - injection Hex as <-. exact Hs.
  - destruct (activate now j i) as [i1|] eqn:Hact; [|discriminate].
    apply (IH i1); [| |exact Hex].
    + eapply activate_invariant; eassumption.
    + destruct Hinv as (_ & Hg & _). eapply activate_settled; eassumption.
Qed.

(** Nothing ever empties [two_fa_code] again. *)
Lemma activate_keeps_code now j i i' :
  activate now j i = Some i' ->
  is_Some (two_fa_code (self i)) -> is_Some (two_fa_code (self i')).
Proof.
  intros Hact Hc. unfold activate in Hact.
  destruct j, (task i); try discriminate; injection Hact as <-;
    try match goal with |- context [if ?c then _ else _] => destruct c end;
    rewrite ?advance_two_fa_code; cbn; eauto.
Qed.

Lemma exec_keeps_code jobs i i' :
  exec jobs i = Some i' ->
  is_Some (two_fa_code (self i)) -> is_Some (two_fa_code (self i')).
Proof.
  revert i. induction jobs as [|[now j] jobs IH]; intros i Hex Hc; cbn in Hex.
  - injection Hex as <-. exact Hc.
  - destruct (activate now j i) as [i1|] eqn:Hact; [|discriminate].
    eapply IH; [exact Hex|]. eapply activate_keeps_code; eassumption.
Qed.

Lemma advance_code_kept now obj hist has m :
  (has = true -> is_Some (two_fa_code obj)) ->
  reads_after_wait has m ->
  ((1 ≤ inject_count hist)%nat -> is_Some (two_fa_code obj)) ->
  code_kept (advance now obj hist m).
Proof.
  revert obj hist has.
  induction m as [d|e|s k IH|k IH|k IH|a payload opts k IH|cond timeout k IH];
    intros obj hist has Hhas Hm Hc; cbn [advance].
  - split; [exact Hc | exists has; auto].
  - split; [exact Hc | exists has; auto].
  - apply (IH _ _ has); cbn [two_fa_code];
      [exact Hhas | exact Hm |].
    rewrite inject_count_app, Nat.add_0_r. exact Hc.
  - apply (IH obj _ _ has); [exact Hhas | apply Hm | exact Hc].
  - apply (IH now _ _ has); [exact Hhas | apply Hm | exact Hc].
  - split; [|exists has; split; [exact Hhas | exact Hm]].
    cbn [history self].
    rewrite inject_count_app. destruct Hm as [Hi _].
    destruct a; cbn in Hi |- *; rewrite ?Nat.add_0_r;
      solve [exact Hc | intros _; apply Hhas, Hi; reflexivity].
  - destruct Hm as (Hcond & Htrue & Hfalse).
    destruct (cond obj) eqn:Hco.
    + apply (IH true _ _ true); [intros _; apply Hcond, Hco | exact Htrue | exact Hc].
    + split; [exact Hc | exists has; split; [exact Hhas|]].
      cbn. auto.
Qed.

Lemma activate_code_kept now j i i' :
  code_kept i -> activate now j i = Some i' -> code_kept i'.
Proof.
  intros (Hc & has & Hhas & Hm) Hact. unfold activate in Hact.
  destruct j as [code|r|], (task i) as [d|e|s k|k|k|a payload opts k|cond timeout k] eqn:Ht;
    try discriminate; injection Hact as <-.
  - split; cbn [self provide_2fa_code two_fa_code]; [eauto|].
    exists has. cbn [task]. split; [eauto | exact Hm].
  - apply (advance_code_kept now (provide_2fa_code (self i) code)
             (history i ++ [SignalReceived code]) has
             (WaitCondition cond timeout k)); cbn [provide_2fa_code two_fa_code];
      eauto.
  - apply (advance_code_kept _ _ _ has); [exact Hhas | apply Hm | exact Hc].
  - apply (advance_code_kept _ _ _ has); [exact Hhas | apply Hm |].
    rewrite inject_count_app, Nat.add_0_r. exact Hc.
Qed.

Lemma exec_code_kept jobs i i' :
  code_kept i -> exec jobs i = Some i' -> code_kept i'.
Proof.
  revert i. induction jobs as [|[now j] jobs IH]; intros i Hinv Hex; cbn in Hex.
  - injection Hex as <-. exact Hinv.
  - destruct (activate now j i) as [i1|] eqn:Hact; [|discriminate].
    eapply IH; [|exact Hex]. eapply activate_code_kept; eassumption.
Qed.

Lemma advance_always Φ now obj hist m :
  always Φ (status obj) m ->
  Φ (status (self (advance now obj hist m))) (task (advance now obj hist m))
  ∧ always Φ (status (self (advance now obj hist m)))
             (task (advance now obj hist m)).
Proof.
  revert obj hist.
  induction m as [d|e|s k IH|k IH|k IH|a payload opts k IH|cond timeout k IH];
    intros obj hist Hm; cbn [advance].
  - split; exact Hm.
  - split; exact Hm.
  - apply IH. exact Hm.
  - apply IH. apply Hm.
  - apply IH. apply Hm.
  - split; [apply Hm | exact Hm].
  - destruct (cond obj); [apply IH; apply Hm|].
    split; [apply Hm | exact Hm].
Qed.

Lemma activate_always Φ now j i i' :
  always Φ (status (self i)) (task i) ->
  activate now j i = Some i' ->
  Φ (status (self i')) (task i') ∧ always Φ (status (self i')) (task i').
Proof.
  intros Hm Hact. unfold activate in Hact.
  destruct j as [code|r|], (task i) as [d|e|s k|k|k|a payload opts k|cond timeout k] eqn:Ht;
    try discriminate; injection Hact as <-.
  - cbn [self task status provide_2fa_code]. split; [apply Hm | exact Hm].
  - apply (advance_always Φ now (provide_2fa_code (self i) code)
             (history i ++ [SignalReceived code]) (WaitCondition cond timeout k)).
    exact Hm.
  - apply advance_always. apply Hm.
  - apply advance_always. apply Hm.
Qed.

Lemma exec_always Φ jobs i i' :
  Φ (status (self i)) (task i) ->
  always Φ (status (self i)) (task i) ->
  exec jobs i = Some i' ->
  Φ (status (self i')) (task i') ∧ always Φ (status (self i')) (task i').
Proof.
  revert i. induction jobs as [|[now j] jobs IH]; intros i H0 Hm Hex; cbn in Hex.
  - injection Hex as <-. split; assumption.
  - destruct (activate now j i) as [i1|] eqn:Hact; [|discriminate].
    destruct (activate_always Φ now j i i1 Hm Hact) as [H1 Hm1].
    apply (IH i1); assumption.
Qed.

(** Between two workflow tasks [run] is at its end or suspended. *)
Lemma activate_stops now j i i' :
  activate now j i = Some i' -> finished i' ∨ suspended i'.
Proof.
  intros Hact. unfold activate in Hact.
  destruct j as [code|r|], (task i) as [d|e|s k|k|k|a payload opts k|cond timeout k] eqn:Ht;
    try discriminate; injection Hact as <-.
  - right. exact I.
  - apply (advance_stops now (provide_2fa_code (self i) code)
             (history i ++ [SignalReceived code]) (WaitCondition cond timeout k)).
  - apply advance_stops.
  - apply advance_stops.
Qed.

Lemma exec_stops jobs i i' :
  finished i ∨ suspended i -> exec jobs i = Some i' ->
  finished i' ∨ suspended i'.
Proof.
  revert i. induction jobs as [|[now j] jobs IH]; intros i H0 Hex; cbn in Hex.
  - injection Hex as <-. exact H0.
  - destruct (activate now j i) as [i1|] eqn:Hact; [|discriminate].
    apply (IH i1); [|exact Hex]. eapply activate_stops; eassumption.
Qed.

(** Signals that arrive while an activity is pending only fill
    [two_fa_code]; [run] stays where it is. *)
Lemma exec_signals_pending codes i a payload opts k :
  task i = ExecuteActivity a payload opts k ->
  exec (signals codes) i =
  Some {| self := {| two_fa_code := last_code (two_fa_code (self i)) codes;
                     status := status (self i) |};
          task := task i;
          history := history i ++ map (λ tc, SignalReceived tc.2) codes |}.
Proof.
  revert i. induction codes as [|[t c] codes IH]; intros i Ht.
  - cbn. rewrite app_nil_r. destruct i as [[c0 st] tk h]; reflexivity.
  - cbn [signals map exec fst snd]. unfold activate. rewrite Ht.
    fold (signals codes). erewrite IH; [|reflexivity].
    cbn. rewrite <- app_assoc. reflexivity.
Qed.

(* ===================================================================== *)
(** * Properties of the workflow *)
(* ===================================================================== *)

Section WorkflowProperties.
Context {R : Render}.

Lemma allowed_FAILED cur : terminal cur = false -> allowed cur "FAILED" = true.
Proof. unfold allowed. intros ->. apply orb_true_r. Qed.

Lemma step4_graph_ok cur request result :
  allowed cur "CAPTURING_PROOF" = true -> terminal cur = false ->
  graph_ok cur (step4_capture_proof request result).
Proof.
  intros Ha Ht. unfold step4_capture_proof, capture_task, finalize.
  each_path; apply allowed_FAILED; assumption.
Qed.

Lemma run_graph_ok request : graph_ok "PENDING" (run request).
Proof.
  unfold run, begin_task, after_step1, step2_handle_2fa, notify_task,
    wait_for_2fa_code, step3_inject_2fa, inject_task.
  each_path; apply step4_graph_ok; reflexivity.
Qed.

Lemma step4_injects_once budget request result :
  injects_once budget (step4_capture_proof request result).
Proof. unfold step4_capture_proof, capture_task, finalize. each_path. Qed.

Lemma run_injects_once request : injects_once true (run request).
Proof.
  unfold run, begin_task, after_step1, step2_handle_2fa, notify_task,
    wait_for_2fa_code, step3_inject_2fa, inject_task.
  each_path; apply step4_injects_once.
Qed.

Lemma step4_reads_after_wait has request result :
  reads_after_wait has (step4_capture_proof request result).
Proof.
  unfold step4_capture_proof, capture_task, finalize. each_path; discriminate.
Qed.

Lemma run_reads_after_wait request : reads_after_wait false (run request).
Proof.
  unfold run, begin_task, after_step1, step2_handle_2fa, notify_task,
    wait_for_2fa_code, step3_inject_2fa, inject_task.
  each_path; try discriminate; try apply step4_reads_after_wait.
  all: match goal with
       | Hc : is_not_None (two_fa_code ?o) = true |- _ =>
           destruct (two_fa_code o); [eauto | discriminate Hc]
       end.
Qed.

Lemma start_code_kept now request : code_kept (start now request).
Proof.
  apply (advance_code_kept _ _ _ false);
    [discriminate | apply run_reads_after_wait | cbn; lia].
Qed.

Lemma eq_str_eq v s : eq_str v s = true -> v = VStr s.
Proof.
  destruct v; try discriminate. cbn. intros Heq.
  apply String.eqb_eq in Heq. congruence.
Qed.

Lemma step4_always_point cur request result :
  always (Point request) cur (step4_capture_proof request result).
Proof.
  unfold step4_capture_proof.
  unfold wf_getitem, getitem.
  destruct (result !! "status") as [st|]; cbn; [|constructor].
  destruct (eq_str st "SUCCESS"); cbn; [|constructor].
  destruct (result !! "session_id") as [sid|]; cbn; [|constructor].
  split; [apply (AtCapture request sid)|].
  intros [proof|msg]; cbn; [|constructor].
  unfold wf_getitem, getitem.
  destruct (proof !! "screenshot_url"); cbn; [|constructor].
  intros t. constructor.
Qed.

Lemma run_always_point request : always (Point request) "PENDING" (run request).
Proof.
  cbn. split; [apply AtBegin|].
  intros [result|msg]; cbn; [|constructor].
  unfold after_step1, wf_getitem, getitem.
  destruct (result !! "status") as [st|] eqn:Hst; cbn; [|constructor].
  destruct (eq_str st "2FA_REQUIRED") eqn:H2fa; [|apply step4_always_point].
  apply eq_str_eq in H2fa. subst st.
  unfold step2_handle_2fa, wf_getitem, getitem. cbn.
  destruct (request !! "user_id") as [uid|] eqn:Hu; cbn; [|constructor].
  destruct (request !! "service_name") as [sn|] eqn:Hs; cbn; [|constructor].
  split; [apply (AtNotify request result uid sn); assumption|].
  intros [notify|msg]; cbn; [|constructor].
  split; [apply (AtWait request result); assumption|].
  intros [|]; cbn; [|constructor].
  unfold wf_getitem, getitem.
  destruct (result !! "session_id") as [sid|]; cbn; [|constructor].
  intros obj. split; [apply (AtInject request sid)|].
  intros [verified|msg]; cbn; [apply step4_always_point | constructor].
Qed.

(** Every instance an execution reaches is at one of the points. *)
Lemma reachable_point now request jobs i :
  exec jobs (start now request) = Some i ->
  Point request (status (self i)) (task i)
  ∧ (finished i ∨ suspended i).
Proof.
  intros Hex. split.
  - destruct (advance_always (Point request) now __init__ [] (run request)
                (run_always_point request)) as [H0 Hm].
    apply (exec_always (Point request) jobs (start now request) i H0 Hm Hex).
  - apply (exec_stops jobs (start now request)); [apply advance_stops | exact Hex].
Qed.

(** Which point it is can be read off the head of the task. *)
Lemma point_of_wait request cur m cond timeout k :
  Point request cur m ->
  m = WaitCondition cond timeout k ->
  cur = "AWAITING_2FA"
  ∧ ∃ result,
      result !! "status" = Some (VStr "2FA_REQUIRED")
      ∧ m = wait_for_2fa_code request result.
Proof.
  intros Hp Heq. destruct Hp; cbn in Heq; try discriminate.
  split; [reflexivity|]. eexists. split; [eassumption | reflexivity].
Qed.

Lemma point_of_activity request cur m a payload opts k :
  Point request cur m ->
  m = ExecuteActivity a payload opts k ->
  match a with
  | StartCancellation =>
      cur = "NAVIGATING"
      ∧ m = begin_task request (mkRetryPolicy (seconds 1) (minutes 5) 3)
  | SendPushNotification =>
      cur = "AWAITING_2FA"
      ∧ ∃ result user_id service_name,
          result !! "status" = Some (VStr "2FA_REQUIRED")
          ∧ m = notify_task request result user_id service_name
  | InjectTwoFaCode =>
      cur = "VERIFYING_2FA"
      ∧ ∃ session_id code, m = inject_task request session_id code
  | CaptureProof =>
      cur = "CAPTURING_PROOF"
      ∧ ∃ session_id, m = capture_task request session_id
  end.
Proof.
  intros Hp Heq. destruct Hp; cbn in Heq; try discriminate;
    injection Heq as <- _ _ _; eauto 6.
Qed.

(** The push is pending: what [run] put into its payload. *)
Lemma point_of_notify request cur m payload opts k :
  Point request cur m ->
  m = ExecuteActivity SendPushNotification payload opts k ->
  ∃ result user_id service_name,
    request !! "user_id" = Some user_id
    ∧ request !! "service_name" = Some service_name
    ∧ result !! "status" = Some (VStr "2FA_REQUIRED")
    ∧ m = notify_task request result user_id service_name.
Proof.
  intros Hp Heq. destruct Hp; cbn in Heq; try discriminate.
  eauto 8.
Qed.

Lemma start_invariant now request : invariant (start now request).
Proof.
  unfold start.
  destruct (advance_graph now "PENDING" __init__ [] (run request))
    as [Hf Hg]; [reflexivity | apply run_graph_ok |].
  refine (conj Hf (conj Hg _)).
  apply advance_injects_once; [cbn; lia | apply run_injects_once].
Qed.

Lemma start_settled now request : settled (start now request).
Proof.
  apply (advance_settled now __init__ [] (run request)); [apply run_graph_ok|].
  intros Hterm. discriminate Hterm.
Qed.

(** [inject_2fa_code] checks that both parameters are there and nothing
    else. *)
Lemma inject_2fa_code_succeeds (stub : StubExt) (payload : dict) :
  truthy (py_get payload "session_id") = true ->
  truthy (py_get payload "code") = true ->
  outcome (inject_2fa_code stub payload) =
  Returned {[ "status" := VStr "SUCCESS";
              "session_id" := py_get payload "session_id";
              "message" := VStr "2FA code verified and cancellation continued" ]}.
Proof.
  intros Hs Hc. unfold inject_2fa_code.
  rewrite outcome_bind. cbn [logger_info outcome].
  rewrite outcome_try_except, Hs, Hc. reflexivity.
Qed.

(** C1 (as amended).  In every run, whenever [run] is suspended on the
    wait for the code (which it reaches only after the begin activity
    reported a 2FA challenge) no code has arrived, the wait is bounded by
    ten minutes, and when its timer fires [self.status] becomes TIMEOUT,
    [run] returns status FAILED with reason "2FA code not provided in
    time", no further activity is scheduled and no further job is
    accepted. *)
Theorem two_fa_timeout now request jobs i cond timeout k t :
  exec jobs (start now request) = Some i ->
  task i = WaitCondition cond timeout k ->
  status (self i) = "AWAITING_2FA"
  ∧ two_fa_code (self i) = None
  ∧ timeout = minutes 10
  ∧ ∃ i',
      activate t FireTimer i = Some i'
      ∧ status (self i') = "TIMEOUT"
      ∧ result_of i' = Some {[ "status" := VStr "FAILED";
                               "reason" := VStr "2FA code not provided in time" ]}
      ∧ history i' =
          (history i ++ [TimerFired; Transition "AWAITING_2FA" "TIMEOUT"])%list
      ∧ activities_of (history i') = activities_of (history i)
      ∧ ∀ t' j, activate t' j i' = None.
Proof.
  intros Hex Ht.
  destruct (reachable_point now request jobs i Hex) as [Hp Hstop].
  destruct (point_of_wait request _ _ cond timeout k Hp Ht)
    as (Hst & result & Hres & Hm).
  assert (Heq : WaitCondition cond timeout k = wait_for_2fa_code request result)
    by congruence.
  cbn in Heq. injection Heq as -> -> ->.
  assert (Hnone : two_fa_code (self i) = None).
  { destruct Hstop as [Hf|Hs]; unfold finished, suspended in *;
      rewrite Ht in *; [contradiction|].
    destruct (two_fa_code (self i)); [discriminate | reflexivity]. }
  split; [exact Hst|]. split; [exact Hnone|]. split; [reflexivity|].
  unfold activate. rewrite Ht.
  eexists. split; [reflexivity|].
  cbn. rewrite Hst.
  split; [reflexivity|]. split; [reflexivity|].
  split; [rewrite <- app_assoc; reflexivity|].
  split.
  - unfold activities_of. rewrite !omap_app. cbn. rewrite !app_nil_r. reflexivity.
  - intros t' [c|r|]; reflexivity.
Qed.

(** C7.  In every run, the assignments to [self.status] recorded in the
    history start from PENDING, each starts from the status the previous
    one left, each is an edge of the graph PENDING -> STARTING ->
    NAVIGATING -> (AWAITING_2FA -> VERIFYING_2FA)? -> CAPTURING_PROOF ->
    COMPLETED, or leads to FAILED, or is AWAITING_2FA -> TIMEOUT, and they
    end in the status that [get_status] reports.  None of them starts from
    COMPLETED, FAILED or TIMEOUT.  Once the status is one of these, the
    assignment that made it so is the last event of the history, [run] has
    ended, no job is accepted and the instance never changes again. *)
Theorem status_follows_transition_graph now request jobs i :
  exec jobs (start now request) = Some i ->
  follows "PENDING" (history i) = Some (get_status (self i))
  ∧ (∀ before previous new after,
       history i = (before ++ Transition previous new :: after)%list ->
       follows "PENDING" before = Some previous
       ∧ allowed previous new = true
       ∧ terminal previous = false)
  ∧ (terminal (get_status (self i)) = true ->
       (∃ before previous,
          history i = (before ++ [Transition previous (get_status (self i))])%list)
       ∧ finished i
       ∧ (∀ t j, activate t j i = None)
       ∧ ∀ jobs' i', exec jobs' i = Some i' -> i' = i).
Proof.
  intros Hex.
  destruct (exec_invariant jobs _ i (start_invariant now request) Hex)
    as (Hf & Hg & _).
  pose proof (exec_settled jobs _ i (start_invariant now request)
                (start_settled now request) Hex) as Hlast.
  split; [exact Hf|]. split.
  { intros before previous new after Hsplit. rewrite Hsplit in Hf.
    destruct (follows_Transition _ _ _ _ _ _ Hf) as [Hbefore Hallowed].
    split; [exact Hbefore|]. split; [exact Hallowed|].
    apply (allowed_not_terminal previous new Hallowed). }
  intros Hterm.
  pose proof (terminal_refuses i Hg Hterm) as Hnone.
  split; [apply Hlast, Hterm|]. split.
  { destruct (reachable_point now request jobs i Hex) as [_ [Hfin|Hsus]];
      [exact Hfin|].
    unfold suspended in Hsus. unfold get_status in Hterm.
    destruct (task i); cbn [graph_ok] in Hg; try contradiction;
      destruct Hg as [Hn _]; congruence. }
  split; [exact Hnone|].
  intros [|[t j] jobs'] i' Hex'; cbn in Hex'.
  - congruence.
  - rewrite Hnone in Hex'. discriminate.
Qed.

(** C3 (as amended).  In every run the pending code is handed to the
    submit-2FA activity at most once, but reading it does not clear it:
    once it has been handed over, [two_fa_code] still holds a code, and
    nothing ever empties [two_fa_code] again. *)
Theorem code_is_read_once_and_kept now request jobs i :
  exec jobs (start now request) = Some i ->
  (inject_count (history i) ≤ 1)%nat
  ∧ ((1 ≤ inject_count (history i))%nat -> is_Some (two_fa_code (self i)))
  ∧ ∀ jobs' i',
      exec jobs' i = Some i' ->
      is_Some (two_fa_code (self i)) -> is_Some (two_fa_code (self i')).
Proof.
  intros Hex.
  destruct (exec_invariant jobs _ i (start_invariant now request) Hex)
    as (_ & _ & Hle & _).
  destruct (exec_code_kept jobs _ i (start_code_kept now request) Hex)
    as [Hkept _].
  split; [exact Hle|]. split; [exact Hkept|].
  intros jobs' i'. apply exec_keeps_code.
Qed.

(** C2 (as amended).  The signal handler has no guard and never fails: in
    every run, as long as [run] has not ended, a code is accepted whatever
    the status is, and stored in [two_fa_code] over any earlier one.
    While an activity is pending (before AWAITING_2FA is reached, during
    the push, or after the code has been consumed) this is all that
    happens: the status stays and [run] is not woken.  While [run] waits
    for the code, in AWAITING_2FA, it is woken and moves to VERIFYING_2FA. *)
Theorem signal_is_never_refused now request jobs i t code :
  exec jobs (start now request) = Some i ->
  suspended i ->
  provide_2fa_code (self i) code
    = {| two_fa_code := Some code; status := status (self i) |}
  ∧ ∃ i',
      activate t (SignalWorkflow code) i = Some i'
      ∧ two_fa_code (self i') = Some code
      ∧ (∀ a payload opts k,
           task i = ExecuteActivity a payload opts k ->
           i' = {| self := provide_2fa_code (self i) code;
                   task := task i;
                   history := history i ++ [SignalReceived code] |})
      ∧ (∀ cond timeout k,
           task i = WaitCondition cond timeout k ->
           status (self i) = "AWAITING_2FA"
           ∧ status (self i') = "VERIFYING_2FA").
Proof.
  intros Hex Hs. split; [reflexivity|].
  destruct (reachable_point now request jobs i Hex) as [Hp _].
  unfold suspended in Hs. unfold activate.
  destruct (task i) as [d|e|s k|k|k|a payload opts k|cond timeout k] eqn:Ht;
    try contradiction.
  - eexists. split; [reflexivity|]. split; [reflexivity|].
    split; [intros; reflexivity | intros; discriminate].
  - eexists. split; [reflexivity|].
    split; [apply advance_two_fa_code|].
    split; [intros; discriminate|].
    intros cond' timeout' k' _.
    destruct (point_of_wait request _ _ cond timeout k Hp eq_refl)
      as (Hst & result & Hres & Hm).
    split; [exact Hst|].
    cbn in Hm. injection Hm as -> -> ->. cbn.
    unfold wf_getitem, getitem.
    destruct (result !! "session_id"); reflexivity.
Qed.

(** C4 (as amended).  In every run, the begin activity is scheduled with
    the policy of at most 3 attempts; when 3 consecutive attempts fail with
    retryable errors the engine makes exactly these 3 attempts, after
    backoff delays of 0, 1 and 2 seconds, and gives the last error to
    [run], which does not handle it: [run] ends by raising the
    [ActivityError], [self.status] stays NAVIGATING, nothing is added to
    the history and no result is returned. *)
Theorem begin_failure_is_not_handled
    now request jobs i payload opts k (world : nat -> Attempt) e1 e2 e3 t :
  exec jobs (start now request) = Some i ->
  task i = ExecuteActivity StartCancellation payload opts k ->
  world 1%nat = Fails Retryable e1 ->
  world 2%nat = Fails Retryable e2 ->
  world 3%nat = Fails Retryable e3 ->
  retry_policy opts = Some (mkRetryPolicy (seconds 1) (minutes 5) 3)
  ∧ invoke (mkRetryPolicy (seconds 1) (minutes 5) 3) world
    = (Failed e3,
       [ {| attempt_no := 1; waited_before := 0;
            attempt_outcome := Fails Retryable e1 |};
         {| attempt_no := 2; waited_before := 1;
            attempt_outcome := Fails Retryable e2 |};
         {| attempt_no := 3; waited_before := 2;
            attempt_outcome := Fails Retryable e3 |} ])
  ∧ ∃ i',
      activate t (ResolveActivity (Failed e3)) i = Some i'
      ∧ task i' = Raise (ActivityError e3)
      ∧ result_of i' = None
      ∧ status (self i') = "NAVIGATING"
      ∧ history i' = history i
      ∧ ∀ t' j, activate t' j i' = None.
Proof.
  intros Hex Ht H1 H2 H3.
  destruct (reachable_point now request jobs i Hex) as [Hp _].
  destruct (point_of_activity request _ _ _ payload opts k Hp Ht) as [Hst Hm].
  assert (Heq : ExecuteActivity StartCancellation payload opts k
                = begin_task request (mkRetryPolicy (seconds 1) (minutes 5) 3))
    by congruence.
  cbn in Heq. injection Heq as -> -> ->.
  split; [reflexivity|].
  split.
  { unfold invoke. cbn. rewrite H1. cbn. rewrite H2. cbn. rewrite H3.
    reflexivity. }
  unfold activate. rewrite Ht.
  eexists. split; [reflexivity|]. cbn.
  repeat split; try assumption.
  intros t' [c|r|]; reflexivity.
Qed.

(** C5 (as amended).  In every run, whenever the proof capture is pending
    (which it is only after the cancellation itself succeeded) and the
    activity comes back without a screenshot, as [capture_proof] does on
    both of its failure paths, the instance still reaches COMPLETED: [run]
    returns status SUCCESS with [screenshot_url] None.  The result has no
    [proofMissing] field, the status never becomes FAILED and nothing is
    rolled back. *)
Theorem missing_proof_still_completes
    now request jobs i payload opts k t (proof : dict) :
  exec jobs (start now request) = Some i ->
  task i = ExecuteActivity CaptureProof payload opts k ->
  proof !! "screenshot_url" = Some VNone ->
  status (self i) = "CAPTURING_PROOF"
  ∧ ∃ i' d,
      activate t (ResolveActivity (Completed proof)) i = Some i'
      ∧ status (self i') = "COMPLETED"
      ∧ history i' = (history i ++ [Transition "CAPTURING_PROOF" "COMPLETED"])%list
      ∧ result_of i' = Some d
      ∧ d = {[ "status" := VStr "SUCCESS";
               "screenshot_url" := VNone;
               "video_url" := py_get proof "video_url";
               "savings_per_year" := py_get_default request "annual_cost" (VInt 0);
               "cancelled_at" := VStr t ]}
      ∧ d !! "status" = Some (VStr "SUCCESS")
      ∧ d !! "screenshot_url" = Some VNone
      ∧ d !! "proofMissing" = None.
Proof.
  intros Hex Ht Hshot.
  destruct (reachable_point now request jobs i Hex) as [Hp _].
  destruct (point_of_activity request _ _ _ payload opts k Hp Ht)
    as (Hst & sid & Hm).
  assert (Heq : ExecuteActivity CaptureProof payload opts k
                = capture_task request sid) by congruence.
  cbn in Heq. injection Heq as -> -> ->.
  split; [exact Hst|].
  unfold activate. rewrite Ht.
  eexists _, _. split; [reflexivity|].
  cbn. unfold wf_getitem, getitem. rewrite Hshot. cbn. rewrite Hst.
  repeat split.
Qed.

(** What [capture_proof] returns: without a session handle a result whose
    [screenshot_url] is None, with one the two URLs. *)
Lemma capture_proof_returns (stub : StubExt) (payload : dict) :
  ∃ d,
    outcome (capture_proof stub payload) = Returned d
    ∧ (truthy (py_get payload "session_id") = false ->
         d !! "screenshot_url" = Some VNone)
    ∧ (truthy (py_get payload "session_id") = true ->
         d !! "screenshot_url" =
           Some (VStr ("https://storage.supabase.co/proof/"
                       ++ py_str (py_get payload "session_id")
                       ++ "/screenshot.png"))).
Proof.
  unfold capture_proof.
  rewrite outcome_bind. cbn [logger_info outcome].
  rewrite outcome_try_except.
  destruct (truthy (py_get payload "session_id")); cbn;
    (eexists; split; [reflexivity|]); split; intros; try discriminate;
    reflexivity.
Qed.

(** What [send_push_notification] does: it never raises, and a FAILED
    result comes with an ERROR record in the log. *)
Lemma send_push_notification_returns (stub : StubExt) (payload : dict) :
  ∃ d,
    outcome (send_push_notification stub payload) = Returned d
    ∧ (d !! "status" = Some (VStr "SUCCESS")
       ∨ d !! "status" = Some (VStr "FAILED"))
    ∧ (d !! "status" = Some (VStr "FAILED") ->
       ∃ record, record ∈ logged (send_push_notification stub payload)
                 ∧ log_level record = ERROR).
Proof.
  unfold send_push_notification.
  destruct (negb (all [py_get payload "user_id"; py_get payload "title";
                       py_get payload "body"])) eqn:Hall.
  - eexists. split; [|split].
    + rewrite outcome_bind. cbn [logger_info outcome].
      rewrite outcome_try_except. reflexivity.
    + right. reflexivity.
    + intros _. eexists. split.
      * unfold mbind, Act_bind, act_bind, try_except. cbn.
        apply list_elem_of_In. right. left. reflexivity.
      * reflexivity.
  - eexists. split; [|split].
    + rewrite outcome_bind. cbn [logger_info outcome].
      rewrite outcome_try_except. reflexivity.
    + left. reflexivity.
    + intros Hf. discriminate Hf.
Qed.

(** Everything [send_push_notification] does: the records it writes and
    the dictionary it returns.  With its three parameters it logs twice at
    INFO and returns SUCCESS; without one of them it logs the call at INFO,
    the failure at ERROR, and returns FAILED.  It never raises. *)
Lemma send_push_notification_trace (stub : StubExt) (payload : dict) :
  send_push_notification stub payload =
  if all [py_get payload "user_id"; py_get payload "title"; py_get payload "body"]
  then
    {| logged :=
         [ {| log_level := INFO; log_event := "Sending push notification";
              log_fields := [("user_id", py_get payload "user_id");
                             ("title", py_get payload "title")] |};
           {| log_level := INFO; log_event := "Push notification sent";
              log_fields := [("user_id", py_get payload "user_id")] |} ];
       outcome :=
         Returned
           {[ "status" := VStr "SUCCESS";
              "delivery_status" := VStr "Notification sent to all user devices";
              "timestamp" := VStr (now_isoformat stub);
              "user_id" := py_get payload "user_id";
              "notification" :=
                VDict {[ "title" := py_get payload "title";
                         "body" := py_get payload "body";
                         "data" := py_get_default payload "data" (VDict ∅) ]} ]} |}
  else
    {| logged :=
         [ {| log_level := INFO; log_event := "Sending push notification";
              log_fields := [("user_id", py_get payload "user_id");
                             ("title", py_get payload "title")] |};
           {| log_level := ERROR;
              log_event := "Missing required parameters for push notification";
              log_fields := [] |} ];
       outcome :=
         Returned
           {[ "status" := VStr "FAILED";
              "delivery_status" :=
                VStr "Missing required parameters: user_id, title, body";
              "timestamp" := VStr (now_isoformat stub) ]} |}.
Proof.
  unfold send_push_notification.
  destruct (all _) eqn:Hall; reflexivity.
Qed.

(** The title and the body of the push are never empty, so the parameter
    check of [send_push_notification] comes down to the user_id. *)
Lemma push_parameters (user_id service_name : value) :
  all [py_get {[ "user_id" := user_id;
                 "title" := VStr (py_str service_name ++ " needs verification");
                 "body" := VStr "Enter the code from your SMS/email to continue cancellation" ]}
         "user_id";
       py_get {[ "user_id" := user_id;
                 "title" := VStr (py_str service_name ++ " needs verification");
                 "body" := VStr "Enter the code from your SMS/email to continue cancellation" ]}
         "title";
       py_get {[ "user_id" := user_id;
                 "title" := VStr (py_str service_name ++ " needs verification");
                 "body" := VStr "Enter the code from your SMS/email to continue cancellation" ]}
         "body"]
  = truthy user_id.
Proof.
  change (truthy user_id
          && (negb (String.eqb (py_str service_name ++ " needs verification") "")
              && true)
          = truthy user_id).
  assert (Hne : String.eqb (py_str service_name ++ " needs verification") "" = false)
    by (destruct (py_str service_name); reflexivity).
  rewrite Hne. apply andb_true_r.
Qed.

(** C6 (as amended).  In every run, whenever the push is pending (which it
    is only in the 2FA branch, in AWAITING_2FA) its payload is the
    request's user_id with the title "<service> needs verification" and the
    fixed body, with a timeout of 30 seconds and no retry policy.  On this
    payload [send_push_notification] never raises: with a truthy user_id it
    logs twice at INFO and returns SUCCESS, with a falsy one it logs the
    failure at ERROR and returns FAILED.  Whatever result comes back, [run]
    drops it and goes on to the wait: with no code yet the instance stays
    in AWAITING_2FA, suspended on the ten-minute wait, nothing added to the
    history; with a code already there it passes the wait at once and
    moves to VERIFYING_2FA.  A failure of the activity call itself is
    another matter: [run] has no handler around the call, so it ends by
    raising the [ActivityError]; the status stays AWAITING_2FA, nothing is
    returned, and no signal, result or timer is accepted any more. *)
Theorem notify_failure_aborts_only_when_raised (stub : StubExt)
    now request jobs i payload opts k t :
  exec jobs (start now request) = Some i ->
  task i = ExecuteActivity SendPushNotification payload opts k ->
  status (self i) = "AWAITING_2FA"
  ∧ (∃ user_id service_name,
       request !! "user_id" = Some user_id
       ∧ request !! "service_name" = Some service_name
       ∧ payload =
           {[ "user_id" := user_id;
              "title" := VStr (py_str service_name ++ " needs verification");
              "body" :=
                VStr "Enter the code from your SMS/email to continue cancellation" ]}
       ∧ opts = {| start_to_close_timeout := seconds 30; retry_policy := None |}
       ∧ send_push_notification stub payload =
           if truthy user_id
           then
             {| logged :=
                  [ {| log_level := INFO; log_event := "Sending push notification";
                       log_fields :=
                         [("user_id", user_id);
                          ("title",
                           VStr (py_str service_name ++ " needs verification"))] |};
                    {| log_level := INFO; log_event := "Push notification sent";
                       log_fields := [("user_id", user_id)] |} ];
                outcome :=
                  Returned
                    {[ "status" := VStr "SUCCESS";
                       "delivery_status" :=
                         VStr "Notification sent to all user devices";
                       "timestamp" := VStr (now_isoformat stub);
                       "user_id" := user_id;
                       "notification" :=
                         VDict
                           {[ "title" :=
                                VStr (py_str service_name ++ " needs verification");
                              "body" :=
                                VStr "Enter the code from your SMS/email to continue cancellation";
                              "data" := VDict ∅ ]} ]} |}
           else
             {| logged :=
                  [ {| log_level := INFO; log_event := "Sending push notification";
                       log_fields :=
                         [("user_id", user_id);
                          ("title",
                           VStr (py_str service_name ++ " needs verification"))] |};
                    {| log_level := ERROR;
                       log_event := "Missing required parameters for push notification";
                       log_fields := [] |} ];
                outcome :=
                  Returned
                    {[ "status" := VStr "FAILED";
                       "delivery_status" :=
                         VStr "Missing required parameters: user_id, title, body";
                       "timestamp" := VStr (now_isoformat stub) ]} |})
  ∧ (∀ notify : dict,
       ∃ i',
         activate t (ResolveActivity (Completed notify)) i = Some i'
         ∧ match two_fa_code (self i) with
           | None =>
               status (self i') = "AWAITING_2FA"
               ∧ history i' = history i
               ∧ suspended i'
               ∧ ∃ cond k', task i' = WaitCondition cond (minutes 10) k'
           | Some code => status (self i') = "VERIFYING_2FA"
           end)
  ∧ (∀ msg,
       ∃ i',
         activate t (ResolveActivity (Failed msg)) i = Some i'
         ∧ task i' = Raise (ActivityError msg)
         ∧ result_of i' = None
         ∧ status (self i') = "AWAITING_2FA"
         ∧ history i' = history i
         ∧ ∀ t' j, activate t' j i' = None).
Proof.
  intros Hex Ht.
  destruct (reachable_point now request jobs i Hex) as [Hp _].
  destruct (point_of_activity request _ _ _ payload opts k Hp Ht) as (Hst & _).
  destruct (point_of_notify request _ _ payload opts k Hp Ht)
    as (result & uid & sn & Hu & Hs & Hres & Hm).
  assert (Heq : ExecuteActivity SendPushNotification payload opts k
                = notify_task request result uid sn) by congruence.
  cbn in Heq. injection Heq as -> -> ->.
  split; [exact Hst|].
  split.
  { exists uid, sn. split; [exact Hu|]. split; [exact Hs|].
    split; [reflexivity|]. split; [reflexivity|].
    rewrite send_push_notification_trace, push_parameters.
    destruct (truthy uid); reflexivity. }
  split.
  - intros notify. unfold activate. rewrite Ht.
    eexists. split; [reflexivity|].
    destruct (two_fa_code (self i)) as [code|] eqn:Hcode.
    + cbn. rewrite Hcode. cbn. unfold wf_getitem, getitem.
      destruct (result !! "session_id"); reflexivity.
    + cbn. rewrite Hcode. cbn.
      split; [exact Hst|]. split; [reflexivity|].
      split; [unfold suspended; cbn; rewrite Hcode; reflexivity|].
      eexists _, _. reflexivity.
  - intros msg. unfold activate. rewrite Ht.
    eexists. split; [reflexivity|]. cbn.
    repeat split; try assumption.
    intros t' [c|r|]; reflexivity.
Qed.

(** A string with a character in it is not empty. *)
Lemma append_nonempty a c rest :
  String.eqb (a ++ String c "" ++ rest) "" = false.
Proof. destruct a; reflexivity. Qed.

(** A SUCCESS result of [start_cancellation] carries the session handle
    made of the service name, the user and the clock. *)
Lemma start_cancellation_success ext request begin :
  outcome (start_cancellation ext request) = Returned begin ->
  begin !! "status" = Some (VStr "SUCCESS") ->
  begin !! "session_id" =
    Some (VStr (py_str (py_get request "service_name") ++ "_"
                ++ py_str (py_get request "user_id") ++ "_"
                ++ session_clock ext)).
Proof.
  unfold start_cancellation.
  rewrite outcome_bind. cbn [logger_info outcome].
  rewrite outcome_try_except.
  destruct (negb _).
  - cbn. intros [= <-] Hst. discriminate Hst.
  - rewrite outcome_bind.
    destruct (outcome (cancel_subscription _ _ _ _ _ _)) as [result|e].
    + rewrite outcome_bind. cbn [call outcome]. unfold getitem.
      destruct (result !! "status") as [st|]; cbn [outcome].
      * destruct (eq_str st "2FA_REQUIRED");
          [cbn; intros [= <-] Hst; discriminate Hst|].
        destruct (eq_str st "SUCCESS"); cbn; intros [= <-] Hst;
          [reflexivity | discriminate Hst].
      * cbn. intros [= <-] Hst. discriminate Hst.
    + cbn. intros [= <-] Hst. discriminate Hst.
Qed.

Lemma activities_of_signals codes :
  activities_of (map (λ tc : string * string, SignalReceived tc.2) codes) = [].
Proof. induction codes as [|tc codes IH]; [reflexivity | exact IH]. Qed.

Lemma statuses_of_signals codes :
  statuses_of (map (λ tc : string * string, SignalReceived tc.2) codes) = [].
Proof. induction codes as [|tc codes IH]; [reflexivity | exact IH]. Qed.

(** C8.  In every run in which [start_cancellation] returns SUCCESS (no
    2FA challenge), whatever signals arrive while the two activities are
    pending: the result carries the session handle service_user_clock;
    [run] moves from NAVIGATING to CAPTURING_PROOF and schedules
    [capture_proof] with exactly that handle; [capture_proof], run on the
    scheduled payload, returns the screenshot URL of that session; and the
    instance reaches COMPLETED with a SUCCESS result holding this non-empty
    URL.  The history consists of the two assignments up to NAVIGATING, the
    begin activity, the transition to CAPTURING_PROOF, the capture activity
    and the transition to COMPLETED, with the signals in between and
    nothing else: no push, no code injection, no AWAITING_2FA. *)
Theorem direct_success_completes (ext : BrowserExt) (stub : StubExt)
    now t1 t2 (request begin : dict) codes0 codes1 :
  outcome (start_cancellation ext request) = Returned begin ->
  begin !! "status" = Some (VStr "SUCCESS") ->
  ∃ sid proof url i d,
    begin !! "session_id" = Some (VStr sid)
    ∧ sid = py_str (py_get request "service_name") ++ "_"
            ++ py_str (py_get request "user_id") ++ "_" ++ session_clock ext
    ∧ outcome (capture_proof stub {[ "session_id" := VStr sid ]}) = Returned proof
    ∧ proof !! "screenshot_url" = Some (VStr url)
    ∧ url = "https://storage.supabase.co/proof/" ++ sid ++ "/screenshot.png"
    ∧ exec (signals codes0 ++ [(t1, ResolveActivity (Completed begin))]
            ++ signals codes1 ++ [(t2, ResolveActivity (Completed proof))])
           (start now request) = Some i
    ∧ status (self i) = "COMPLETED"
    ∧ history i =
        ([ Transition "PENDING" "STARTING";
           Transition "STARTING" "NAVIGATING";
           ActivityScheduled StartCancellation request
             {| start_to_close_timeout := minutes 5;
                retry_policy := Some (mkRetryPolicy (seconds 1) (minutes 5) 3) |} ]
         ++ map (λ tc : string * string, SignalReceived tc.2) codes0
         ++ [ Transition "NAVIGATING" "CAPTURING_PROOF";
              ActivityScheduled CaptureProof {[ "session_id" := VStr sid ]}
                {| start_to_close_timeout := seconds 30; retry_policy := None |} ]
         ++ map (λ tc : string * string, SignalReceived tc.2) codes1
         ++ [ Transition "CAPTURING_PROOF" "COMPLETED" ])%list
    ∧ result_of i = Some d
    ∧ d = {[ "status" := VStr "SUCCESS";
             "screenshot_url" := VStr url;
             "video_url" := py_get proof "video_url";
             "savings_per_year" := py_get_default request "annual_cost" (VInt 0);
             "cancelled_at" := VStr t2 ]}
    ∧ d !! "status" = Some (VStr "SUCCESS")
    ∧ d !! "screenshot_url" = Some (VStr url)
    ∧ url ≠ ""
    ∧ activities_of (history i) = [StartCancellation; CaptureProof]
    ∧ statuses_of (history i) =
        ["STARTING"; "NAVIGATING"; "CAPTURING_PROOF"; "COMPLETED"].
Proof.
  intros Hbegin Hst.
  pose proof (start_cancellation_success ext request begin Hbegin Hst) as Hsid.
  set (sid := py_str (py_get request "service_name") ++ "_"
              ++ py_str (py_get request "user_id") ++ "_"
              ++ session_clock ext) in *.
  assert (Htruthy : truthy (py_get {[ "session_id" := VStr sid ]} "session_id") = true).
  { change (negb (String.eqb sid "") = true).
    unfold sid. rewrite append_nonempty. reflexivity. }
  destruct (capture_proof_returns stub {[ "session_id" := VStr sid ]})
    as (proof & Hproof & _ & Hurl).
  specialize (Hurl Htruthy).
  change (py_str (py_get {[ "session_id" := VStr sid ]} "session_id"))
    with sid in Hurl.
  assert (Hex : exec (signals codes0 ++ [(t1, ResolveActivity (Completed begin))]
                      ++ signals codes1 ++ [(t2, ResolveActivity (Completed proof))])
                  (start now request)
                = Some
                    {| self := {| two_fa_code :=
                                    last_code (last_code None codes0) codes1;
                                  status := "COMPLETED" |};
                       task :=
                         Ret {[ "status" := VStr "SUCCESS";
                                "screenshot_url" :=
                                  VStr ("https://storage.supabase.co/proof/"
                                        ++ sid ++ "/screenshot.png");
                                "video_url" := py_get proof "video_url";
                                "savings_per_year" :=
                                  py_get_default request "annual_cost" (VInt 0);
                                "cancelled_at" := VStr t2 ]};
                       history :=
                         ([ Transition "PENDING" "STARTING";
                            Transition "STARTING" "NAVIGATING";
                            ActivityScheduled StartCancellation request
                              {| start_to_close_timeout := minutes 5;
                                 retry_policy :=
                                   Some (mkRetryPolicy (seconds 1) (minutes 5) 3) |} ]
                          ++ map (λ tc : string * string, SignalReceived tc.2) codes0
                          ++ [ Transition "NAVIGATING" "CAPTURING_PROOF";
                               ActivityScheduled CaptureProof
                                 {[ "session_id" := VStr sid ]}
                                 {| start_to_close_timeout := seconds 30;
                                    retry_policy := None |} ]
                          ++ map (λ tc : string * string, SignalReceived tc.2) codes1
                          ++ [ Transition "CAPTURING_PROOF" "COMPLETED" ])%list |}).
  { rewrite exec_app.
    erewrite exec_signals_pending; [|reflexivity].
    cbn [mbind option_bind]. rewrite exec_app.
    cbn. unfold after_step1, wf_getitem, getitem. rewrite Hst. cbn.
    unfold step4_capture_proof, wf_getitem, getitem. rewrite Hst. cbn.
    rewrite Hsid. cbn.
    rewrite exec_app.
    erewrite exec_signals_pending; [|reflexivity].
    cbn. unfold wf_getitem, getitem. rewrite Hurl. cbn.
    rewrite <- !app_assoc. reflexivity. }
  exists sid, proof, ("https://storage.supabase.co/proof/" ++ sid ++ "/screenshot.png").
  eexists _, _.
  split; [exact Hsid|]. split; [reflexivity|]. split; [exact Hproof|].
  split; [exact Hurl|]. split; [reflexivity|]. split; [exact Hex|].
  cbn [self status history result_of task].
  split; [reflexivity|]. split; [reflexivity|]. split; [reflexivity|].
  split; [reflexivity|]. split; [reflexivity|]. split; [reflexivity|].
  split; [discriminate|].
  unfold activities_of, statuses_of. rewrite !omap_app.
  fold (activities_of (map (λ tc : string * string, SignalReceived tc.2) codes0)).
  fold (activities_of (map (λ tc : string * string, SignalReceived tc.2) codes1)).
  fold (statuses_of (map (λ tc : string * string, SignalReceived tc.2) codes0)).
  fold (statuses_of (map (λ tc : string * string, SignalReceived tc.2) codes1)).
  rewrite !activities_of_signals, !statuses_of_signals.
  split; reflexivity.
Qed.

(** A 2FA_REQUIRED result of [start_cancellation] carries the session
    handle made of the service name, the user and the clock, which is not
    empty. *)
Lemma start_cancellation_2fa_session ext request begin :
  outcome (start_cancellation ext request) = Returned begin ->
  begin !! "status" = Some (VStr "2FA_REQUIRED") ->
  begin !! "session_id" =
    Some (VStr (py_str (py_get request "service_name") ++ "_"
                ++ py_str (py_get request "user_id") ++ "_"
                ++ session_clock ext))
  ∧ truthy (VStr (py_str (py_get request "service_name") ++ "_"
                  ++ py_str (py_get request "user_id") ++ "_"
                  ++ session_clock ext)) = true.
Proof.
  intros Hbegin Hst. split.
  - revert Hbegin Hst. unfold start_cancellation.
    rewrite outcome_bind. cbn [logger_info outcome].
    rewrite outcome_try_except.
    destruct (negb _).
    + cbn. intros [= <-] Hst. discriminate Hst.
    + rewrite outcome_bind.
      destruct (outcome (cancel_subscription _ _ _ _ _ _)) as [result|e].
      * rewrite outcome_bind. cbn [call outcome]. unfold getitem.
        destruct (result !! "status") as [st|]; cbn [outcome].
        -- destruct (eq_str st "2FA_REQUIRED");
             [cbn; intros [= <-] Hst; reflexivity|].
           destruct (eq_str st "SUCCESS"); cbn; intros [= <-] Hst;
             discriminate Hst.
        -- cbn. intros [= <-] Hst. discriminate Hst.
      * cbn. intros [= <-] Hst. discriminate Hst.
  - change (negb (String.eqb (py_str (py_get request "service_name") ++ "_"
                              ++ py_str (py_get request "user_id") ++ "_"
                              ++ session_clock ext) "") = true).
    destruct (py_str (py_get request "service_name")); reflexivity.
Qed.

(** C9.  A submission whose session handle and code are both non-empty
    makes [inject_2fa_code] return SUCCESS: the code is never compared with
    anything, so no wrong-code or expired-session failure exists.  The
    handle that [start_cancellation] puts into a 2FA_REQUIRED result is
    never empty.  Hence, in every run, an instance that waits for the code
    in AWAITING_2FA with such a handle and receives any non-empty code
    moves to VERIFYING_2FA and schedules [inject_2fa_code] with the handle
    and that code; the activity, run on the scheduled payload, returns
    SUCCESS; [run] moves on to CAPTURING_PROOF and schedules
    [capture_proof] with the handle; and with the proof that
    [capture_proof] returns for the scheduled payload the instance ends
    COMPLETED with a SUCCESS result.  FAILED is never assigned, whatever
    the code is. *)
Theorem any_code_is_accepted (stub : StubExt)
    now request jobs i (result : dict) (session_id : value) t t' t'' code :
  exec jobs (start now request) = Some i ->
  task i = wait_for_2fa_code request result ->
  result !! "session_id" = Some session_id ->
  truthy session_id = true ->
  code ≠ "" ->
  (∀ submission : dict,
     truthy (py_get submission "session_id") = true ->
     truthy (py_get submission "code") = true ->
     outcome (inject_2fa_code stub submission) =
       Returned {[ "status" := VStr "SUCCESS";
                   "session_id" := py_get submission "session_id";
                   "message" := VStr "2FA code verified and cancellation continued" ]})
  ∧ (∀ ext (request' begin : dict),
       outcome (start_cancellation ext request') = Returned begin ->
       begin !! "status" = Some (VStr "2FA_REQUIRED") ->
       ∃ handle, begin !! "session_id" = Some handle ∧ truthy handle = true)
  ∧ status (self i) = "AWAITING_2FA"
  ∧ ∃ i1 verified i2 proof i3 d,
      activate t (SignalWorkflow code) i = Some i1
      ∧ status (self i1) = "VERIFYING_2FA"
      ∧ history i1 =
          (history i
           ++ [ SignalReceived code;
                Transition "AWAITING_2FA" "VERIFYING_2FA";
                ActivityScheduled InjectTwoFaCode
                  {[ "session_id" := session_id; "code" := VStr code ]}
                  {| start_to_close_timeout := minutes 3;
                     retry_policy := None |} ])%list
      ∧ outcome (inject_2fa_code stub
                   {[ "session_id" := session_id; "code" := VStr code ]})
        = Returned verified
      ∧ verified =
          {[ "status" := VStr "SUCCESS";
             "session_id" := session_id;
             "message" := VStr "2FA code verified and cancellation continued" ]}
      ∧ activate t' (ResolveActivity (Completed verified)) i1 = Some i2
      ∧ status (self i2) = "CAPTURING_PROOF"
      ∧ history i2 =
          (history i1
           ++ [ Transition "VERIFYING_2FA" "CAPTURING_PROOF";
                ActivityScheduled CaptureProof
                  {[ "session_id" := session_id ]}
                  {| start_to_close_timeout := seconds 30;
                     retry_policy := None |} ])%list
      ∧ outcome (capture_proof stub {[ "session_id" := session_id ]})
        = Returned proof
      ∧ activate t'' (ResolveActivity (Completed proof)) i2 = Some i3
      ∧ status (self i3) = "COMPLETED"
      ∧ history i3 =
          (history i2 ++ [ Transition "CAPTURING_PROOF" "COMPLETED" ])%list
      ∧ result_of i3 = Some d
      ∧ d !! "status" = Some (VStr "SUCCESS")
      ∧ d !! "screenshot_url" = proof !! "screenshot_url"
      ∧ "FAILED" ∉ statuses_of (history i3).
Proof.
  intros Hex Ht Hsid Htruthy Hcode.
  split; [intros submission; apply inject_2fa_code_succeeds|].
  split.
  { intros ext request' begin Hbegin Hst.
    destruct (start_cancellation_2fa_session ext request' begin Hbegin Hst)
      as [Hs Hne].
    eexists. split; [exact Hs | exact Hne]. }
  destruct (reachable_point now request jobs i Hex) as [Hp _].
  assert (Hst : status (self i) = "AWAITING_2FA").
  { rewrite Ht in Hp.
    eapply (point_of_wait request _ _ _ _ _ Hp). reflexivity. }
  split; [exact Hst|].
  assert (Hc : truthy (py_get {[ "session_id" := session_id; "code" := VStr code ]}
                         "code") = true).
  { change (negb (String.eqb code "") = true).
    destruct code; [congruence | reflexivity]. }
  assert (Hs : truthy (py_get {[ "session_id" := session_id; "code" := VStr code ]}
                         "session_id") = true) by exact Htruthy.
  pose proof (inject_2fa_code_succeeds stub _ Hs Hc) as Hinject.
  change (py_get {[ "session_id" := session_id; "code" := VStr code ]} "session_id")
    with session_id in Hinject.
  assert (Hs' : truthy (py_get {[ "session_id" := session_id ]} "session_id") = true)
    by exact Htruthy.
  destruct (capture_proof_returns stub {[ "session_id" := session_id ]})
    as (proof & Hproof & _ & Hurl).
  specialize (Hurl Hs').
  assert (Hfollows : follows "PENDING" (history i) = Some (status (self i))).
  { apply (exec_invariant jobs (start now request) i);
      [apply start_invariant | exact Hex]. }
  destruct i as [[c0 st] tk h]. cbn in Ht, Hst, Hfollows. subst tk st.
  set (verified := {[ "status" := VStr "SUCCESS";
                      "session_id" := session_id;
                      "message" :=
                        VStr "2FA code verified and cancellation continued" ]} : dict)
    in *.
  set (i1 := {| self := {| two_fa_code := Some code; status := "VERIFYING_2FA" |};
                task := inject_task request session_id (Some code);
                history :=
                  h ++ [ SignalReceived code;
                         Transition "AWAITING_2FA" "VERIFYING_2FA";
                         ActivityScheduled InjectTwoFaCode
                           {[ "session_id" := session_id; "code" := VStr code ]}
                           {| start_to_close_timeout := minutes 3;
                              retry_policy := None |} ] |}).
  set (i2 := {| self := {| two_fa_code := Some code; status := "CAPTURING_PROOF" |};
                task := capture_task request session_id;
                history :=
                  history i1
                  ++ [ Transition "VERIFYING_2FA" "CAPTURING_PROOF";
                       ActivityScheduled CaptureProof
                         {[ "session_id" := session_id ]}
                         {| start_to_close_timeout := seconds 30;
                            retry_policy := None |} ] |}).
  assert (H1 : activate t (SignalWorkflow code)
                 {| self := {| two_fa_code := c0; status := "AWAITING_2FA" |};
                    task := wait_for_2fa_code request result;
                    history := h |} = Some i1).
  { unfold activate. cbn. unfold wf_getitem, getitem. rewrite Hsid. cbn.
    rewrite <- !app_assoc. reflexivity. }
  assert (H2 : activate t' (ResolveActivity (Completed verified)) i1 = Some i2).
  { assert (Hvst : verified !! "status" = Some (VStr "SUCCESS")) by reflexivity.
    assert (Hvsid : verified !! "session_id" = Some session_id) by reflexivity.
    unfold activate, i2, i1. cbn.
    unfold step4_capture_proof, wf_getitem, getitem. rewrite Hvst. cbn.
    rewrite Hvsid. cbn. rewrite <- ?app_assoc. reflexivity. }
  assert (H3 : ∃ i3 d,
             activate t'' (ResolveActivity (Completed proof)) i2 = Some i3
             ∧ status (self i3) = "COMPLETED"
             ∧ history i3 =
                 (history i2 ++ [ Transition "CAPTURING_PROOF" "COMPLETED" ])%list
             ∧ result_of i3 = Some d
             ∧ d !! "status" = Some (VStr "SUCCESS")
             ∧ d !! "screenshot_url" = proof !! "screenshot_url").
  { unfold activate. cbn. unfold wf_getitem, getitem. rewrite Hurl. cbn.
    eexists _, _. repeat (split; [reflexivity|]). reflexivity. }
  destruct H3 as (i3 & d & H3 & Hst3 & Hh3 & Hres & Hd & Hshot).
  exists i1, verified, i2, proof, i3, d.
  split; [exact H1|]. split; [reflexivity|]. split; [reflexivity|].
  split; [exact Hinject|]. split; [reflexivity|].
  split; [exact H2|]. split; [reflexivity|]. split; [reflexivity|].
  split; [exact Hproof|].
  split; [exact H3|]. split; [exact Hst3|]. split; [exact Hh3|].
  split; [exact Hres|]. split; [exact Hd|]. split; [exact Hshot|].
  rewrite Hh3. subst i2 i1. cbn [history].
  destruct (follows_never_terminal "PENDING" h "AWAITING_2FA" Hfollows eq_refl)
    as [_ Hnever].
  unfold statuses_of. rewrite !omap_app. fold (statuses_of h). cbn.
  intros Hin. rewrite !elem_of_app in Hin.
  destruct Hin as [[[Hin|Hin]|Hin]|Hin].
  - apply Hnever in Hin. discriminate Hin.
  - apply list_elem_of_singleton in Hin. discriminate Hin.
  - apply list_elem_of_singleton in Hin. discriminate Hin.
  - apply list_elem_of_singleton in Hin. discriminate Hin.
Qed.

(** C1, as the specification states it, fails: in the run where the agent
    meets a verification prompt and no code arrives, the result of [run]
    has reason "2FA code not provided in time", not "2FA not provided in
    time", and status FAILED, not TIMEOUT. *)
Lemma timeout_result_differs :
  ∃ i d,
    exec [ ("2026-01-05T10:00:09", ResolveActivity (Completed begin_2fa_required));
           ("2026-01-05T10:00:10", ResolveActivity (Completed push_sent));
           ("2026-01-05T10:10:10", FireTimer) ]
         (@start sample_render "2026-01-05T10:00:00" netflix_request)
      = Some i
    ∧ status (self i) = "TIMEOUT"
    ∧ result_of i = Some d
    ∧ d !! "reason" = Some (VStr "2FA code not provided in time")
    ∧ d !! "reason" ≠ Some (VStr "2FA not provided in time")
    ∧ d !! "status" = Some (VStr "FAILED")
    ∧ d !! "status" ≠ Some (VStr "TIMEOUT").
Proof.
  eexists _, _.
  split; [reflexivity|].
  split; [reflexivity|].
  split; [reflexivity|].
  split; [reflexivity|].
  split; [discriminate|].
  split; [reflexivity | discriminate].
Qed.

End WorkflowProperties.

(* ===================================================================== *)
(** * More properties of the activities *)
(* ===================================================================== *)

Section MoreActivityProperties.
Context {R : Render}.

(** X1.  [start_cancellation] checks its parameters before anything else.
    When one of the four required parameters (service_name, login_url,
    email, password) is missing from the request or falsy (None, an empty
    string), it returns the FAILED result "Missing required parameters:
    ..." and logs one INFO and one ERROR record, whatever the browser
    library would do: the agent is not called.  When all four are truthy,
    whatever happens then, the result names the service under
    [service_name], which the result of the parameter check does not. *)
Theorem start_cancellation_checks_parameters_first
    (ext : BrowserExt) (request : dict) :
  (all [py_get request "service_name"; py_get request "login_url";
        py_get request "email"; py_get request "password"] = false ->
   start_cancellation ext request =
   {| logged :=
        [ {| log_level := INFO; log_event := "Starting cancellation";
             log_fields := [("user_id", py_get request "user_id");
                            ("service_name", py_get request "service_name")] |};
          {| log_level := ERROR; log_event := "Missing required parameters";
             log_fields := [] |} ];
      outcome :=
        Returned {[ "status" := VStr "FAILED";
                    "message" :=
                      VStr "Missing required parameters: service_name, login_url, email, password" ]} |})
  ∧ ∃ d,
      outcome (start_cancellation ext request) = Returned d
      ∧ (d !! "service_name" = None ↔
         all [py_get request "service_name"; py_get request "login_url";
              py_get request "email"; py_get request "password"] = false)
      ∧ (all [py_get request "service_name"; py_get request "login_url";
              py_get request "email"; py_get request "password"] = true ->
         d !! "service_name" = Some (py_get request "service_name")).
Proof.
  split.
  { intros Hall. unfold start_cancellation. rewrite Hall. reflexivity. }
  unfold start_cancellation.
  rewrite outcome_bind. cbn [logger_info outcome].
  rewrite outcome_try_except.
  destruct (all _) eqn:Hall; cbn [negb].
  2:{ eexists. split; [reflexivity|]. split; [split; reflexivity | discriminate]. }
  rewrite outcome_bind.
  destruct (outcome (cancel_subscription _ _ _ _ _ _)) as [result|e] eqn:Hc.
  - apply cancel_subscription_status in Hc as Hst.
    rewrite outcome_bind. cbn [call outcome]. unfold getitem.
    destruct Hst as [Hst|[Hst|Hst]]; rewrite Hst; cbn;
      (eexists; split; [reflexivity|]);
      (split; [split; discriminate | reflexivity]).
  - cbn. eexists. split; [reflexivity|].
    split; [split; discriminate | reflexivity].
Qed.

(** [cancel_subscription] reports SUCCESS exactly when every call of the
    browser library returns. *)
Lemma cancel_subscription_success_iff ext sn lu em pw us :
  (∃ result,
     outcome (cancel_subscription ext sn lu em pw us) = Returned result
     ∧ result !! "status" = Some (VStr "SUCCESS"))
  ↔ new_browser ext (truthy us) = Returned tt
    ∧ new_agent ext = Returned tt
    ∧ agent_run ext = Returned tt
    ∧ browser_screenshot ext
        ("proofs/" ++ py_str sn ++ "_" ++ path_clock ext ++ ".png") = Returned tt
    ∧ (∃ h, result_history ext = Returned h)
    ∧ browser_close ext = Returned tt.
Proof.
  unfold cancel_subscription, try_finally, try_except, call. cbn.
  destruct (new_browser ext _) as [[]|e1]; cbn;
    [|split; [intros (r & Hr & _) | intros (Hf & _)]; discriminate].
  destruct (new_agent ext) as [[]|e2]; cbn;
    [|split; [intros (r & Hr & _) | intros (_ & Hf & _)]; discriminate].
  destruct (browser_close ext) as [[]|e6]; cbn.
  2:{ split; [intros (r & Hr & _)|intros (_ & _ & _ & _ & _ & Hf)];
        [|discriminate Hf].
      destruct (agent_run ext) as [[]|e3]; cbn in Hr; [|discriminate Hr].
      destruct (browser_screenshot ext _) as [[]|e4]; cbn in Hr; [|discriminate Hr].
      destruct (result_history ext) as [h|e5]; cbn in Hr; discriminate Hr. }
  destruct (agent_run ext) as [[]|e3]; cbn.
  2:{ split; [intros (r & Hr & Hst) | intros (_ & _ & Hf & _); discriminate Hf].
      destruct (_ || _); injection Hr as <-; discriminate Hst. }
  destruct (browser_screenshot ext _) as [[]|e4]; cbn.
  2:{ split; [intros (r & Hr & Hst) | intros (_ & _ & _ & Hf & _); discriminate Hf].
      destruct (_ || _); injection Hr as <-; discriminate Hst. }
  destruct (result_history ext) as [h|e5]; cbn.
  2:{ split; [intros (r & Hr & Hst)
             | intros (_ & _ & _ & _ & [h Hf] & _); discriminate Hf].
      destruct (_ || _); injection Hr as <-; discriminate Hst. }
  split; [intros _; eauto 10|].
  intros _. eexists. split; reflexivity.
Qed.

(** X2.  [start_cancellation] always returns, and its result says SUCCESS
    exactly when the four required parameters are truthy and every call of
    the browser library returns: creating the browser and the agent,
    running the agent, taking the screenshot, reading the history and
    closing the browser.  A failure of any of them, also of the screenshot
    or of the close after the site has been left, gives 2FA_REQUIRED or
    FAILED. *)
Theorem start_cancellation_success_iff (ext : BrowserExt) (request : dict) :
  ∃ d,
    outcome (start_cancellation ext request) = Returned d
    ∧ (d !! "status" = Some (VStr "SUCCESS") ↔
       all [py_get request "service_name"; py_get request "login_url";
            py_get request "email"; py_get request "password"] = true
       ∧ new_browser ext (truthy (py_get_default request "use_steel" (VBool false)))
         = Returned tt
       ∧ new_agent ext = Returned tt
       ∧ agent_run ext = Returned tt
       ∧ browser_screenshot ext
           ("proofs/" ++ py_str (py_get request "service_name") ++ "_"
            ++ path_clock ext ++ ".png") = Returned tt
       ∧ (∃ h, result_history ext = Returned h)
       ∧ browser_close ext = Returned tt).
Proof.
  pose proof (cancel_subscription_success_iff ext
                (py_get request "service_name") (py_get request "login_url")
                (py_get request "email") (py_get request "password")
                (py_get_default request "use_steel" (VBool false))) as Hiff.
  unfold start_cancellation.
  rewrite outcome_bind. cbn [logger_info outcome].
  rewrite outcome_try_except.
  destruct (all _) eqn:Hall; cbn [negb].
  2:{ eexists. split; [reflexivity|]. split; [discriminate|].
      intros [Hf _]. discriminate Hf. }
  rewrite outcome_bind.
  destruct (outcome (cancel_subscription _ _ _ _ _ _)) as [result|e] eqn:Hc.
  - apply cancel_subscription_status in Hc as Hst.
    rewrite outcome_bind. cbn [call outcome]. unfold getitem.
    destruct Hst as [Hst|[Hst|Hst]]; rewrite Hst; cbn;
      (eexists; split; [reflexivity|]).
    + split; [intros _; split; [reflexivity|]; apply Hiff; eauto | reflexivity].
    + split; [discriminate|]. intros [_ Hok]. apply Hiff in Hok.
      destruct Hok as (r & [= <-] & Hr). congruence.
    + split; [discriminate|]. intros [_ Hok]. apply Hiff in Hok.
      destruct Hok as (r & [= <-] & Hr). congruence.
  - cbn. eexists. split; [reflexivity|]. split; [discriminate|].
    intros [_ Hok]. apply Hiff in Hok. destruct Hok as (r & Hr & _). discriminate Hr.
Qed.

(** X3.  When [browser.close()] raises in the [finally] block of
    [cancel_subscription], that exception replaces whatever the [try] block
    produced, also a SUCCESS result of a cancellation that went through:
    [cancel_subscription] raises it, and [start_cancellation] returns
    FAILED with "Exception occurred: " and its text. *)
Theorem close_failure_hides_the_outcome
    (ext : BrowserExt) (request : dict) (e : exn) :
  all [py_get request "service_name"; py_get request "login_url";
       py_get request "email"; py_get request "password"] = true ->
  new_browser ext (truthy (py_get_default request "use_steel" (VBool false)))
    = Returned tt ->
  new_agent ext = Returned tt ->
  browser_close ext = Raised e ->
  outcome (cancel_subscription ext
             (py_get request "service_name") (py_get request "login_url")
             (py_get request "email") (py_get request "password")
             (py_get_default request "use_steel" (VBool false)))
    = Raised e
  ∧ outcome (start_cancellation ext request) =
    Returned {[ "status" := VStr "FAILED";
                "message" := VStr ("Exception occurred: " ++ exn_str e);
                "service_name" := py_get request "service_name" ]}.
Proof.
  intros Hall Hb Ha Hc.
  assert (Hcs : outcome (cancel_subscription ext
             (py_get request "service_name") (py_get request "login_url")
             (py_get request "email") (py_get request "password")
             (py_get_default request "use_steel" (VBool false)))
    = Raised e).
  { unfold cancel_subscription. rewrite !outcome_bind.
    unfold call at 1 2. cbn [outcome]. rewrite Hb, Ha.
    unfold try_finally, call. cbn [outcome]. rewrite Hc. reflexivity. }
  split; [exact Hcs|].
  unfold start_cancellation.
  rewrite outcome_bind. cbn [logger_info outcome].
  rewrite outcome_try_except. rewrite Hall. cbn [negb].
  rewrite outcome_bind, Hcs. reflexivity.
Qed.

(** A parameter that passes the truth test is in the request. *)
Lemma truthy_py_get (d : dict) (k : string) :
  truthy (py_get d k) = true -> d !! k = Some (py_get d k).
Proof.
  unfold py_get. destruct (d !! k); [reflexivity | discriminate].
Qed.

(** When the agent stops at a verification prompt, [start_cancellation]
    reports the challenge with a fresh session handle. *)
Lemma start_cancellation_reports_2fa (ext : BrowserExt) (request : dict) (e : exn) :
  all [py_get request "service_name"; py_get request "login_url";
       py_get request "email"; py_get request "password"] = true ->
  new_browser ext (truthy (py_get_default request "use_steel" (VBool false)))
    = Returned tt ->
  new_agent ext = Returned tt ->
  agent_run ext = Raised e ->
  browser_close ext = Returned tt ->
  contains "2FA" (exn_str e) || contains "verification" (lower (exn_str e)) = true ->
  outcome (start_cancellation ext request) =
  Returned {[ "status" := VStr "2FA_REQUIRED";
              "session_id" :=
                VStr (py_str (py_get request "service_name") ++ "_"
                      ++ py_str (py_get request "user_id") ++ "_"
                      ++ session_clock ext);
              "message" := VStr "User needs to provide verification code";
              "service_name" := py_get request "service_name" ]}.
Proof.
  intros Hall Hb Ha Hr Hc Hmention.
  unfold start_cancellation.
  rewrite outcome_bind. cbn [logger_info outcome].
  rewrite outcome_try_except. rewrite Hall. cbn [negb].
  rewrite outcome_bind.
  rewrite (cancel_subscription_classifies ext _ _ _ _ _ e Hb Ha Hr Hc).
  rewrite Hmention. reflexivity.
Qed.

(** What [send_push_notification] returns. *)
Lemma send_push_notification_outcome (stub : StubExt) (payload : dict) :
  outcome (send_push_notification stub payload) =
  Returned
    (if all [py_get payload "user_id"; py_get payload "title";
             py_get payload "body"]
     then {[ "status" := VStr "SUCCESS";
             "delivery_status" := VStr "Notification sent to all user devices";
             "timestamp" := VStr (now_isoformat stub);
             "user_id" := py_get payload "user_id";
             "notification" :=
               VDict {[ "title" := py_get payload "title";
                        "body" := py_get payload "body";
                        "data" := py_get_default payload "data" (VDict ∅) ]} ]}
     else {[ "status" := VStr "FAILED";
             "delivery_status" :=
               VStr "Missing required parameters: user_id, title, body";
             "timestamp" := VStr (now_isoformat stub) ]}).
Proof.
  unfold send_push_notification.
  rewrite outcome_bind. cbn [logger_info outcome].
  rewrite outcome_try_except.
  destruct (all _); reflexivity.
Qed.

(** [inject_2fa_code] without a session handle or without a code. *)
Lemma inject_2fa_code_rejects (stub : StubExt) (payload : dict) :
  truthy (py_get payload "session_id") = false
  ∨ truthy (py_get payload "code") = false ->
  outcome (inject_2fa_code stub payload) =
  Returned {[ "status" := VStr "FAILED";
              "message" := VStr "Missing required parameters: session_id, code" ]}.
Proof.
  intros H. unfold inject_2fa_code.
  rewrite outcome_bind. cbn [logger_info outcome].
  rewrite outcome_try_except.
  destruct H as [-> | ->]; rewrite ?orb_true_r; reflexivity.
Qed.

End MoreActivityProperties.

(* ===================================================================== *)
(** * More properties of the interpreter *)
(* ===================================================================== *)

Lemma activities_of_app h1 h2 :
  activities_of (h1 ++ h2) = (activities_of h1 ++ activities_of h2)%list.
Proof. unfold activities_of. apply omap_app. Qed.

Lemma advance_in_order now obj hist m :
  keeps_order (status obj) (activities_of hist) m ->
  in_order (advance now obj hist m).
Proof.
  revert obj hist.
  induction m as [d|e|s k IH|k IH|k IH|a payload opts k IH|cond timeout k IH];
    intros obj hist Hm; cbn [advance].
  - split; [exact Hm | exact I].
  - split; [exact Hm | exact I].
  - apply IH. rewrite activities_of_app. cbn. rewrite app_nil_r. exact Hm.
  - apply IH. apply Hm.
  - apply IH. apply Hm.
  - unfold in_order. cbn [self task history]. rewrite activities_of_app. exact Hm.
  - destruct (cond obj); [apply IH; apply Hm | exact Hm].
Qed.

Lemma activate_in_order now j i i' :
  in_order i -> activate now j i = Some i' -> in_order i'.
Proof.
  intros [Hf Hk] Hact. unfold activate in Hact.
  destruct j as [code|r|], (task i) as [d|e|s k|k|k|a payload opts k|cond timeout k] eqn:Ht;
    try discriminate; injection Hact as <-.
  - unfold in_order. cbn [self task history provide_2fa_code status].
    rewrite activities_of_app. cbn. rewrite app_nil_r. split; assumption.
  - apply (advance_in_order now (provide_2fa_code (self i) code)
             (history i ++ [SignalReceived code]) (WaitCondition cond timeout k)).
    rewrite activities_of_app. cbn. rewrite app_nil_r. split; assumption.
  - apply advance_in_order. apply Hk.
  - apply advance_in_order. rewrite activities_of_app. cbn. rewrite app_nil_r.
    apply Hk.
Qed.

Lemma exec_in_order jobs i i' :
  in_order i -> exec jobs i = Some i' -> in_order i'.
Proof.
  revert i. induction jobs as [|[now j] jobs IH]; intros i Hinv Hex; cbn in Hex.
  - injection Hex as <-. exact Hinv.
  - destruct (activate now j i) as [i1|] eqn:Hact; [|discriminate].
    eapply IH; [|exact Hex]. eapply activate_in_order; eassumption.
Qed.

Lemma advance_activities now obj hist m :
  length (activities_of (history (advance now obj hist m)))
  = (length (activities_of hist) + pending (advance now obj hist m))%nat.
Proof.
  revert obj hist.
  induction m as [d|e|s k IH|k IH|k IH|a payload opts k IH|cond timeout k IH];
    intros obj hist; cbn [advance].
  - unfold pending. cbn [task history]. lia.
  - unfold pending. cbn [task history]. lia.
  - rewrite IH, activities_of_app. cbn. rewrite app_nil_r. reflexivity.
  - apply IH.
  - apply IH.
  - cbn [history]. rewrite activities_of_app, length_app. reflexivity.
  - destruct (cond obj); [apply IH|]. unfold pending. cbn [task history]. lia.
Qed.

Lemma activate_results now j i i' n :
  (n + pending i)%nat = length (activities_of (history i)) ->
  activate now j i = Some i' ->
  (n + (if is_result j then 1 else 0) + pending i')%nat
  = length (activities_of (history i')).
Proof.
  intros Hn Hact. unfold activate in Hact. unfold pending in Hn.
  destruct j as [code|r|], (task i) as [d|e|s k|k|k|a payload opts k|cond timeout k] eqn:Ht;
    try discriminate; injection Hact as <-.
  - unfold pending. cbn [task history is_result].
    rewrite activities_of_app. cbn. rewrite app_nil_r. lia.
  - match goal with
    | |- context [pending ?x] =>
        change x with (advance now (provide_2fa_code (self i) code)
                         (history i ++ [SignalReceived code])
                         (WaitCondition cond timeout k))
    end.
    rewrite advance_activities.
    rewrite activities_of_app. cbn [is_result]. cbn. rewrite app_nil_r. lia.
  - rewrite advance_activities. cbn [is_result]. lia.
  - rewrite advance_activities, activities_of_app. cbn [is_result]. cbn.
    rewrite app_nil_r. lia.
Qed.

Lemma exec_results jobs i i' n :
  (n + pending i)%nat = length (activities_of (history i)) ->
  exec jobs i = Some i' ->
  (n + results_in jobs + pending i')%nat = length (activities_of (history i')).
Proof.
  revert i n. induction jobs as [|[now j] jobs IH]; intros i n Hn Hex; cbn in Hex.
  - injection Hex as <-. cbn. lia.
  - destruct (activate now j i) as [i1|] eqn:Hact; [|discriminate].
    pose proof (activate_results now j i i1 n Hn Hact) as H1.
    specialize (IH i1 _ H1 Hex).
    unfold results_in in *. cbn [List.filter snd].
    destruct (is_result j); cbn [length]; lia.
Qed.

Lemma progress_length cur done :
  (cur, done) ∈ progress -> (length done ≤ 4)%nat.
Proof.
  unfold progress. rewrite !elem_of_cons, elem_of_nil.
  intros H. repeat (destruct H as [[= _ ->]|H]; [cbn; lia|]). destruct H.
Qed.

Lemma last_code_snoc c codes tc :
  last_code c (codes ++ [tc]) = Some tc.2.
Proof. unfold last_code. rewrite foldl_app. reflexivity. Qed.

Lemma statuses_of_app h1 h2 :
  statuses_of (h1 ++ h2) = (statuses_of h1 ++ statuses_of h2)%list.
Proof. unfold statuses_of. apply omap_app. Qed.

(* ===================================================================== *)
(** * More properties of the workflow *)
(* ===================================================================== *)

Section MoreWorkflowProperties.
Context {R : Render}.

Lemma step4_keeps_order cur done request result :
  fits cur done = true ->
  fits "FAILED" done = true ->
  fits "CAPTURING_PROOF" done = true ->
  fits "CAPTURING_PROOF" (done ++ [CaptureProof]) = true ->
  fits "COMPLETED" (done ++ [CaptureProof]) = true ->
  keeps_order cur done (step4_capture_proof request result).
Proof.
  intros H0 H1 H2 H3 H4.
  unfold step4_capture_proof, capture_task, finalize. each_path.
Qed.

Lemma run_keeps_order request : keeps_order "PENDING" [] (run request).
Proof.
  unfold run, begin_task, after_step1, step2_handle_2fa, notify_task,
    wait_for_2fa_code, step3_inject_2fa, inject_task.
  each_path; apply step4_keeps_order; reflexivity.
Qed.

Lemma start_in_order now request : in_order (start now request).
Proof. apply advance_in_order. apply run_keeps_order. Qed.

(** X4.  In every run, the status an instance shows between two workflow
    tasks tells which activities have been handed to the engine so far, and
    in which order: the pair is one of [progress].  The begin activity is
    always the first; the push, the code injection and the proof capture
    follow in this order; COMPLETED is shown only once the proof capture
    has been scheduled, TIMEOUT only after the push and before any code
    injection, FAILED only right after the begin activity or the code
    injection. *)
Theorem status_tells_the_activities now request jobs i :
  exec jobs (start now request) = Some i ->
  (status (self i), activities_of (history i)) ∈ progress.
Proof.
  intros Hex.
  destruct (exec_in_order jobs _ i (start_in_order now request) Hex) as [Hf _].
  unfold fits in Hf. apply bool_decide_eq_true in Hf. exact Hf.
Qed.

(** X5.  In every run, the activity results the instance has accepted
    plus the activity it is waiting for are exactly the activities it has
    scheduled, and it never accepts more than four results: [run] has no
    loop, it ends after at most four activities. *)
Theorem run_takes_at_most_four_results now request jobs i :
  exec jobs (start now request) = Some i ->
  (results_in jobs + pending i)%nat = length (activities_of (history i))
  ∧ (results_in jobs ≤ 4)%nat.
Proof.
  intros Hex.
  assert (H0 : (0 + pending (start now request))%nat
               = length (activities_of (history (start now request)))).
  { unfold start. rewrite advance_activities. reflexivity. }
  pose proof (exec_results jobs _ i 0%nat H0 Hex) as Hn.
  split; [exact Hn|].
  destruct (exec_in_order jobs _ i (start_in_order now request) Hex) as [Hf _].
  unfold fits in Hf. apply bool_decide_eq_true in Hf.
  apply progress_length in Hf. lia.
Qed.

(** X6.  [run] handles the failure of no activity: in every run, whichever
    of the four activities is pending, when the engine reports its failure
    (an exception of the activity or a timeout, after the retries) [run]
    ends by raising that [ActivityError]; the status and the code stay as
    they are, nothing is added to the history, no result is returned and no
    further job is accepted.  This holds also for the push, whose FAILED
    results are ignored. *)
Theorem activity_failure_is_never_handled
    now request jobs i a payload opts k t msg :
  exec jobs (start now request) = Some i ->
  task i = ExecuteActivity a payload opts k ->
  ∃ i',
    activate t (ResolveActivity (Failed msg)) i = Some i'
    ∧ task i' = Raise (ActivityError msg)
    ∧ result_of i' = None
    ∧ self i' = self i
    ∧ history i' = history i
    ∧ ∀ t' j, activate t' j i' = None.
Proof.
  intros Hex Ht.
  destruct (reachable_point now request jobs i Hex) as [Hp _].
  pose proof (point_of_activity request _ _ a payload opts k Hp Ht) as Hpt.
  assert (Hk : k (Failed msg) = Raise (ActivityError msg)).
  { destruct a.
    - destruct Hpt as [_ Hm]. rewrite Ht in Hm. cbn in Hm.
      injection Hm as _ _ ->. reflexivity.
    - destruct Hpt as (_ & sid & code & Hm). rewrite Ht in Hm. cbn in Hm.
      injection Hm as _ _ ->. reflexivity.
    - destruct Hpt as (_ & sid & Hm). rewrite Ht in Hm. cbn in Hm.
      injection Hm as _ _ ->. reflexivity.
    - destruct Hpt as (_ & result & uid & sn & _ & Hm). rewrite Ht in Hm.
      cbn in Hm. injection Hm as _ _ ->. reflexivity. }
  unfold activate. rewrite Ht.
  eexists. split; [reflexivity|]. rewrite Hk. cbn.
  repeat split.
  intros t' [c|r|]; reflexivity.
Qed.

(** X7.  In every run, when the begin activity returns a result whose
    status is neither 2FA_REQUIRED nor SUCCESS (FAILED, or anything else),
    [self.status] becomes FAILED and [run] returns that result unchanged;
    no further activity is scheduled and no further job is accepted. *)
Theorem begin_other_status_fails
    now request jobs i payload opts k t (result : dict) st :
  exec jobs (start now request) = Some i ->
  task i = ExecuteActivity StartCancellation payload opts k ->
  result !! "status" = Some st ->
  eq_str st "2FA_REQUIRED" = false ->
  eq_str st "SUCCESS" = false ->
  ∃ i',
    activate t (ResolveActivity (Completed result)) i = Some i'
    ∧ status (self i') = "FAILED"
    ∧ result_of i' = Some result
    ∧ history i' = (history i ++ [Transition "NAVIGATING" "FAILED"])%list
    ∧ ∀ t' j, activate t' j i' = None.
Proof.
  intros Hex Ht Hst H2fa Hsucc.
  destruct (reachable_point now request jobs i Hex) as [Hp _].
  destruct (point_of_activity request _ _ _ payload opts k Hp Ht) as [Hcur Hm].
  assert (Heq : ExecuteActivity StartCancellation payload opts k
                = begin_task request (mkRetryPolicy (seconds 1) (minutes 5) 3))
    by congruence.
  cbn in Heq. injection Heq as -> -> ->.
  unfold activate. rewrite Ht.
  eexists. split; [reflexivity|].
  cbn. unfold after_step1, wf_getitem, getitem. rewrite Hst. cbn. rewrite H2fa.
  unfold step4_capture_proof, wf_getitem, getitem. rewrite Hst. cbn.
  rewrite Hsucc. cbn. rewrite Hcur.
  repeat split.
  intros t' [c|r|]; reflexivity.
Qed.

(** X8.  In every run, when the submit-2FA activity returns a result whose
    status is not SUCCESS, [self.status] becomes FAILED and [run] returns
    that result unchanged: the user is not asked for another code, the
    proof capture is not scheduled and no further job is accepted. *)
Theorem rejected_code_fails_the_run
    now request jobs i payload opts k t (result : dict) st :
  exec jobs (start now request) = Some i ->
  task i = ExecuteActivity InjectTwoFaCode payload opts k ->
  result !! "status" = Some st ->
  eq_str st "SUCCESS" = false ->
  ∃ i',
    activate t (ResolveActivity (Completed result)) i = Some i'
    ∧ status (self i') = "FAILED"
    ∧ result_of i' = Some result
    ∧ history i' = (history i ++ [Transition "VERIFYING_2FA" "FAILED"])%list
    ∧ ∀ t' j, activate t' j i' = None.
Proof.
  intros Hex Ht Hst Hsucc.
  destruct (reachable_point now request jobs i Hex) as [Hp _].
  destruct (point_of_activity request _ _ _ payload opts k Hp Ht)
    as (Hcur & sid & code & Hm).
  assert (Heq : ExecuteActivity InjectTwoFaCode payload opts k
                = inject_task request sid code) by congruence.
  cbn in Heq. injection Heq as -> -> ->.
  unfold activate. rewrite Ht.
  eexists. split; [reflexivity|].
  cbn. unfold step4_capture_proof, wf_getitem, getitem. rewrite Hst. cbn.
  rewrite Hsucc. cbn. rewrite Hcur.
  repeat split.
  intros t' [c|r|]; reflexivity.
Qed.

(** X9.  [run] reads its dictionaries with [d[key]]: in every run, when the
    result of the begin activity has no status, or reports a 2FA challenge
    while the request has no user_id or no service_name, or reports SUCCESS
    without a session_id, [run] ends by raising the [KeyError] of that key.
    The status is then the last one assigned (NAVIGATING, AWAITING_2FA or
    CAPTURING_PROOF), not FAILED, and no further activity is scheduled. *)
Theorem missing_key_ends_the_run
    now request jobs i payload opts k t (result : dict) :
  exec jobs (start now request) = Some i ->
  task i = ExecuteActivity StartCancellation payload opts k ->
  ∃ i',
    activate t (ResolveActivity (Completed result)) i = Some i'
    ∧ (result !! "status" = None ->
         task i' = Raise (KeyError "status")
         ∧ status (self i') = "NAVIGATING"
         ∧ history i' = history i)
    ∧ (result !! "status" = Some (VStr "2FA_REQUIRED") ->
       request !! "user_id" = None ->
         task i' = Raise (KeyError "user_id")
         ∧ status (self i') = "AWAITING_2FA"
         ∧ history i' = (history i ++ [Transition "NAVIGATING" "AWAITING_2FA"])%list)
    ∧ (result !! "status" = Some (VStr "2FA_REQUIRED") ->
       is_Some (request !! "user_id") ->
       request !! "service_name" = None ->
         task i' = Raise (KeyError "service_name")
         ∧ status (self i') = "AWAITING_2FA"
         ∧ history i' = (history i ++ [Transition "NAVIGATING" "AWAITING_2FA"])%list)
    ∧ (result !! "status" = Some (VStr "SUCCESS") ->
       result !! "session_id" = None ->
         task i' = Raise (KeyError "session_id")
         ∧ status (self i') = "CAPTURING_PROOF"
         ∧ history i' = (history i ++ [Transition "NAVIGATING" "CAPTURING_PROOF"])%list).
Proof.
  intros Hex Ht.
  destruct (reachable_point now request jobs i Hex) as [Hp _].
  destruct (point_of_activity request _ _ _ payload opts k Hp Ht) as [Hcur Hm].
  assert (Heq : ExecuteActivity StartCancellation payload opts k
                = begin_task request (mkRetryPolicy (seconds 1) (minutes 5) 3))
    by congruence.
  cbn in Heq. injection Heq as -> -> ->.
  unfold activate. rewrite Ht.
  eexists. split; [reflexivity|].
  cbn. unfold after_step1, wf_getitem, getitem.
  split; [|split; [|split]].
  - intros ->. cbn. auto.
  - intros -> Hu. cbn. unfold wf_getitem, getitem. rewrite Hu. cbn.
    rewrite Hcur. auto.
  - intros -> [u Hu] Hs. cbn. unfold wf_getitem, getitem. rewrite Hu. cbn.
    rewrite Hs. cbn. rewrite Hcur. auto.
  - intros Hst Hs. rewrite Hst. cbn.
    unfold step4_capture_proof, wf_getitem, getitem. rewrite Hst. cbn.
    rewrite Hs. cbn. rewrite Hcur. auto.
Qed.

(** X10.  In every run, when the proof capture returns, [self.status]
    becomes COMPLETED before the proof is looked at.  With a
    [screenshot_url] entry, whatever its value, [run] returns SUCCESS with
    that value, the proof's video_url (None when absent), the request's
    annual_cost (0 when absent) and the time of the workflow task; without
    the entry [run] raises [KeyError] and returns nothing, although the
    status says COMPLETED.  Either way no further job is accepted. *)
Theorem completed_before_the_proof_is_read
    now request jobs i payload opts k t (proof : dict) :
  exec jobs (start now request) = Some i ->
  task i = ExecuteActivity CaptureProof payload opts k ->
  ∃ i',
    activate t (ResolveActivity (Completed proof)) i = Some i'
    ∧ status (self i') = "COMPLETED"
    ∧ history i' = (history i ++ [Transition "CAPTURING_PROOF" "COMPLETED"])%list
    ∧ (∀ url, proof !! "screenshot_url" = Some url ->
         result_of i' =
           Some {[ "status" := VStr "SUCCESS";
                   "screenshot_url" := url;
                   "video_url" := py_get proof "video_url";
                   "savings_per_year" :=
                     py_get_default request "annual_cost" (VInt 0);
                   "cancelled_at" := VStr t ]})
    ∧ (proof !! "screenshot_url" = None ->
         task i' = Raise (KeyError "screenshot_url")
         ∧ result_of i' = None)
    ∧ ∀ t' j, activate t' j i' = None.
Proof.
  intros Hex Ht.
  destruct (reachable_point now request jobs i Hex) as [Hp _].
  destruct (point_of_activity request _ _ _ payload opts k Hp Ht)
    as (Hcur & sid & Hm).
  assert (Heq : ExecuteActivity CaptureProof payload opts k
                = capture_task request sid) by congruence.
  cbn in Heq. injection Heq as -> -> ->.
  unfold activate. rewrite Ht.
  eexists. split; [reflexivity|].
  cbn. unfold wf_getitem, getitem.
  destruct (proof !! "screenshot_url") as [url|]; cbn; rewrite Hcur.
  - split; [reflexivity|]. split; [reflexivity|].
    split; [intros url' [= <-]; reflexivity|].
    split; [discriminate|]. intros t' [c|r|]; reflexivity.
  - split; [reflexivity|]. split; [reflexivity|].
    split; [discriminate|].
    split; [auto|]. intros t' [c|r|]; reflexivity.
Qed.

(** X11.  The last code wins.  In every run, when codes arrive while the
    push is pending, each replaces the one before; once the push returns,
    the wait is passed at once (no timer, the status goes from
    AWAITING_2FA straight to VERIFYING_2FA) and the code handed to the
    submit-2FA activity is the last one received. *)
Theorem last_code_wins
    now request jobs i payload opts k codes tc code t (notify : dict) :
  exec jobs (start now request) = Some i ->
  task i = ExecuteActivity SendPushNotification payload opts k ->
  ∃ i',
    exec (signals (codes ++ [(tc, code)])
          ++ [(t, ResolveActivity (Completed notify))]) i = Some i'
    ∧ two_fa_code (self i') = Some code
    ∧ status (self i') = "VERIFYING_2FA"
    ∧ statuses_of (history i') = (statuses_of (history i) ++ ["VERIFYING_2FA"])%list
    ∧ ∀ payload' opts' k',
        task i' = ExecuteActivity InjectTwoFaCode payload' opts' k' ->
        payload' !! "code" = Some (VStr code).
Proof.
  intros Hex Ht.
  destruct (reachable_point now request jobs i Hex) as [Hp _].
  destruct (point_of_activity request _ _ _ payload opts k Hp Ht)
    as (Hcur & result & uid & sn & Hres & Hm).
  assert (Heq : ExecuteActivity SendPushNotification payload opts k
                = notify_task request result uid sn) by congruence.
  cbn in Heq. injection Heq as -> -> ->.
  rewrite exec_app.
  erewrite exec_signals_pending; [|exact Ht].
  rewrite last_code_snoc. cbn [mbind option_bind snd].
  cbn [exec]. unfold activate. cbn [task]. rewrite Ht.
  eexists. split; [reflexivity|].
  cbn. unfold wf_getitem, getitem.
  destruct (result !! "session_id") as [sid|]; cbn; rewrite ?Hcur.
  - split; [reflexivity|]. split; [reflexivity|].
    split.
    + rewrite !statuses_of_app, statuses_of_signals. cbn.
      rewrite !app_nil_r. reflexivity.
    + intros payload' opts' k' [= <- _ _]. reflexivity.
  - split; [reflexivity|]. split; [reflexivity|].
    split.
    + rewrite !statuses_of_app, statuses_of_signals. cbn.
      rewrite !app_nil_r. reflexivity.
    + intros payload' opts' k' Hd. discriminate Hd.
Qed.

(** X12.  An empty code ends the run.  In every run that waits for the
    code with a session handle in the begin result, the empty string is a
    code like any other for the wait ([two_fa_code is not None]): the
    instance moves from AWAITING_2FA to VERIFYING_2FA and schedules
    [inject_2fa_code] with the handle and the empty code; the activity, run
    on the scheduled payload, rejects it as a missing parameter; given this
    result [run] sets FAILED and returns it.  No second code is asked for,
    no further activity is scheduled and no further job is accepted. *)
Theorem empty_code_fails_the_run (stub : StubExt)
    now request jobs i (result : dict) (session_id : value) t t' :
  exec jobs (start now request) = Some i ->
  task i = wait_for_2fa_code request result ->
  result !! "session_id" = Some session_id ->
  status (self i) = "AWAITING_2FA"
  ∧ ∃ i1 i2,
      activate t (SignalWorkflow "") i = Some i1
      ∧ status (self i1) = "VERIFYING_2FA"
      ∧ two_fa_code (self i1) = Some ""
      ∧ history i1 =
          (history i
           ++ [ SignalReceived "";
                Transition "AWAITING_2FA" "VERIFYING_2FA";
                ActivityScheduled InjectTwoFaCode
                  {[ "session_id" := session_id; "code" := VStr "" ]}
                  {| start_to_close_timeout := minutes 3;
                     retry_policy := None |} ])%list
      ∧ outcome (inject_2fa_code stub
                   {[ "session_id" := session_id; "code" := VStr "" ]})
        = Returned {[ "status" := VStr "FAILED";
                      "message" :=
                        VStr "Missing required parameters: session_id, code" ]}
      ∧ activate t'
          (ResolveActivity
             (Completed {[ "status" := VStr "FAILED";
                           "message" :=
                             VStr "Missing required parameters: session_id, code" ]}))
          i1 = Some i2
      ∧ status (self i2) = "FAILED"
      ∧ history i2 = (history i1 ++ [ Transition "VERIFYING_2FA" "FAILED" ])%list
      ∧ result_of i2 =
          Some {[ "status" := VStr "FAILED";
                  "message" :=
                    VStr "Missing required parameters: session_id, code" ]}
      ∧ activities_of (history i2) = activities_of (history i1)
      ∧ ∀ t'' j, activate t'' j i2 = None.
Proof.
  intros Hex Ht Hsid.
  destruct (reachable_point now request jobs i Hex) as [Hp _].
  assert (Hst : status (self i) = "AWAITING_2FA").
  { rewrite Ht in Hp.
    eapply (point_of_wait request _ _ _ _ _ Hp). reflexivity. }
  split; [exact Hst|].
  destruct i as [[c0 st] tk h]. cbn in Ht, Hst. subst tk st.
  set (i1 := {| self := {| two_fa_code := Some ""; status := "VERIFYING_2FA" |};
                task := inject_task request session_id (Some "");
                history :=
                  h ++ [ SignalReceived "";
                         Transition "AWAITING_2FA" "VERIFYING_2FA";
                         ActivityScheduled InjectTwoFaCode
                           {[ "session_id" := session_id; "code" := VStr "" ]}
                           {| start_to_close_timeout := minutes 3;
                              retry_policy := None |} ] |}).
  assert (H1 : activate t (SignalWorkflow "")
                 {| self := {| two_fa_code := c0; status := "AWAITING_2FA" |};
                    task := wait_for_2fa_code request result;
                    history := h |} = Some i1).
  { unfold activate. cbn. unfold wf_getitem, getitem. rewrite Hsid. cbn.
    rewrite <- !app_assoc. reflexivity. }
  set (rejected := {[ "status" := VStr "FAILED";
                      "message" :=
                        VStr "Missing required parameters: session_id, code" ]} : dict).
  assert (Hrst : rejected !! "status" = Some (VStr "FAILED")) by reflexivity.
  set (i2 := {| self := {| two_fa_code := Some ""; status := "FAILED" |};
                task := Ret rejected;
                history := history i1 ++ [ Transition "VERIFYING_2FA" "FAILED" ] |}).
  assert (H2 : activate t' (ResolveActivity (Completed rejected)) i1 = Some i2).
  { unfold activate, i2, i1. cbn.
    unfold step4_capture_proof, wf_getitem, getitem. rewrite Hrst. cbn.
    reflexivity. }
  exists i1, i2.
  split; [exact H1|]. split; [reflexivity|]. split; [reflexivity|].
  split; [reflexivity|].
  split.
  { apply (inject_2fa_code_rejects stub
             {[ "session_id" := session_id; "code" := VStr "" ]}).
    right. reflexivity. }
  split; [exact H2|].
  split; [reflexivity|].
  split; [reflexivity|].
  split; [reflexivity|].
  split.
  { unfold i2. cbn [history]. unfold activities_of. rewrite omap_app.
    cbn. apply app_nil_r. }
  intros t'' [c|r|]; reflexivity.
Qed.

(** What [run] does with a 2FA challenge when the request names the user
    and the service. *)
Lemma after_step1_2fa request (result : dict) user_id service_name :
  result !! "status" = Some (VStr "2FA_REQUIRED") ->
  request !! "user_id" = Some user_id ->
  request !! "service_name" = Some service_name ->
  after_step1 request result
  = SetStatus "AWAITING_2FA" (notify_task request result user_id service_name).
Proof.
  intros Hst Hu Hs.
  unfold after_step1, wf_getitem, getitem. rewrite Hst. cbn.
  unfold wf_getitem, getitem. rewrite Hu. cbn. rewrite Hs. reflexivity.
Qed.

(** X13.  From the agent to the push.  When the request has its four
    required parameters and a user_id, the browser and the agent can be
    created and closed, and the agent stops with an exception whose text
    mentions 2FA or verification, [start_cancellation] returns 2FA_REQUIRED
    with the session handle service_user_clock, and [run], given this
    result, moves to AWAITING_2FA and schedules the push for that user with
    the title "<service> needs verification". *)
Theorem verification_prompt_leads_to_the_push
    (ext : BrowserExt) now t (request : dict) (e : exn) (user_id : value) :
  all [py_get request "service_name"; py_get request "login_url";
       py_get request "email"; py_get request "password"] = true ->
  new_browser ext (truthy (py_get_default request "use_steel" (VBool false)))
    = Returned tt ->
  new_agent ext = Returned tt ->
  agent_run ext = Raised e ->
  browser_close ext = Returned tt ->
  contains "2FA" (exn_str e) || contains "verification" (lower (exn_str e)) = true ->
  request !! "user_id" = Some user_id ->
  ∃ begin i,
    outcome (start_cancellation ext request) = Returned begin
    ∧ begin =
        {[ "status" := VStr "2FA_REQUIRED";
           "session_id" :=
             VStr (py_str (py_get request "service_name") ++ "_"
                   ++ py_str user_id ++ "_" ++ session_clock ext);
           "message" := VStr "User needs to provide verification code";
           "service_name" := py_get request "service_name" ]}
    ∧ activate t (ResolveActivity (Completed begin)) (start now request) = Some i
    ∧ status (self i) = "AWAITING_2FA"
    ∧ last (history i) =
        Some (ActivityScheduled SendPushNotification
                {[ "user_id" := user_id;
                   "title" :=
                     VStr (py_str (py_get request "service_name")
                           ++ " needs verification");
                   "body" :=
                     VStr "Enter the code from your SMS/email to continue cancellation" ]}
                {| start_to_close_timeout := seconds 30; retry_policy := None |}).
Proof.
  intros Hall Hb Ha Hr Hc Hmention Huid.
  assert (Hsn : request !! "service_name" = Some (py_get request "service_name")).
  { apply truthy_py_get. cbn in Hall.
    destruct (truthy (py_get request "service_name")); [reflexivity | discriminate]. }
  assert (Hpg : py_get request "user_id" = user_id)
    by (unfold py_get; rewrite Huid; reflexivity).
  pose proof (start_cancellation_reports_2fa ext request e Hall Hb Ha Hr Hc Hmention)
    as Hbegin.
  rewrite Hpg in Hbegin.
  eexists _, _. split; [exact Hbegin|]. split; [reflexivity|].
  unfold activate, start. cbn.
  rewrite (after_step1_2fa request _ user_id (py_get request "service_name"));
    [|reflexivity|exact Huid|exact Hsn].
  cbn. repeat split.
Qed.

(** X14.  In every run, the push that [run] schedules carries the
    request's user_id and a title and a body that are never empty, so
    [send_push_notification] returns SUCCESS when the user_id is truthy
    and the FAILED result "Missing required parameters: ..." when it is
    falsy (None, an empty string, 0). *)
Theorem push_fails_only_without_user (stub : StubExt)
    now request jobs i payload opts k :
  exec jobs (start now request) = Some i ->
  task i = ExecuteActivity SendPushNotification payload opts k ->
  ∃ d,
    outcome (send_push_notification stub payload) = Returned d
    ∧ payload !! "user_id" = request !! "user_id"
    ∧ (truthy (py_get request "user_id") = true ->
         d !! "status" = Some (VStr "SUCCESS"))
    ∧ (truthy (py_get request "user_id") = false ->
         d = {[ "status" := VStr "FAILED";
                "delivery_status" :=
                  VStr "Missing required parameters: user_id, title, body";
                "timestamp" := VStr (now_isoformat stub) ]}).
Proof.
  intros Hex Ht.
  destruct (reachable_point now request jobs i Hex) as [Hp _].
  destruct (point_of_notify request _ _ payload opts k Hp Ht)
    as (result & uid & sn & Hu & Hs & Hres & Hm).
  assert (Heq : ExecuteActivity SendPushNotification payload opts k
                = notify_task request result uid sn) by congruence.
  injection Heq as -> _ _.
  rewrite send_push_notification_outcome.
  assert (Hall : all [py_get {[ "user_id" := uid;
                                "title" := VStr (py_str sn ++ " needs verification");
                                "body" := VStr "Enter the code from your SMS/email to continue cancellation" ]}
                        "user_id";
                      py_get {[ "user_id" := uid;
                                "title" := VStr (py_str sn ++ " needs verification");
                                "body" := VStr "Enter the code from your SMS/email to continue cancellation" ]}
                        "title";
                      py_get {[ "user_id" := uid;
                                "title" := VStr (py_str sn ++ " needs verification");
                                "body" := VStr "Enter the code from your SMS/email to continue cancellation" ]}
                        "body"]
                 = truthy uid).
  { change (truthy uid
            && (negb (String.eqb (py_str sn ++ " needs verification") "") && true)
            = truthy uid).
    assert (Hne : String.eqb (py_str sn ++ " needs verification") "" = false)
      by (destruct (py_str sn); reflexivity).
    rewrite Hne. apply andb_true_r. }
  rewrite Hall.
  assert (Hpg : py_get request "user_id" = uid)
    by (unfold py_get; rewrite Hu; reflexivity).
  rewrite Hpg, Hu.
  eexists. split; [reflexivity|]. split; [reflexivity|].
  split; intros ->; reflexivity.
Qed.

(** X15.  The 2FA flow, end to end.  When the agent stops at a
    verification prompt (as in X13) and the user submits a non-empty code
    while [run] waits, the four activity functions chain through [run]:
    [start_cancellation] yields the session handle service_user_clock; [run]
    schedules the push for the user, and drops what
    [send_push_notification] returns for that payload; after the signal it
    schedules [inject_2fa_code] with the handle and the code, which returns
    SUCCESS for that payload; it then schedules [capture_proof] with the
    handle, which returns the screenshot URL of that session.  The history
    consists of exactly these four activities with these payloads, the
    signal and the six assignments from STARTING to COMPLETED, and the
    instance ends COMPLETED with a SUCCESS result holding the URL. *)
Theorem two_fa_flow_completes (ext : BrowserExt) (stub : StubExt)
    now t1 t2 t3 t4 t5 (request : dict) (e : exn) (user_id : value) code :
  all [py_get request "service_name"; py_get request "login_url";
       py_get request "email"; py_get request "password"] = true ->
  new_browser ext (truthy (py_get_default request "use_steel" (VBool false)))
    = Returned tt ->
  new_agent ext = Returned tt ->
  agent_run ext = Raised e ->
  browser_close ext = Returned tt ->
  contains "2FA" (exn_str e) || contains "verification" (lower (exn_str e)) = true ->
  request !! "user_id" = Some user_id ->
  code ≠ "" ->
  ∃ begin sid notify verified proof url i d,
    outcome (start_cancellation ext request) = Returned begin
    ∧ begin !! "session_id" = Some (VStr sid)
    ∧ sid = py_str (py_get request "service_name") ++ "_"
            ++ py_str (py_get request "user_id") ++ "_" ++ session_clock ext
    ∧ outcome (send_push_notification stub
                 {[ "user_id" := user_id;
                    "title" :=
                      VStr (py_str (py_get request "service_name")
                            ++ " needs verification");
                    "body" :=
                      VStr "Enter the code from your SMS/email to continue cancellation" ]})
      = Returned notify
    ∧ outcome (inject_2fa_code stub
                 {[ "session_id" := VStr sid; "code" := VStr code ]})
      = Returned verified
    ∧ verified =
        {[ "status" := VStr "SUCCESS";
           "session_id" := VStr sid;
           "message" := VStr "2FA code verified and cancellation continued" ]}
    ∧ outcome (capture_proof stub {[ "session_id" := VStr sid ]}) = Returned proof
    ∧ proof !! "screenshot_url" = Some (VStr url)
    ∧ url = "https://storage.supabase.co/proof/" ++ sid ++ "/screenshot.png"
    ∧ exec [ (t1, ResolveActivity (Completed begin));
             (t2, ResolveActivity (Completed notify));
             (t3, SignalWorkflow code);
             (t4, ResolveActivity (Completed verified));
             (t5, ResolveActivity (Completed proof)) ]
           (start now request) = Some i
    ∧ history i =
        [ Transition "PENDING" "STARTING";
          Transition "STARTING" "NAVIGATING";
          ActivityScheduled StartCancellation request
            {| start_to_close_timeout := minutes 5;
               retry_policy := Some (mkRetryPolicy (seconds 1) (minutes 5) 3) |};
          Transition "NAVIGATING" "AWAITING_2FA";
          ActivityScheduled SendPushNotification
            {[ "user_id" := user_id;
               "title" :=
                 VStr (py_str (py_get request "service_name")
                       ++ " needs verification");
               "body" :=
                 VStr "Enter the code from your SMS/email to continue cancellation" ]}
            {| start_to_close_timeout := seconds 30; retry_policy := None |};
          SignalReceived code;
          Transition "AWAITING_2FA" "VERIFYING_2FA";
          ActivityScheduled InjectTwoFaCode
            {[ "session_id" := VStr sid; "code" := VStr code ]}
            {| start_to_close_timeout := minutes 3; retry_policy := None |};
          Transition "VERIFYING_2FA" "CAPTURING_PROOF";
          ActivityScheduled CaptureProof {[ "session_id" := VStr sid ]}
            {| start_to_close_timeout := seconds 30; retry_policy := None |};
          Transition "CAPTURING_PROOF" "COMPLETED" ]
    ∧ status (self i) = "COMPLETED"
    ∧ two_fa_code (self i) = Some code
    ∧ result_of i = Some d
    ∧ d = {[ "status" := VStr "SUCCESS";
             "screenshot_url" := VStr url;
             "video_url" := py_get proof "video_url";
             "savings_per_year" := py_get_default request "annual_cost" (VInt 0);
             "cancelled_at" := VStr t5 ]}
    ∧ d !! "status" = Some (VStr "SUCCESS")
    ∧ d !! "screenshot_url" = Some (VStr url)
    ∧ url ≠ ""
    ∧ activities_of (history i) =
        [StartCancellation; SendPushNotification; InjectTwoFaCode; CaptureProof]
    ∧ statuses_of (history i) =
        ["STARTING"; "NAVIGATING"; "AWAITING_2FA"; "VERIFYING_2FA";
         "CAPTURING_PROOF"; "COMPLETED"].
Proof.
  intros Hall Hb Ha Hr Hc Hmention Huid Hcode.
  assert (Hsn : request !! "service_name" = Some (py_get request "service_name")).
  { apply truthy_py_get. cbn in Hall.
    destruct (truthy (py_get request "service_name")); [reflexivity | discriminate]. }
  pose proof (start_cancellation_reports_2fa ext request e Hall Hb Ha Hr Hc Hmention)
    as Hbegin.
  set (sid := py_str (py_get request "service_name") ++ "_"
              ++ py_str (py_get request "user_id") ++ "_"
              ++ session_clock ext) in *.
  match type of Hbegin with _ = Returned ?b => set (begin := b) in * end.
  assert (Hst : begin !! "status" = Some (VStr "2FA_REQUIRED")) by reflexivity.
  assert (Hsid : begin !! "session_id" = Some (VStr sid)) by reflexivity.
  clearbody begin.
  assert (Htruthy : negb (String.eqb sid "") = true).
  { unfold sid. rewrite append_nonempty. reflexivity. }
  clearbody sid.
  destruct (send_push_notification_returns stub
              {[ "user_id" := user_id;
                 "title" :=
                   VStr (py_str (py_get request "service_name")
                         ++ " needs verification");
                 "body" :=
                   VStr "Enter the code from your SMS/email to continue cancellation" ]})
    as (notify & Hnotify & _).
  assert (Hinj : outcome (inject_2fa_code stub
                            {[ "session_id" := VStr sid; "code" := VStr code ]})
                 = Returned {[ "status" := VStr "SUCCESS";
                               "session_id" := VStr sid;
                               "message" :=
                                 VStr "2FA code verified and cancellation continued" ]}).
  { assert (Hs' : truthy (py_get {[ "session_id" := VStr sid; "code" := VStr code ]}
                                 "session_id") = true)
      by (change (negb (String.eqb sid "") = true); exact Htruthy).
    assert (Hc' : truthy (py_get {[ "session_id" := VStr sid; "code" := VStr code ]}
                                 "code") = true).
    { change (negb (String.eqb code "") = true).
      destruct code; [congruence | reflexivity]. }
    rewrite (inject_2fa_code_succeeds stub _ Hs' Hc').
    reflexivity. }
  match type of Hinj with _ = Returned ?b => set (verified := b) in * end.
  assert (Hverified : verified =
            {[ "status" := VStr "SUCCESS";
               "session_id" := VStr sid;
               "message" := VStr "2FA code verified and cancellation continued" ]})
    by reflexivity.
  assert (Hvst : verified !! "status" = Some (VStr "SUCCESS")) by reflexivity.
  assert (Hvsid : verified !! "session_id" = Some (VStr sid)) by reflexivity.
  clearbody verified.
  destruct (capture_proof_returns stub {[ "session_id" := VStr sid ]})
    as (proof & Hproof & _ & Hurl).
  assert (Hs'' : truthy (py_get {[ "session_id" := VStr sid ]} "session_id") = true)
    by (change (negb (String.eqb sid "") = true); exact Htruthy).
  specialize (Hurl Hs'').
  change (py_str (py_get {[ "session_id" := VStr sid ]} "session_id"))
    with sid in Hurl.
  exists begin, sid, notify, verified, proof,
    ("https://storage.supabase.co/proof/" ++ sid ++ "/screenshot.png").
  eexists _, _.
  split; [exact Hbegin|]. split; [exact Hsid|]. split; [reflexivity|].
  split; [exact Hnotify|]. split; [exact Hinj|]. split; [exact Hverified|].
  split; [exact Hproof|]. split; [exact Hurl|]. split; [reflexivity|].
  split.
  { cbn [exec]. unfold activate at 1. unfold start. cbn.
    rewrite (after_step1_2fa request begin user_id (py_get request "service_name")
               Hst Huid Hsn).
    cbn. unfold wf_getitem, getitem. rewrite Hsid. cbn.
    unfold step4_capture_proof, wf_getitem, getitem. rewrite Hvst. cbn.
    rewrite Hvsid. cbn. unfold wf_getitem, getitem. rewrite Hurl. cbn.
    reflexivity. }
  cbn.
  split; [reflexivity|]. split; [reflexivity|]. split; [reflexivity|].
  split; [reflexivity|]. split; [reflexivity|]. split; [reflexivity|].
  split; [reflexivity|]. split; [discriminate|].
  split; reflexivity.
Qed.

End MoreWorkflowProperties.

(* ===================================================================== *)
(** * Properties of the credential utilities *)
(* ===================================================================== *)

(** What the loop computes: every item on its own. *)
Lemma sanitize_credentials_spec (credentials : dict) :
  match sanitize_credentials_for_logging credentials with
  | Value d =>
      ∀ k, match credentials !! k with
           | Some v => sanitize_item k v = Value (default VNone (d !! k))
                       ∧ is_Some (d !! k)
           | None => d !! k = None
           end
  | Throws e =>
      ∃ k v, credentials !! k = Some v ∧ sanitize_item k v = Throws e
  end.
Proof.
  unfold sanitize_credentials_for_logging.
  apply (map_fold_weak_ind
           (λ (r : Fallible dict) (m : dict),
              match r with
              | Value d =>
                  ∀ k, match m !! k with
                       | Some v => sanitize_item k v = Value (default VNone (d !! k))
                                   ∧ is_Some (d !! k)
                       | None => d !! k = None
                       end
              | Throws e => ∃ k v, m !! k = Some v ∧ sanitize_item k v = Throws e
              end)).
  - intros k. rewrite !lookup_empty. reflexivity.
  - intros i x m r Hi IH.
    destruct r as [d|e]; cbn.
    + destruct (sanitize_item i x) as [v'|e] eqn:Hx; cbn.
      * intros k. destruct (decide (k = i)) as [->|Hne].
        -- rewrite !lookup_insert_eq. cbn. eauto.
        -- rewrite !lookup_insert_ne by congruence. apply IH.
      * exists i, x. rewrite lookup_insert_eq. auto.
    + destruct IH as (k & v & Hk & Hv). exists k, v.
      rewrite lookup_insert_ne by congruence. auto.
Qed.

Lemma str_split_nonempty sep s : str_split sep s ≠ [].
Proof.
  destruct s as [|c s]; cbn; [discriminate|].
  destruct (Ascii.eqb c sep); [discriminate|].
  destruct (str_split sep s); discriminate.
Qed.

(** [@] is in a string when it is its first character or in the rest. *)
Lemma contains_at_sign c s :
  contains "@" (String c s) = Ascii.eqb c at_sign || contains "@" s.
Proof.
  change (contains "@" (String c s))
    with (String.prefix "@" (String c s) || contains "@" s).
  f_equal.
  change (String.prefix "@" (String c s))
    with (if Ascii.ascii_dec at_sign c then String.prefix "" s else false).
  destruct (Ascii.ascii_dec at_sign c) as [<-|Hne].
  - destruct s; reflexivity.
  - symmetry. apply Ascii.eqb_neq. congruence.
Qed.

(** A string that splits into one part does not contain the separator. *)
Lemma str_split_one s part :
  str_split at_sign s = [part] -> contains "@" s = false.
Proof.
  revert part. induction s as [|c s IH]; intros part Hs; [reflexivity|].
  rewrite contains_at_sign.
  cbn [str_split] in Hs. destruct (Ascii.eqb c at_sign) eqn:Hc.
  { destruct (str_split at_sign s) eqn:Hsp;
      [destruct (str_split_nonempty _ _ Hsp) | discriminate Hs]. }
  destruct (str_split at_sign s) as [|p [|p' ps]] eqn:Hsp; try discriminate Hs.
  - destruct (str_split_nonempty _ _ Hsp).
  - apply (IH p). reflexivity.
Qed.

(** Only the e-mail address can make an item fail. *)
Lemma sanitize_item_throws key v e :
  sanitize_item key v = Throws e ->
  key = "email"
  ∧ e = IndexError "string index out of range"
  ∧ ∃ rest, v = VStr ("@" ++ rest).
Proof.
  unfold sanitize_item.
  destruct (_ || _); [discriminate|].
  destruct v as [ | | |s| | ]; try discriminate.
  destruct (String.eqb key "email") eqn:Hk; [|discriminate].
  apply String.eqb_eq in Hk.
  destruct (contains "@" s) eqn:Hat; [|discriminate].
  cbn [andb].
  destruct s as [|c rest]; [discriminate Hat|].
  rewrite contains_at_sign in Hat.
  cbn [str_split].
  destruct (Ascii.eqb c at_sign) eqn:Hc.
  - apply Ascii.eqb_eq in Hc. subst c. cbn. intros [= <-]. eauto.
  - destruct (str_split at_sign rest) as [|part [|part1 parts]] eqn:Hsp; cbn;
      [destruct (str_split_nonempty _ _ Hsp) | | discriminate].
    rewrite (str_split_one rest part Hsp) in Hat. discriminate Hat.
Qed.

Lemma sanitize_item_leading_at rest :
  sanitize_item "email" (VStr ("@" ++ rest))
  = Throws (IndexError "string index out of range").
Proof.
  unfold sanitize_item.
  change (String.eqb "email" "password" || contains "secret" (lower "email"))
    with false.
  change ("@" ++ rest) with (String at_sign rest).
  cbn [String.eqb]. rewrite contains_at_sign. reflexivity.
Qed.

(** X17.  [sanitize_credentials_for_logging] raises in one case only: when
    the value of email is a string that starts with [@] (an empty local
    part), [parts[0][0]] raises [IndexError]; and in that case it always
    raises, whatever else the dictionary holds. *)
Theorem sanitize_raises_on_leading_at (credentials : dict) :
  (∀ e, sanitize_credentials_for_logging credentials = Throws e ->
        e = IndexError "string index out of range"
        ∧ ∃ rest, credentials !! "email" = Some (VStr ("@" ++ rest)))
  ∧ (∀ rest, credentials !! "email" = Some (VStr ("@" ++ rest)) ->
             sanitize_credentials_for_logging credentials
             = Throws (IndexError "string index out of range")).
Proof.
  pose proof (sanitize_credentials_spec credentials) as Hspec.
  assert (Hthrows : ∀ e, sanitize_credentials_for_logging credentials = Throws e ->
        e = IndexError "string index out of range"
        ∧ ∃ rest, credentials !! "email" = Some (VStr ("@" ++ rest))).
  { intros e He. rewrite He in Hspec. destruct Hspec as (k & v & Hk & Hv).
    apply sanitize_item_throws in Hv. destruct Hv as (-> & -> & rest & ->).
    eauto. }
  split; [exact Hthrows|].
  intros rest Hemail.
  destruct (sanitize_credentials_for_logging credentials) as [d|e] eqn:Hs.
  - specialize (Hspec "email"). rewrite Hemail in Hspec.
    destruct Hspec as [Hitem _]. rewrite sanitize_item_leading_at in Hitem.
    discriminate Hitem.
  - destruct (Hthrows e eq_refl) as [-> _]. reflexivity.
Qed.

Lemma py_in_is_Some k (d : dict) : py_in k d = true ↔ is_Some (d !! k).
Proof.
  unfold py_in. destruct (d !! k); split; intros H; try reflexivity; eauto.
  - discriminate H.
  - destruct H as [? H]. discriminate H.
Qed.

(** X16.  When [sanitize_credentials_for_logging] returns, the result has
    the keys of the input; the value of password and of every key that
    contains "secret" in any letter case is "***"; every other key except
    email keeps its value (also keys such as "Password" or "token"); and an
    email that is not a string containing [@] is kept as it is.
    [validate_credentials] gives the same answer before and after. *)
Theorem sanitize_masks_secrets (credentials d : dict) :
  sanitize_credentials_for_logging credentials = Value d ->
  (∀ k, is_Some (d !! k) ↔ is_Some (credentials !! k))
  ∧ (∀ k, is_Some (credentials !! k) ->
          k = "password" ∨ contains "secret" (lower k) = true ->
          d !! k = Some (VStr "***"))
  ∧ (∀ k, k ≠ "password" -> contains "secret" (lower k) = false ->
          k ≠ "email" ->
          d !! k = credentials !! k)
  ∧ (∀ v, credentials !! "email" = Some v ->
          (∀ s, v = VStr s -> contains "@" s = false) ->
          d !! "email" = Some v)
  ∧ validate_credentials d = validate_credentials credentials.
Proof.
  intros Hs.
  pose proof (sanitize_credentials_spec credentials) as Hspec.
  rewrite Hs in Hspec.
  assert (Hdom : ∀ k, is_Some (d !! k) ↔ is_Some (credentials !! k)).
  { intros k. specialize (Hspec k).
    destruct (credentials !! k) as [v|].
    - destruct Hspec as [_ Hd]. split; eauto.
    - rewrite Hspec. reflexivity. }
  split; [exact Hdom|].
  split; [|split; [|split]].
  - intros k [v Hk] Hmask. specialize (Hspec k). rewrite Hk in Hspec.
    destruct Hspec as [Hitem [v' Hd]]. rewrite Hd in Hitem |- *. cbn in Hitem.
    unfold sanitize_item in Hitem.
    assert (Hb : String.eqb k "password" || contains "secret" (lower k) = true).
    { destruct Hmask as [-> | ->]; [reflexivity | apply orb_true_r]. }
    rewrite Hb in Hitem. congruence.
  - intros k Hp Hsec He. specialize (Hspec k).
    destruct (credentials !! k) as [v|]; [|exact Hspec].
    destruct Hspec as [Hitem [v' Hd]]. rewrite Hd in Hitem |- *. cbn in Hitem.
    unfold sanitize_item in Hitem.
    apply String.eqb_neq in Hp, He. rewrite Hp, Hsec, He in Hitem.
    cbn in Hitem. destruct v; congruence.
  - intros v Hk Hno. specialize (Hspec "email"). rewrite Hk in Hspec.
    destruct Hspec as [Hitem [v' Hd]]. rewrite Hd in Hitem |- *. cbn in Hitem.
    unfold sanitize_item in Hitem.
    change (String.eqb "email" "password" || contains "secret" (lower "email"))
      with false in Hitem.
    destruct v as [ | | |s| | ]; try congruence.
    rewrite (Hno s eq_refl) in Hitem. cbn in Hitem. congruence.
  - unfold validate_credentials. cbn [forallb].
    assert (Hin : ∀ k, py_in k d = py_in k credentials).
    { intros k. apply eq_true_iff_eq. rewrite !py_in_is_Some. apply Hdom. }
    rewrite !Hin. reflexivity.
Qed.

Lemma str_split_none a :
  contains "@" a = false -> str_split at_sign a = [a].
Proof.
  induction a as [|c a IH]; intros Hno; [reflexivity|].
  rewrite contains_at_sign in Hno. apply orb_false_iff in Hno as [Hc Ha].
  cbn [str_split]. rewrite Hc, (IH Ha). reflexivity.
Qed.

Lemma str_split_app a b :
  contains "@" a = false ->
  str_split at_sign (a ++ "@" ++ b) = a :: str_split at_sign b.
Proof.
  induction a as [|c a IH]; intros Hno.
  - reflexivity.
  - rewrite contains_at_sign in Hno. apply orb_false_iff in Hno as [Hc Ha].
    change (String c a ++ "@" ++ b) with (String c (a ++ "@" ++ b)).
    cbn [str_split]. rewrite Hc, (IH Ha). reflexivity.
Qed.

Lemma contains_at_app a b : contains "@" (a ++ "@" ++ b) = true.
Proof.
  induction a as [|c a IH].
  - change ("" ++ "@" ++ b) with (String at_sign b).
    rewrite contains_at_sign. reflexivity.
  - change (String c a ++ "@" ++ b) with (String c (a ++ "@" ++ b)).
    rewrite contains_at_sign, IH. apply orb_true_r.
Qed.

Lemma append_empty (s : string) : s ++ "" = s.
Proof.
  induction s as [|c s IH]; [reflexivity|].
  change (String c s ++ "") with (String c (s ++ "")). rewrite IH. reflexivity.
Qed.

(** X18.  An e-mail address is masked to its first character, "***@" and
    the text between the first and the second [@]: for user@example.com
    this is u***@example.com, and of a@b@c only a***@b is left. *)
Theorem sanitize_email_keeps_initial_and_domain
    (credentials : dict) c local domain tail :
  credentials !! "email" = Some (VStr (String c local ++ "@" ++ domain ++ tail)) ->
  contains "@" (String c local) = false ->
  contains "@" domain = false ->
  tail = "" ∨ (∃ rest, tail = "@" ++ rest) ->
  ∃ d,
    sanitize_credentials_for_logging credentials = Value d
    ∧ d !! "email" = Some (VStr (String c ("***@" ++ domain))).
Proof.
  intros Hemail Hlocal Hdomain Htail.
  assert (Hitem : sanitize_item "email"
                    (VStr (String c local ++ "@" ++ domain ++ tail))
                  = Value (VStr (String c ("***@" ++ domain)))).
  { unfold sanitize_item.
    change (String.eqb "email" "password" || contains "secret" (lower "email"))
      with false.
    change (String.eqb "email" "email") with true.
    rewrite contains_at_app. cbn [andb].
    rewrite (str_split_app _ _ Hlocal).
    destruct Htail as [-> | [rest ->]].
    - rewrite append_empty, (str_split_none _ Hdomain). reflexivity.
    - rewrite (str_split_app _ _ Hdomain). reflexivity. }
  pose proof (sanitize_credentials_spec credentials) as Hspec.
  destruct (sanitize_credentials_for_logging credentials) as [d|e] eqn:Hs.
  - exists d. split; [reflexivity|].
    specialize (Hspec "email"). rewrite Hemail in Hspec.
    destruct Hspec as [Hv [v' Hd]]. rewrite Hd in Hv |- *. cbn in Hv.
    congruence.
  - destruct Hspec as (k & v & Hk & Hv).
    apply sanitize_item_throws in Hv as H'. destruct H' as (-> & _ & _).
    rewrite Hemail in Hk. injection Hk as <-.
    rewrite Hitem in Hv. discriminate Hv.
Qed.
(* ===================================================================== *)
(** * Properties of the Plaid client *)
(* ===================================================================== *)

(** X19.  The Plaid host is Production only when PLAID_ENV is exactly
    [production], Development only when it is exactly [development]; with
    any other value (another spelling or letter case, the empty string) or
    without the variable, it is the Sandbox: an unknown name is not an
    error. *)
Theorem production_needs_the_exact_name (environ : gmap string string) :
  (_get_plaid_host environ = Production ↔
     environ !! "PLAID_ENV" = Some "production")
  ∧ (_get_plaid_host environ = Development ↔
       environ !! "PLAID_ENV" = Some "development")
  ∧ (_get_plaid_host environ = Sandbox ↔
       environ !! "PLAID_ENV" ≠ Some "production"
       ∧ environ !! "PLAID_ENV" ≠ Some "development").
Proof.
  unfold _get_plaid_host, getenv. cbv zeta.
  match goal with |- context [default Sandbox (?m !! _)] => set (hosts := m) end.
  assert (Hs : hosts !! "sandbox" = Some Sandbox) by reflexivity.
  assert (Hd : hosts !! "development" = Some Development) by reflexivity.
  assert (Hp : hosts !! "production" = Some Production) by reflexivity.
  assert (Hother : ∀ env, env ≠ "sandbox" -> env ≠ "development" ->
                          env ≠ "production" -> hosts !! env = None).
  { intros env ? ? ?. unfold hosts.
    rewrite !lookup_insert_ne, lookup_singleton_ne by congruence. reflexivity. }
  clearbody hosts.
  destruct (environ !! "PLAID_ENV") as [env|] eqn:He; cbn [from_option id].
  - destruct (decide (env = "production")) as [->|Hnp];
      [rewrite Hp; cbn [from_option id]; intuition congruence|].
    destruct (decide (env = "development")) as [->|Hnd];
      [rewrite Hd; cbn [from_option id]; intuition congruence|].
    destruct (decide (env = "sandbox")) as [->|Hns];
      [rewrite Hs; cbn [from_option id]; intuition congruence|].
    rewrite (Hother env Hns Hnd Hnp). cbn [from_option id]. intuition congruence.
  - rewrite Hs. cbn [from_option id]. intuition congruence.
Qed.

(** ** [_normalize_merchant_name] *)

Example normalize_netflix : _normalize_merchant_name "NETFLIX.COM" = "Netflix".
Proof. reflexivity. Qed.
Example normalize_adobe :
  _normalize_merchant_name "Adobe* Creative Cloud" = "Adobe Creative Cloud".
Proof. reflexivity. Qed.
Example normalize_spotify : _normalize_merchant_name "SPOTIFY USA" = "Spotify Usa".
Proof. reflexivity. Qed.
Example normalize_spaces :
  _normalize_merchant_name "  hulu   *  plus.com " = "Hulu Plus".
Proof. reflexivity. Qed.

(** ** Characters *)

Ltac each_ascii c :=
  destruct c as [[] [] [] [] [] [] [] []]; try reflexivity; try discriminate.

Lemma upper_ascii_cased c :
  is_lower c = true ->
  is_upper (upper_ascii c) = true ∧ is_lower (upper_ascii c) = false.
Proof. each_ascii c; intros _; split; reflexivity. Qed.

Lemma lower_ascii_cased c :
  is_upper c = true ->
  is_lower (lower_ascii c) = true.
Proof. each_ascii c. Qed.

Lemma lower_not_upper c : is_lower c = true -> is_upper c = false.
Proof. each_ascii c. Qed.

Lemma upper_ascii_space c : is_space (upper_ascii c) = is_space c.
Proof. each_ascii c. Qed.

Lemma lower_ascii_space c : is_space (lower_ascii c) = is_space c.
Proof. each_ascii c. Qed.

Lemma upper_ascii_star c : not_star c = true -> not_star (upper_ascii c) = true.
Proof. each_ascii c. Qed.

Lemma lower_ascii_star c : not_star c = true -> not_star (lower_ascii c) = true.
Proof. each_ascii c. Qed.

Lemma space_not_cased c :
  is_space c = true -> is_lower c = false ∧ is_upper c = false.
Proof. each_ascii c; intros _; split; reflexivity. Qed.

(** ** Strings *)

Lemma append_cons c s t : String c s ++ t = String c (s ++ t).
Proof. reflexivity. Qed.

Lemma space_append t : " " ++ t = String (Ascii.ascii_of_nat 32) t.
Proof. reflexivity. Qed.

Lemma append_nil_l t : "" ++ t = t.
Proof. reflexivity. Qed.

Lemma append_nil_r s : s ++ "" = s.
Proof.
  induction s as [|c s IH]; [reflexivity|]. rewrite append_cons, IH. reflexivity.
Qed.

Lemma append_assoc s t u : (s ++ t) ++ u = s ++ (t ++ u).
Proof.
  induction s as [|c s IH]; [reflexivity|]. rewrite !append_cons, IH. reflexivity.
Qed.

Lemma all_chars_app P s t :
  all_chars P (s ++ t) = all_chars P s && all_chars P t.
Proof.
  induction s as [|c s IH]; [reflexivity|].
  rewrite append_cons. cbn [all_chars]. rewrite IH, andb_assoc. reflexivity.
Qed.

Lemma join_cons sep w w' ws :
  join sep (w :: w' :: ws) = w ++ sep ++ join sep (w' :: ws).
Proof. reflexivity. Qed.

(** ** [split] and [join] *)

Lemma split_whitespace_cons c rest :
  split_whitespace (String c rest) =
  if is_space c then split_whitespace rest
  else
    match rest with
    | EmptyString => [String c EmptyString]
    | String c' _ =>
        if is_space c' then String c EmptyString :: split_whitespace rest
        else match split_whitespace rest with
             | word :: words => String c word :: words
             | [] => [String c EmptyString]
             end
    end.
Proof. destruct rest; reflexivity. Qed.

Lemma word_cons c w :
  is_space c = false ->
  all_chars (λ c, negb (is_space c)) w = true ->
  word (String c w).
Proof.
  intros Hc Hw. split; [discriminate|]. cbn [all_chars]. rewrite Hc, Hw. reflexivity.
Qed.

(** [s.split()] gives words. *)
Lemma split_whitespace_words s : Forall word (split_whitespace s).
Proof.
  induction s as [|c rest IH]; [constructor|].
  rewrite split_whitespace_cons.
  destruct (is_space c) eqn:Hc; [exact IH|].
  destruct rest as [|c' r].
  { constructor; [apply word_cons; [exact Hc | reflexivity] | constructor]. }
  destruct (is_space c') eqn:Hc'.
  { constructor; [apply word_cons; [exact Hc | reflexivity] | exact IH]. }
  destruct (split_whitespace (String c' r)) as [|w ws].
  { constructor; [apply word_cons; [exact Hc | reflexivity] | constructor]. }
  apply Forall_cons in IH as [[_ Hw] Hws].
  constructor; [apply word_cons; assumption | exact Hws].
Qed.

Lemma split_word_then w tail :
  word w ->
  match tail with
  | EmptyString => True
  | String c _ => is_space c = true
  end ->
  split_whitespace (w ++ tail) = w :: split_whitespace tail.
Proof.
  intros [Hne Hw] Htail. induction w as [|c w IH]; [congruence|]. clear Hne.
  cbn [all_chars] in Hw. apply andb_true_iff in Hw as [Hc Hw].
  apply negb_true_iff in Hc.
  rewrite append_cons, split_whitespace_cons, Hc.
  destruct w as [|c' w].
  - rewrite append_nil_l. destruct tail as [|c' tail]; [reflexivity|].
    rewrite Htail. reflexivity.
  - rewrite append_cons in *.
    pose proof Hw as Hw'. cbn [all_chars] in Hw'.
    apply andb_true_iff in Hw' as [Hc' _]. apply negb_true_iff in Hc'.
    rewrite Hc', IH; [reflexivity | discriminate | exact Hw].
Qed.

(** Splitting words joined by single spaces gives the words back. *)
Lemma split_join ws :
  Forall word ws -> split_whitespace (join " " ws) = ws.
Proof.
  induction 1 as [|w ws Hw Hws IH]; [reflexivity|].
  destruct ws as [|w' ws].
  - cbn [join]. rewrite <- (append_nil_r w) at 1.
    rewrite (split_word_then w "" Hw I). reflexivity.
  - rewrite join_cons.
    rewrite space_append, (split_word_then w _ Hw); [|reflexivity].
    rewrite split_whitespace_cons.
    change (is_space (Ascii.ascii_of_nat 32)) with true. cbv iota.
    rewrite IH. reflexivity.
Qed.

(** ** [strip] *)

Lemma rstrip_word w : word w -> rstrip w = w.
Proof.
  intros [Hne Hw]. induction w as [|c w IH]; [congruence|]. clear Hne.
  cbn [all_chars] in Hw. apply andb_true_iff in Hw as [Hc Hw].
  apply negb_true_iff in Hc. cbn [rstrip].
  destruct w as [|c' w].
  - cbn [rstrip]. rewrite Hc. reflexivity.
  - rewrite IH; [reflexivity | discriminate | exact Hw].
Qed.

Lemma rstrip_app s w : word w -> rstrip (s ++ w) = s ++ w.
Proof.
  intros Hw. induction s as [|c s IH]; [apply rstrip_word, Hw|].
  rewrite append_cons. cbn [rstrip]. rewrite IH.
  destruct (s ++ w) as [|c' t] eqn:Ht; [|reflexivity].
  destruct s; [|discriminate Ht]. rewrite append_nil_l in Ht.
  destruct Hw as [Hne _]. congruence.
Qed.

Lemma join_ends_with_word ws :
  ws ≠ [] -> Forall word ws -> ∃ s w, join " " ws = s ++ w ∧ word w.
Proof.
  intros Hne Hws. induction Hws as [|w ws Hw Hws IH]; [congruence|]. clear Hne.
  destruct ws as [|w' ws].
  - exists "", w. split; [reflexivity | exact Hw].
  - destruct IH as (s & w0 & Hs & Hw0); [discriminate|].
    exists (w ++ " " ++ s), w0. split; [|exact Hw0].
    rewrite join_cons, Hs, !append_assoc. reflexivity.
Qed.

Lemma join_starts_with_word w ws :
  word w -> ∃ c t, join " " (w :: ws) = String c t ∧ is_space c = false.
Proof.
  intros [Hne Hw]. destruct w as [|c w]; [congruence|].
  cbn [all_chars] in Hw. apply andb_true_iff in Hw as [Hc _].
  apply negb_true_iff in Hc.
  destruct ws as [|w' ws].
  - exists c, w. split; [reflexivity | exact Hc].
  - rewrite join_cons, append_cons. eauto.
Qed.

Lemma strip_join ws : Forall word ws -> strip (join " " ws) = join " " ws.
Proof.
  intros Hws. destruct ws as [|w ws]; [reflexivity|].
  pose proof Hws as Hws'. apply Forall_cons in Hws' as [Hw _].
  destruct (join_starts_with_word w ws Hw) as (c & t & Hj & Hc).
  destruct (join_ends_with_word (w :: ws)) as (s & w0 & Hs & Hw0);
    [discriminate | exact Hws |].
  unfold strip. rewrite Hj. cbn [lstrip]. rewrite Hc, <- Hj, Hs.
  apply rstrip_app, Hw0.
Qed.

(** ** [title] *)

Lemma title_from_sep b w c rest :
  is_lower c = false -> is_upper c = false ->
  title_from b (w ++ String c rest)
  = title_from b w ++ String c (title_from false rest).
Proof.
  intros Hl Hu. revert b. induction w as [|c' w IH]; intros b.
  - rewrite !append_nil_l. cbn [title_from]. rewrite Hl, Hu. reflexivity.
  - rewrite append_cons. cbn [title_from].
    destruct (is_lower c'); [|destruct (is_upper c')];
      rewrite IH, append_cons; reflexivity.
Qed.

(** Title-casing goes word by word. *)
Lemma title_from_join b w ws :
  title_from b (join " " (w :: ws))
  = join " " (title_from b w :: map (title_from false) ws).
Proof.
  revert b w. induction ws as [|w' ws IH]; intros b w; [reflexivity|].
  cbn [map]. rewrite !join_cons.
  rewrite !space_append, title_from_sep by reflexivity. rewrite IH. reflexivity.
Qed.

Lemma title_join ws : title (join " " ws) = join " " (map title ws).
Proof. destruct ws as [|w ws]; [reflexivity | apply title_from_join]. Qed.

Lemma title_from_all_chars P b s :
  (∀ c, P c = true -> P (upper_ascii c) = true ∧ P (lower_ascii c) = true) ->
  all_chars P s = true -> all_chars P (title_from b s) = true.
Proof.
  intros HP. revert b. induction s as [|c s IH]; intros b Hs; [reflexivity|].
  cbn [all_chars] in Hs. apply andb_true_iff in Hs as [Hc Hs].
  destruct (HP c Hc) as [Hup Hlow].
  cbn [title_from].
  destruct (is_lower c); [|destruct (is_upper c)]; cbn [all_chars];
    rewrite (IH _ Hs), andb_true_r; try destruct b; assumption.
Qed.

Lemma title_word w : word w -> word (title w).
Proof.
  intros [Hne Hw]. split.
  - destruct w as [|c w]; [congruence|]. unfold title. cbn [title_from].
    destruct (is_lower c); [|destruct (is_upper c)]; discriminate.
  - apply title_from_all_chars; [|exact Hw].
    intros c Hc. rewrite upper_ascii_space, lower_ascii_space. auto.
Qed.

(** Title-casing twice is title-casing once. *)
Lemma title_from_idem b s : title_from b (title_from b s) = title_from b s.
Proof.
  revert b. induction s as [|c s IH]; intros b; [reflexivity|].
  cbn [title_from].
  destruct (is_lower c) eqn:Hl; [|destruct (is_upper c) eqn:Hu].
  - destruct b; cbn [title_from].
    + rewrite Hl, IH. reflexivity.
    + destruct (upper_ascii_cased c Hl) as [Hu' Hl'].
      rewrite Hl', Hu', IH. reflexivity.
  - destruct b; cbn [title_from].
    + rewrite (lower_ascii_cased c Hu), IH. reflexivity.
    + rewrite Hl, Hu, IH. reflexivity.
  - cbn [title_from]. rewrite Hl, Hu, IH. reflexivity.
Qed.

(** ** [replace] *)

Lemma drop_occurrences_all_chars P old k s :
  all_chars P s = true -> all_chars P (drop_occurrences old k s) = true.
Proof.
  revert k. induction s as [|c s IH]; intros k Hs; [reflexivity|].
  cbn [all_chars] in Hs. apply andb_true_iff in Hs as [Hc Hs].
  cbn [drop_occurrences]. destruct k as [|k]; [|apply IH, Hs].
  destruct (String.prefix old (String c s)); [apply IH, Hs|].
  cbn [all_chars]. rewrite Hc, (IH _ Hs). reflexivity.
Qed.

Lemma prefix_star c s :
  String.prefix "*" (String c s) = negb (not_star c).
Proof.
  cbn [String.prefix]. unfold not_star.
  destruct (Ascii.ascii_dec _ c) as [<-|Hne].
  - destruct s; reflexivity.
  - destruct (Ascii.eqb_spec c star) as [->|_]; [|reflexivity].
    destruct Hne. reflexivity.
Qed.

(** [replace('*', '')] leaves no star. *)
Lemma replace_star_none s :
  all_chars not_star (replace_by_nothing "*" s) = true.
Proof.
  unfold replace_by_nothing. induction s as [|c s IH]; [reflexivity|].
  cbn [drop_occurrences]. rewrite prefix_star.
  destruct (not_star c) eqn:Hc; cbn [negb String.length Nat.sub].
  - cbn [all_chars]. rewrite Hc, IH. reflexivity.
  - exact IH.
Qed.

Lemma replace_star_id s :
  all_chars not_star s = true -> replace_by_nothing "*" s = s.
Proof.
  unfold replace_by_nothing. induction s as [|c s IH]; intros Hs; [reflexivity|].
  cbn [all_chars] in Hs. apply andb_true_iff in Hs as [Hc Hs].
  cbn [drop_occurrences]. rewrite prefix_star, Hc. cbn [negb].
  rewrite (IH Hs). reflexivity.
Qed.

Lemma prefix_true p s : String.prefix p s = true -> ∃ t, s = p ++ t.
Proof.
  revert s. induction p as [|a p IH]; intros s Hp; [exists s; reflexivity|].
  destruct s as [|c s]; [discriminate Hp|]. cbn [String.prefix] in Hp.
  destruct (Ascii.ascii_dec a c) as [->|_]; [|discriminate Hp].
  destruct (IH s Hp) as [t ->]. exists t. reflexivity.
Qed.

(** A title-cased string has no [.com] and no [.COM]: the letter after the
    dot is a capital, the letter after a capital is small. *)
Lemma titled_prefix b s :
  title_from b s = s ->
  String.prefix ".com" s = false ∧ String.prefix ".COM" s = false.
Proof.
  intros Ht. split.
  - destruct (String.prefix ".com" s) eqn:Hp; [|reflexivity].
    apply prefix_true in Hp as [t ->].
    rewrite !append_cons, append_nil_l in Ht. cbn in Ht. discriminate Ht.
  - destruct (String.prefix ".COM" s) eqn:Hp; [|reflexivity].
    apply prefix_true in Hp as [t ->].
    rewrite !append_cons, append_nil_l in Ht. cbn in Ht. discriminate Ht.
Qed.

Lemma titled_tail b c s :
  title_from b (String c s) = String c s -> ∃ b', title_from b' s = s.
Proof.
  cbn [title_from].
  destruct (is_lower c); [|destruct (is_upper c)];
    intros Heq; injection Heq; intros; eauto.
Qed.

Lemma titled_replace b s :
  title_from b s = s ->
  replace_by_nothing ".com" s = s ∧ replace_by_nothing ".COM" s = s.
Proof.
  unfold replace_by_nothing. revert b.
  induction s as [|c s IH]; intros b Ht; [split; reflexivity|].
  destruct (titled_prefix b _ Ht) as [Hcom HCOM].
  destruct (titled_tail b c s Ht) as [b' Hs].
  destruct (IH b' Hs) as [IH1 IH2].
  cbn [drop_occurrences]. rewrite Hcom, HCOM, IH1, IH2. split; reflexivity.
Qed.

Lemma join_all_chars P ws :
  P (Ascii.ascii_of_nat 32) = true ->
  Forall (λ w, all_chars P w = true) ws -> all_chars P (join " " ws) = true.
Proof.
  intros Hsp. induction 1 as [|w ws Hw Hws IH]; [reflexivity|].
  destruct ws as [|w' ws]; [exact Hw|].
  rewrite join_cons, space_append, all_chars_app. cbn [all_chars].
  rewrite Hw, Hsp, IH. reflexivity.
Qed.

Lemma split_whitespace_all_chars P s :
  all_chars P s = true ->
  Forall (λ w, all_chars P w = true) (split_whitespace s).
Proof.
  induction s as [|c rest IH]; intros Hs; [constructor|].
  cbn [all_chars] in Hs. apply andb_true_iff in Hs as [Hc Hs].
  specialize (IH Hs).
  assert (Hone : all_chars P (String c "") = true)
    by (cbn [all_chars]; rewrite Hc; reflexivity).
  rewrite split_whitespace_cons.
  destruct (is_space c); [exact IH|].
  destruct rest as [|c' r]; [repeat constructor; exact Hone|].
  destruct (is_space c'); [constructor; assumption|].
  destruct (split_whitespace (String c' r)) as [|w ws];
    [repeat constructor; exact Hone|].
  apply Forall_cons in IH as [Hw Hws].
  constructor; [|exact Hws]. cbn [all_chars]. rewrite Hc, Hw. reflexivity.
Qed.

(** The shape of a normalised name: title-cased words without a star,
    joined by single spaces. *)
Lemma normalized_shape (merchant_name : string) :
  ∃ words,
    _normalize_merchant_name merchant_name = join " " (map title words)
    ∧ Forall word (map title words)
    ∧ all_chars not_star (join " " (map title words)) = true.
Proof.
  unfold _normalize_merchant_name.
  set (cleaned := replace_by_nothing ".com" _).
  exists (split_whitespace cleaned). split; [apply title_join|]. split.
  - apply Forall_fmap. eapply Forall_impl; [apply split_whitespace_words|].
    intros w Hw. apply title_word, Hw.
  - rewrite <- title_join. apply title_from_all_chars.
    + intros c Hc. split; [apply upper_ascii_star | apply lower_ascii_star];
        exact Hc.
    + apply join_all_chars; [reflexivity|].
      apply split_whitespace_all_chars. unfold cleaned, replace_by_nothing.
      do 2 apply drop_occurrences_all_chars. apply replace_star_none.
Qed.

Lemma title_title s : title (title s) = title s.
Proof. apply title_from_idem. Qed.

(** X20.  A normalised merchant name is tidy: it has no whitespace at
    either end, its words are separated by single spaces, it is in title
    case, and it has no star. *)
Theorem normalized_name_is_tidy (merchant_name : string) :
  let name := _normalize_merchant_name merchant_name in
  strip name = name
  ∧ join " " (split_whitespace name) = name
  ∧ title name = name
  ∧ all_chars not_star name = true.
Proof.
  destruct (normalized_shape merchant_name) as (words & Hname & Hwords & Hstar).
  cbv zeta. rewrite Hname.
  split; [apply strip_join, Hwords|].
  split; [rewrite (split_join _ Hwords); reflexivity|].
  split; [|exact Hstar].
  rewrite title_join, map_map.
  rewrite (map_ext _ title title_title). reflexivity.
Qed.

(** X21.  Normalising a normalised merchant name changes nothing: title
    case leaves no [.com] and no [.COM] to remove. *)
Theorem normalize_twice (merchant_name : string) :
  _normalize_merchant_name (_normalize_merchant_name merchant_name)
  = _normalize_merchant_name merchant_name.
Proof.
  destruct (normalized_shape merchant_name) as (words & Hname & Hwords & Hstar).
  rewrite Hname. set (name := join " " (map title words)) in *.
  assert (Htitle : title name = name).
  { unfold name. rewrite title_join, map_map.
    rewrite (map_ext _ title title_title). reflexivity. }
  destruct (titled_replace false name Htitle) as [Hcom HCOM].
  unfold _normalize_merchant_name.
  assert (Hstrip : strip name = name) by apply strip_join, Hwords.
  rewrite Hstrip, (replace_star_id _ Hstar), HCOM, Hcom.
  unfold name at 1. rewrite (split_join _ Hwords). exact Htitle.
Qed.

(** ** [detect_subscriptions] *)

(** ** Days *)

Lemma intervals_length days : length (intervals days) = (length days - 1)%nat.
Proof.
  induction days as [|a [|b days] IH]; [reflexivity..|].
  cbn [intervals length] in *. rewrite IH. lia.
Qed.

(** The intervals add up to the distance from the first to the last
    day. *)
Lemma intervals_sum a days :
  foldr Z.add 0%Z (intervals (a :: days)) = (default a (last days) - a)%Z.
Proof.
  revert a. induction days as [|b days IH]; intros a; [cbn; lia|].
  change (intervals (a :: b :: days)) with ((b - a)%Z :: intervals (b :: days)).
  cbn [foldr]. rewrite IH.
  destruct days as [|c days]; [cbn; lia|].
  change (last (b :: c :: days)) with (last (c :: days)).
  destruct (last (c :: days)) eqn:Hl; [cbn; lia|].
  apply last_None in Hl. discriminate Hl.
Qed.

Lemma foldr_min_spec a l :
  (foldr Z.min a l ≤ a)%Z
  ∧ (∀ x, x ∈ l -> foldr Z.min a l ≤ x)%Z
  ∧ (foldr Z.min a l = a ∨ foldr Z.min a l ∈ l).
Proof.
  induction l as [|b l (IH1 & IH2 & IH3)]; cbn [foldr].
  - split; [lia|]. split; [|left; reflexivity].
    intros x Hx. apply elem_of_nil in Hx. destruct Hx.
  - split; [lia|]. split.
    + intros x [->|Hx]%elem_of_cons; [lia|]. specialize (IH2 x Hx). lia.
    + destruct (Z.min_spec b (foldr Z.min a l)) as [[_ ->]|[_ ->]].
      * right. apply list_elem_of_here.
      * destruct IH3 as [IH3|IH3]; [left; exact IH3|].
        right. apply list_elem_of_further, IH3.
Qed.

Lemma foldr_max_spec a l :
  (a ≤ foldr Z.max a l)%Z
  ∧ (∀ x, x ∈ l -> x ≤ foldr Z.max a l)%Z
  ∧ (foldr Z.max a l = a ∨ foldr Z.max a l ∈ l).
Proof.
  induction l as [|b l (IH1 & IH2 & IH3)]; cbn [foldr].
  - split; [lia|]. split; [|left; reflexivity].
    intros x Hx. apply elem_of_nil in Hx. destruct Hx.
  - split; [lia|]. split.
    + intros x [->|Hx]%elem_of_cons; [lia|]. specialize (IH2 x Hx). lia.
    + destruct (Z.max_spec b (foldr Z.max a l)) as [[_ ->]|[_ ->]].
      * destruct IH3 as [IH3|IH3]; [left; exact IH3|].
        right. apply list_elem_of_further, IH3.
      * right. apply list_elem_of_here.
Qed.

(** [earliest] and [latest] are the least and the greatest day. *)
Lemma earliest_spec days :
  days ≠ [] ->
  earliest days ∈ days ∧ ∀ x, x ∈ days -> (earliest days ≤ x)%Z.
Proof.
  destruct days as [|a l]; [congruence|]. intros _.
  change (earliest (a :: l)) with (foldr Z.min a (a :: l)).
  destruct (foldr_min_spec a (a :: l)) as (H1 & H2 & H3).
  split; [|exact H2].
  destruct H3 as [->|H3]; [apply list_elem_of_here | exact H3].
Qed.

Lemma latest_spec days :
  days ≠ [] ->
  latest days ∈ days ∧ ∀ x, x ∈ days -> (x ≤ latest days)%Z.
Proof.
  destruct days as [|a l]; [congruence|]. intros _.
  change (latest (a :: l)) with (foldr Z.max a (a :: l)).
  destruct (foldr_max_spec a (a :: l)) as (H1 & H2 & H3).
  split; [|exact H2].
  destruct H3 as [->|H3]; [apply list_elem_of_here | exact H3].
Qed.

Lemma earliest_Permutation l1 l2 :
  l1 ≡ₚ l2 -> earliest l1 = earliest l2.
Proof.
  intros Hp. destruct l1 as [|a l1].
  - apply Permutation_nil_l in Hp. subst l2. reflexivity.
  - assert (Hne : l2 ≠ []).
    { intros ->. apply Permutation_nil_r in Hp. discriminate Hp. }
    destruct (earliest_spec (a :: l1)) as [Hin1 Hle1]; [discriminate|].
    destruct (earliest_spec l2 Hne) as [Hin2 Hle2].
    apply (elem_of_Permutation_proper _ _ _ Hp) in Hin1.
    apply (elem_of_Permutation_proper _ _ _ Hp) in Hin2.
    specialize (Hle1 _ Hin2). specialize (Hle2 _ Hin1). lia.
Qed.

Lemma latest_Permutation l1 l2 :
  l1 ≡ₚ l2 -> latest l1 = latest l2.
Proof.
  intros Hp. destruct l1 as [|a l1].
  - apply Permutation_nil_l in Hp. subst l2. reflexivity.
  - assert (Hne : l2 ≠ []).
    { intros ->. apply Permutation_nil_r in Hp. discriminate Hp. }
    destruct (latest_spec (a :: l1)) as [Hin1 Hle1]; [discriminate|].
    destruct (latest_spec l2 Hne) as [Hin2 Hle2].
    apply (elem_of_Permutation_proper _ _ _ Hp) in Hin1.
    apply (elem_of_Permutation_proper _ _ _ Hp) in Hin2.
    specialize (Hle1 _ Hin2). specialize (Hle2 _ Hin1). lia.
Qed.

(** In a sorted list they are the first and the last day. *)
Lemma earliest_sorted a days :
  StronglySorted Z.le (a :: days) -> earliest (a :: days) = a.
Proof.
  intros Hs. apply StronglySorted_inv in Hs as [_ Hall].
  rewrite Forall_forall in Hall.
  destruct (earliest_spec (a :: days)) as [Hin Hle]; [discriminate|].
  specialize (Hle a (list_elem_of_here _ _)).
  apply elem_of_cons in Hin as [Hin|Hin]; [exact Hin|].
  specialize (Hall _ Hin). lia.
Qed.

Lemma latest_sorted a days :
  StronglySorted Z.le (a :: days) ->
  latest (a :: days) = default a (last days).
Proof.
  revert a. induction days as [|b days IH]; intros a Hs;
    [unfold latest; cbn; lia|].
  apply StronglySorted_inv in Hs as [Hs Hall].
  specialize (IH b Hs).
  assert (Hlast : default a (last (b :: days)) = default b (last days)).
  { destruct days as [|c days]; [reflexivity|].
    change (last (b :: c :: days)) with (last (c :: days)).
    destruct (last (c :: days)) eqn:Hl; [reflexivity|].
    apply last_None in Hl. discriminate Hl. }
  rewrite Hlast, <- IH.
  destruct (latest_spec (a :: b :: days)) as [Hin Hle]; [discriminate|].
  destruct (latest_spec (b :: days)) as [Hin' Hle']; [discriminate|].
  apply elem_of_cons in Hin as [Hin|Hin].
  - specialize (Hle _ (list_elem_of_further _ _ _ Hin')).
    rewrite Forall_forall in Hall. specialize (Hall _ Hin'). lia.
  - specialize (Hle' _ Hin).
    specialize (Hle _ (list_elem_of_further _ _ _ Hin')). lia.
Qed.

Section PlaidDetection.
Context `{PlaidData}.

(** ** Grouping *)

Lemma add_charge_keys merchant txn mc :
  map fst (add_charge merchant txn mc)
  = if bool_decide (merchant ∈ map fst mc) then map fst mc
    else (map fst mc ++ [merchant])%list.
Proof.
  induction mc as [|[m charges] mc IH]; [reflexivity|].
  cbn [add_charge map fst].
  destruct (decide (m = merchant)) as [->|Hm].
  - cbn [map fst].
    rewrite bool_decide_eq_true_2 by apply list_elem_of_here. reflexivity.
  - cbn [map fst]. rewrite IH.
    destruct (bool_decide (merchant ∈ map fst mc)) eqn:Hin.
    + apply bool_decide_eq_true in Hin.
      rewrite bool_decide_eq_true_2 by (apply list_elem_of_further; exact Hin).
      reflexivity.
    + apply bool_decide_eq_false in Hin.
      rewrite bool_decide_eq_false_2; [reflexivity|].
      intros [?|?]%elem_of_cons; congruence.
Qed.

Lemma add_charge_NoDup merchant txn mc :
  NoDup (map fst mc) -> NoDup (map fst (add_charge merchant txn mc)).
Proof.
  intros Hnd. rewrite add_charge_keys.
  destruct (bool_decide _) eqn:Hin; [exact Hnd|].
  apply bool_decide_eq_false in Hin.
  apply NoDup_app. split; [exact Hnd|]. split.
  - intros x Hx [->|[]%elem_of_nil]%elem_of_cons. contradiction.
  - apply NoDup_singleton.
Qed.

Lemma charges_of_add_charge m merchant txn mc :
  charges_of m (add_charge merchant txn mc)
  = if decide (merchant = m) then (charges_of m mc ++ [txn])%list
    else charges_of m mc.
Proof.
  induction mc as [|[k charges] mc IH]; cbn [add_charge charges_of].
  - destruct (decide (merchant = m)); reflexivity.
  - destruct (decide (k = merchant)) as [->|Hk]; cbn [charges_of].
    + destruct (decide (merchant = m)); reflexivity.
    + destruct (decide (k = m)) as [->|Hkm]; [|exact IH].
      rewrite decide_False by congruence. reflexivity.
Qed.

Lemma group_by_merchant_snoc txns txn :
  group_by_merchant (txns ++ [txn])
  = add_charge (txn_merchant_name txn) txn (group_by_merchant txns).
Proof. unfold group_by_merchant. rewrite foldl_app. reflexivity. Qed.

(** The charges grouped under a merchant are its transactions, in the
    order of the input. *)
Lemma charges_of_group_by_merchant m txns :
  charges_of m (group_by_merchant txns)
  = filter (λ txn, txn_merchant_name txn = m) txns.
Proof.
  induction txns as [|txn txns IH] using rev_ind; [reflexivity|].
  rewrite group_by_merchant_snoc, charges_of_add_charge, filter_app, IH.
  rewrite filter_singleton by exact [].
  destruct (decide (txn_merchant_name txn = m)) as [Hm|Hm].
  - reflexivity.
  - rewrite app_nil_r. reflexivity.
Qed.

Lemma group_by_merchant_NoDup txns : NoDup (map fst (group_by_merchant txns)).
Proof.
  induction txns as [|txn txns IH] using rev_ind; [apply NoDup_nil_2|].
  rewrite group_by_merchant_snoc. apply add_charge_NoDup, IH.
Qed.

Lemma add_charge_nonempty merchant txn mc :
  Forall (λ p, p.2 ≠ []) mc ->
  Forall (λ p, p.2 ≠ []) (add_charge merchant txn mc).
Proof.
  induction 1 as [|[k charges] mc Hk Hmc IH]; cbn [add_charge].
  - repeat constructor. discriminate.
  - destruct (decide (k = merchant)); constructor; try assumption.
    cbn. intros [? ?]%app_eq_nil. discriminate.
Qed.

Lemma group_by_merchant_nonempty txns :
  Forall (λ p, p.2 ≠ []) (group_by_merchant txns).
Proof.
  induction txns as [|txn txns IH] using rev_ind; [constructor|].
  rewrite group_by_merchant_snoc. apply add_charge_nonempty, IH.
Qed.

Lemma charges_of_elem m cs (mc : list (option string * list Transaction)) :
  NoDup (map fst mc) -> (m, cs) ∈ mc -> charges_of m mc = cs.
Proof.
  induction mc as [|[k charges] mc IH]; intros Hnd Hin.
  - apply elem_of_nil in Hin. destruct Hin.
  - cbn [map fst] in Hnd. apply NoDup_cons in Hnd as [Hk Hnd].
    cbn [charges_of]. apply elem_of_cons in Hin as [[= <- <-]|Hin].
    + rewrite decide_True by reflexivity. reflexivity.
    + destruct (decide (k = m)) as [->|Hkm]; [|apply IH; assumption].
      destruct Hk.
      apply list_elem_of_fmap. exists (m, cs). split; [reflexivity | exact Hin].
Qed.

Lemma elem_of_charges_of m (mc : list (option string * list Transaction)) :
  charges_of m mc ≠ [] -> (m, charges_of m mc) ∈ mc.
Proof.
  induction mc as [|[k charges] mc IH]; cbn [charges_of]; intros Hne.
  - congruence.
  - destruct (decide (k = m)) as [->|Hkm].
    + apply list_elem_of_here.
    + apply list_elem_of_further, IH, Hne.
Qed.

(** The groups are the merchants with their transactions. *)
Lemma group_by_merchant_elem m cs txns :
  (m, cs) ∈ group_by_merchant txns ↔
  cs = filter (λ txn, txn_merchant_name txn = m) txns ∧ cs ≠ [].
Proof.
  split.
  - intros Hin. split.
    + rewrite <- charges_of_group_by_merchant. symmetry.
      apply charges_of_elem; [apply group_by_merchant_NoDup | exact Hin].
    + pose proof (group_by_merchant_nonempty txns) as Hall.
      rewrite Forall_forall in Hall. apply (Hall (m, cs) Hin).
  - intros [-> Hne]. rewrite <- charges_of_group_by_merchant in *.
    apply elem_of_charges_of, Hne.
Qed.

(** ** Sorting *)

Lemma insert_charge_Permutation x l : insert_charge x l ≡ₚ x :: l.
Proof.
  induction l as [|y l IH]; [reflexivity|]. cbn [insert_charge].
  destruct (date_le _ _); [reflexivity|].
  rewrite IH. apply Permutation_swap.
Qed.

Lemma sorted_Permutation l : foldr insert_charge [] l ≡ₚ l.
Proof.
  induction l as [|x l IH]; [reflexivity|]. cbn [foldr].
  rewrite insert_charge_Permutation, IH. reflexivity.
Qed.

Lemma sort_by_date_Permutation charges sorted :
  sort_by_date charges = Value sorted -> sorted ≡ₚ charges.
Proof.
  unfold sort_by_date. destruct charges as [|first rest].
  - intros [= <-]. reflexivity.
  - destruct (forallb _ _); [|discriminate].
    intros [= <-]. apply (sorted_Permutation (first :: rest)).
Qed.

(** ** One merchant *)

Lemma remove_dups_one {A} `{EqDecision A} (l : list A) (a : A) :
  remove_dups l = [a] -> ∀ x, x ∈ l -> x = a.
Proof.
  intros Hl x Hx. apply elem_of_remove_dups in Hx. rewrite Hl in Hx.
  apply list_elem_of_singleton in Hx. exact Hx.
Qed.

Lemma last_item_elem {A} (l : list A) (a : A) : last_item l = Value a -> a ∈ l.
Proof.
  unfold last_item. destruct (last l) as [b|] eqn:Hl; [|discriminate].
  intros [= <-]. apply last_Some in Hl as [l' ->].
  apply elem_of_app. right. apply list_elem_of_here.
Qed.

(** What a detected subscription says about the charges of its
    merchant. *)
Lemma detect_recurring_Some merchant charges s :
  detect_recurring merchant charges = Value (Some s) ->
  (2 ≤ length charges)%nat
  ∧ sub_merchant_name s = merchant
  ∧ (∃ merchant_name,
       merchant = Some merchant_name
       ∧ sub_normalized_name s = _normalize_merchant_name merchant_name)
  ∧ sub_status s = "active"
  ∧ sub_logo_url s = None
  ∧ sub_cancellation_url s = None
  ∧ (∃ a, sub_monthly_price s = Decimal_of_str a
          ∧ ∀ c, c ∈ charges -> txn_amount c = a)
  ∧ ∃ c, c ∈ charges ∧ sub_last_charge_date s = txn_date c.
Proof.
  unfold detect_recurring.
  destruct (length charges <? 2)%nat eqn:Hlen; [discriminate|].
  apply Nat.ltb_ge in Hlen.
  destruct (sort_by_date charges) as [sorted|e] eqn:Hsort; [|discriminate].
  apply sort_by_date_Permutation in Hsort.
  cbn [mbind Fallible_bind].
  destruct (length (remove_dups (map txn_amount sorted)) =? 1)%nat eqn:Hdup;
    [|discriminate].
  destruct (2 <=? length sorted)%nat; [|discriminate]. cbn [andb].
  destruct (comprehension _ sorted) as [dates|e]; [|discriminate].
  cbn [mbind Fallible_bind].
  destruct (roughly_monthly _); [|discriminate].
  destruct merchant as [merchant_name|]; [|discriminate].
  cbn [normalized mbind Fallible_bind].
  unfold list_item.
  destruct (map txn_amount sorted !! 0%nat) as [a|] eqn:Ha; [|discriminate].
  cbn [mbind Fallible_bind].
  destruct (last_item sorted) as [c|e] eqn:Hc; [|discriminate].
  cbn [mbind Fallible_bind]. intros [= <-]. cbn.
  split; [exact Hlen|]. split; [reflexivity|].
  split; [exists merchant_name; split; reflexivity|].
  repeat (split; [reflexivity|]).
  apply Nat.eqb_eq in Hdup.
  destruct (remove_dups (map txn_amount sorted)) as [|b [|b' l]] eqn:Hrd;
    try discriminate Hdup.
  pose proof (remove_dups_one _ _ Hrd) as Hsame.
  assert (Hab : a = b).
  { apply Hsame. apply list_elem_of_lookup. exists 0%nat. exact Ha. }
  subst b. split.
  - exists a. split; [reflexivity|]. intros c' Hc'.
    apply Hsame. apply list_elem_of_fmap. exists c'. split; [reflexivity|].
    rewrite Hsort. exact Hc'.
  - exists c. split; [|reflexivity]. rewrite <- Hsort.
    apply last_item_elem, Hc.
Qed.

(** ** The loop over the merchants *)

Lemma detect_loop_Throws e groups :
  foldl (λ acc mc,
           detected ← acc;
           found ← detect_recurring mc.1 mc.2;
           Value (detected ++ option_list found)%list)
        (Throws e) groups = Throws e.
Proof. induction groups as [|g groups IH]; [reflexivity | exact IH]. Qed.

Lemma detect_loop_Value groups acc subs :
  foldl (λ acc mc,
           detected ← acc;
           found ← detect_recurring mc.1 mc.2;
           Value (detected ++ option_list found)%list)
        (Value acc) groups = Value subs ->
  ∃ founds,
    Forall2 (λ mc found, detect_recurring mc.1 mc.2 = Value found) groups founds
    ∧ subs = (acc ++ omap id founds)%list.
Proof.
  revert acc. induction groups as [|[m cs] groups IH]; intros acc; cbn [foldl].
  - intros [= <-]. exists []. split; [constructor|]. cbn. symmetry. apply app_nil_r.
  - cbn [mbind Fallible_bind fst snd].
    destruct (detect_recurring m cs) as [found|e] eqn:Hd.
    + cbn [mbind Fallible_bind]. intros Hfold.
      apply IH in Hfold as (founds & Hall & ->).
      exists (found :: founds). split; [constructor; assumption|].
      rewrite <- app_assoc. destruct found; reflexivity.
    + cbn [mbind Fallible_bind]. rewrite detect_loop_Throws. discriminate.
Qed.

Lemma detect_loop_returns groups acc founds :
  Forall2 (λ mc found, detect_recurring mc.1 mc.2 = Value found) groups founds ->
  foldl (λ acc mc,
           detected ← acc;
           found ← detect_recurring mc.1 mc.2;
           Value (detected ++ option_list found)%list)
        (Value acc) groups = Value (acc ++ omap id founds)%list.
Proof.
  intros Hall. revert acc.
  induction Hall as [|[m cs] found groups founds Hd Hall IH]; intros acc; cbn [foldl].
  - cbn. rewrite app_nil_r. reflexivity.
  - cbn [mbind Fallible_bind fst snd] in *. rewrite Hd. cbn [mbind Fallible_bind].
    rewrite IH, <- app_assoc. destruct found; reflexivity.
Qed.

Lemma founds_names groups founds :
  Forall2 (λ mc found, detect_recurring mc.1 mc.2 = Value found) groups founds ->
  map sub_merchant_name (omap id founds) `sublist_of` map fst groups.
Proof.
  induction 1 as [|[m cs] found groups founds Hd Hall IH]; [constructor|].
  destruct found as [s|].
  - cbn in Hd. apply detect_recurring_Some in Hd as (_ & Hname & _).
    change (sub_merchant_name s :: map sub_merchant_name (omap id founds)
            `sublist_of` m :: map fst groups).
    rewrite Hname. apply sublist_skip, IH.
  - change (map sub_merchant_name (omap id founds)
            `sublist_of` m :: map fst groups).
    apply sublist_cons, IH.
Qed.

(** X22.  When [detect_subscriptions] returns, it reports a merchant at
    most once, and every subscription it reports belongs to a merchant with
    at least two transactions, all of one amount: the price is that amount,
    the last charge date is the date of one of these transactions, the
    merchant name is a string, not [None], the normalised name is its
    normalisation, the status is [active], and logo and cancellation URL
    are [None]. *)
Theorem detected_subscription_is_recurring
    (transactions : list Transaction) (subs : list Subscription) :
  detect_subscriptions transactions = Value subs ->
  NoDup (map sub_merchant_name subs)
  ∧ ∀ s, s ∈ subs ->
      let charges :=
        filter (λ txn, txn_merchant_name txn = sub_merchant_name s) transactions in
      (2 ≤ length charges)%nat
      ∧ (∃ a, sub_monthly_price s = Decimal_of_str a
              ∧ ∀ c, c ∈ charges -> txn_amount c = a)
      ∧ (∃ c, c ∈ charges ∧ sub_last_charge_date s = txn_date c)
      ∧ (∃ merchant_name,
           sub_merchant_name s = Some merchant_name
           ∧ sub_normalized_name s = _normalize_merchant_name merchant_name)
      ∧ sub_status s = "active"
      ∧ sub_logo_url s = None
      ∧ sub_cancellation_url s = None.
Proof.
  unfold detect_subscriptions. intros Hd.
  apply detect_loop_Value in Hd as (founds & Hall & ->). cbn [app].
  split.
  - eapply sublist_NoDup; [apply group_by_merchant_NoDup|].
    apply founds_names, Hall.
  - intros s Hs.
    apply list_elem_of_omap in Hs as (found & Hin & Hs). cbn in Hs. subst found.
    apply list_elem_of_lookup in Hin as [i Hi].
    destruct (Forall2_lookup_r _ _ _ _ _ Hall Hi) as ([m cs] & Hg & Hdet).
    cbn in Hdet.
    apply detect_recurring_Some in Hdet
      as (Hlen & Hname & Hnorm & Hst & Hlogo & Hurl & Hamount & Hlast).
    assert (Hcs : (m, cs) ∈ group_by_merchant transactions)
      by (apply list_elem_of_lookup; eauto).
    apply group_by_merchant_elem in Hcs as [Hcs _].
    cbn zeta. rewrite Hname, <- Hcs. auto 10.
Qed.

Lemma day_numbers_cons c n l :
  txn_date c = DateObj n -> day_numbers (c :: l) = n :: day_numbers l.
Proof.
  intros Hn. unfold day_numbers. cbn [omap list_omap]. rewrite Hn. reflexivity.
Qed.

Lemma day_numbers_length charges :
  dated charges -> length (day_numbers charges) = length charges.
Proof.
  induction 1 as [|c l [n Hn] Hl IH]; [reflexivity|].
  rewrite (day_numbers_cons c n) by exact Hn. cbn [length]. rewrite IH.
  reflexivity.
Qed.

Lemma day_numbers_Permutation l1 l2 :
  l1 ≡ₚ l2 -> day_numbers l1 ≡ₚ day_numbers l2.
Proof. intros Hp. unfold day_numbers. rewrite Hp. reflexivity. Qed.

Lemma insert_charge_sorted x n l :
  txn_date x = DateObj n ->
  dated l ->
  StronglySorted Z.le (day_numbers l) ->
  StronglySorted Z.le (day_numbers (insert_charge x l)).
Proof.
  intros Hx Hl. induction Hl as [|y l [k Hy] Hl IH]; intros Hs.
  - cbn [insert_charge]. rewrite (day_numbers_cons x n) by exact Hx.
    repeat constructor.
  - cbn [insert_charge]. rewrite Hx, Hy. cbn [date_le].
    rewrite (day_numbers_cons y k) in Hs by exact Hy.
    apply StronglySorted_inv in Hs as [Hs Hall].
    destruct (n <=? k)%Z eqn:Hnk.
    + apply Z.leb_le in Hnk.
      rewrite (day_numbers_cons x n), (day_numbers_cons y k) by assumption.
      constructor; [constructor; assumption|].
      constructor; [exact Hnk|].
      eapply Forall_impl; [exact Hall|]. cbn. intros z Hz. lia.
    + apply Z.leb_gt in Hnk.
      rewrite (day_numbers_cons y k) by exact Hy.
      constructor; [apply IH, Hs|].
      rewrite (day_numbers_Permutation _ _ (insert_charge_Permutation x l)).
      rewrite (day_numbers_cons x n) by exact Hx.
      constructor; [lia | exact Hall].
Qed.

Lemma dated_Permutation l1 l2 : l1 ≡ₚ l2 -> dated l1 -> dated l2.
Proof. intros Hp. unfold dated. rewrite Hp. auto. Qed.

Lemma sorted_days charges :
  dated charges ->
  StronglySorted Z.le (day_numbers (foldr insert_charge [] charges)).
Proof.
  induction 1 as [|c l [n Hn] Hl IH]; [constructor|].
  cbn [foldr]. apply (insert_charge_sorted c n); [exact Hn | | exact IH].
  apply (dated_Permutation l); [symmetry; apply sorted_Permutation | exact Hl].
Qed.

Lemma sort_by_date_dated charges :
  dated charges ->
  sort_by_date charges = Value (foldr insert_charge [] charges).
Proof.
  intros Hd. unfold sort_by_date. destruct charges as [|first rest]; [reflexivity|].
  apply Forall_cons in Hd as [[n Hn] Hrest].
  rewrite Hn. replace (forallb _ rest) with true; [reflexivity|].
  symmetry. apply forallb_forall. intros c Hc.
  apply list_elem_of_In in Hc.
  unfold dated in Hrest. rewrite Forall_forall in Hrest.
  destruct (Hrest c Hc) as [k ->]. reflexivity.
Qed.

Lemma comprehension_dated charges :
  dated charges ->
  comprehension (λ c, to_datetime (txn_date c)) charges
  = Value (day_numbers charges).
Proof.
  induction 1 as [|c l [n Hn] Hl IH]; [reflexivity|].
  cbn [comprehension]. rewrite Hn, IH, (day_numbers_cons c n) by exact Hn.
  reflexivity.
Qed.

(** [len(set(amounts)) == 1]: there are amounts and they are all equal. *)
Lemma one_amount (amounts : list (Amount Number)) :
  length (remove_dups amounts) = 1%nat ↔
  amounts ≠ [] ∧ ∀ a b, a ∈ amounts -> b ∈ amounts -> a = b.
Proof.
  split.
  - intros Hlen.
    destruct (remove_dups amounts) as [|a [|b l]] eqn:Hrd; try discriminate Hlen.
    split.
    + intros ->. discriminate Hrd.
    + intros x y Hx Hy.
      rewrite (remove_dups_one _ _ Hrd x Hx), (remove_dups_one _ _ Hrd y Hy).
      reflexivity.
  - intros [Hne Hsame].
    pose proof (NoDup_remove_dups amounts) as Hnd.
    destruct (remove_dups amounts) as [|a [|b l]] eqn:Hrd.
    + destruct amounts as [|x l]; [congruence|].
      assert (Hx : x ∈ remove_dups (x :: l))
        by (apply elem_of_remove_dups, list_elem_of_here).
      rewrite Hrd in Hx. apply elem_of_nil in Hx. destruct Hx.
    + reflexivity.
    + assert (Ha : a ∈ amounts)
        by (apply elem_of_remove_dups; rewrite Hrd; apply list_elem_of_here).
      assert (Hb : b ∈ amounts).
      { apply elem_of_remove_dups. rewrite Hrd.
        apply list_elem_of_further, list_elem_of_here. }
      apply NoDup_cons in Hnd as [Hnotin _]. destruct Hnotin.
      rewrite (Hsame a b Ha Hb). apply list_elem_of_here.
Qed.

Lemma roughly_monthly_dated charges :
  dated charges ->
  (2 ≤ length charges)%nat ->
  roughly_monthly
    (intervals (day_numbers (foldr insert_charge [] charges))) = true
  ↔ (25 * (Z.of_nat (length charges) - 1)
       ≤ latest (day_numbers charges) - earliest (day_numbers charges)
       ≤ 35 * (Z.of_nat (length charges) - 1))%Z.
Proof.
  intros Hd Hlen.
  pose proof (sorted_Permutation charges) as Hperm.
  pose proof (sorted_days charges Hd) as Hsorted.
  pose proof (day_numbers_Permutation _ _ Hperm) as Hdays.
  rewrite <- (earliest_Permutation _ _ Hdays), <- (latest_Permutation _ _ Hdays).
  assert (Hl : length (day_numbers (foldr insert_charge [] charges))
               = length charges).
  { rewrite (Permutation_length Hdays). apply day_numbers_length, Hd. }
  revert Hsorted Hl.
  generalize (day_numbers (foldr insert_charge [] charges)). intros days Hsorted Hl.
  destruct days as [|a [|b days]]; cbn [length] in Hl; [lia..|].
  rewrite (earliest_sorted _ _ Hsorted), (latest_sorted _ _ Hsorted).
  pose proof (intervals_sum a (b :: days)) as Hsum.
  pose proof (intervals_length (a :: b :: days)) as Hn.
  cbn [length] in Hn.
  unfold roughly_monthly.
  destruct (intervals (a :: b :: days)) as [|i rest] eqn:Hi;
    [cbn [length] in Hn; lia|].
  cbv zeta. rewrite Hsum, Hn, andb_true_iff, !Z.leb_le.
  replace (Z.of_nat (S (S (length days)) - 1)) with (Z.of_nat (length charges) - 1)%Z
    by lia.
  reflexivity.
Qed.

(** What the loop body does for one merchant whose charges are dated by
    date objects: it reports recurring charges, unless their merchant is
    [None], for which it raises; other charges are passed over. *)
Lemma detect_recurring_dated merchant charges :
  dated charges ->
  (recurring charges
   ∧ match merchant with
     | Some merchant_name =>
         ∃ s, detect_recurring merchant charges = Value (Some s)
     | None =>
         detect_recurring merchant charges
         = Throws (AttributeError "'NoneType' object has no attribute 'strip'")
     end)
  ∨ (¬ recurring charges ∧ detect_recurring merchant charges = Value None).
Proof.
  intros Hd. unfold detect_recurring, recurring.
  destruct (length charges <? 2)%nat eqn:Hlen.
  { apply Nat.ltb_lt in Hlen. right. split; [|reflexivity]. intros [? _]. lia. }
  apply Nat.ltb_ge in Hlen.
  rewrite (sort_by_date_dated charges Hd). cbn [mbind Fallible_bind].
  pose proof (sorted_Permutation charges) as Hperm.
  assert (Hds : dated (foldr insert_charge [] charges))
    by (apply (dated_Permutation charges); [symmetry|]; assumption).
  assert (Hne : foldr insert_charge [] charges ≠ []).
  { intros Hnil. rewrite Hnil in Hperm. apply Permutation_nil_l in Hperm.
    subst charges. cbn in Hlen. lia. }
  rewrite (Permutation_length Hperm).
  assert (Hle : (2 <=? length charges)%nat = true) by (apply Nat.leb_le, Hlen).
  rewrite Hle, andb_true_r.
  assert (Hamounts :
    (length (remove_dups (map txn_amount (foldr insert_charge [] charges))) =? 1)%nat
      = true
    ↔ ∀ c c', c ∈ charges -> c' ∈ charges -> txn_amount c = txn_amount c').
  { rewrite Nat.eqb_eq, one_amount. split.
    - intros [_ Hsame] c c' Hc Hc'. apply Hsame; apply list_elem_of_fmap.
      + exists c. split; [reflexivity|].
        apply (elem_of_Permutation_proper _ _ _ Hperm), Hc.
      + exists c'. split; [reflexivity|].
        apply (elem_of_Permutation_proper _ _ _ Hperm), Hc'.
    - intros Hsame. split.
      + intros Hnil. apply fmap_nil_inv in Hnil. contradiction.
      + intros a b (c & -> & Hc)%list_elem_of_fmap (c' & -> & Hc')%list_elem_of_fmap.
        apply Hsame; apply (elem_of_Permutation_proper _ _ _ Hperm); assumption. }
  destruct (length (remove_dups _) =? 1)%nat.
  2:{ right. split; [|reflexivity]. intros (_ & Hsame & _).
      apply Hamounts in Hsame. discriminate Hsame. }
  rewrite (comprehension_dated _ Hds). cbn [mbind Fallible_bind].
  pose proof (roughly_monthly_dated charges Hd Hlen) as Hmonthly.
  destruct (roughly_monthly _).
  2:{ right. split; [|reflexivity]. intros (_ & _ & Hspan).
      apply Hmonthly in Hspan. discriminate Hspan. }
  left. split.
  { split; [exact Hlen|]. split; [apply Hamounts; reflexivity|].
    apply Hmonthly. reflexivity. }
  destruct merchant as [merchant_name|]; [|reflexivity].
  cbn [normalized mbind Fallible_bind].
  unfold list_item, last_item.
  destruct (foldr insert_charge [] charges) as [|c sorted] eqn:Hsorted;
    [congruence|].
  cbn [map lookup list_lookup mbind Fallible_bind].
  destruct (last (c :: sorted)) as [c'|] eqn:Hlast;
    [|apply last_None in Hlast; discriminate Hlast].
  cbn [mbind Fallible_bind]. eexists. reflexivity.
Qed.

(** When no group without a name is recurring, the loop body returns for
    every group. *)
Lemma detect_all_dated (groups : list (option string * list Transaction)) :
  Forall (λ mc, dated mc.2) groups ->
  Forall (λ mc, mc.1 = None -> ¬ recurring mc.2) groups ->
  ∃ founds,
    Forall2 (λ mc found,
               detect_recurring mc.1 mc.2 = Value found
               ∧ (is_Some found ↔ recurring mc.2)) groups founds.
Proof.
  induction 1 as [|[m cs] groups Hd Hall IH]; intros Hnamed.
  - exists []. constructor.
  - apply Forall_cons in Hnamed as [Hm Hnamed].
    destruct (IH Hnamed) as [founds Hfounds]. cbn in Hd, Hm.
    destruct (detect_recurring_dated m cs Hd) as [[Hrec Hdet]|[Hrec Hdet]].
    + destruct m as [merchant_name|]; [|destruct (Hm eq_refl Hrec)].
      destruct Hdet as [s Hdet].
      exists (Some s :: founds). constructor; [|exact Hfounds].
      split; [exact Hdet|]. split; [intros _; exact Hrec | intros _; eexists; reflexivity].
    + exists (None :: founds). constructor; [|exact Hfounds].
      split; [exact Hdet|]. split; [intros [? [=]] | intros Hr; destruct (Hrec Hr)].
Qed.

(** The loop stops at the first group for which its body raises. *)
Lemma detect_loop_raises_at groups acc e :
  Forall (λ mc, (∃ found, detect_recurring mc.1 mc.2 = Value found)
                ∨ detect_recurring mc.1 mc.2 = Throws e) groups ->
  Exists (λ mc, detect_recurring mc.1 mc.2 = Throws e) groups ->
  foldl (λ acc mc,
           detected ← acc;
           found ← detect_recurring mc.1 mc.2;
           Value (detected ++ option_list found)%list)
        (Value acc) groups = Throws e.
Proof.
  intros Hall. revert acc.
  induction Hall as [|[m cs] groups Hmc Hall IH]; intros acc Hex.
  - apply Exists_nil in Hex. destruct Hex.
  - cbn [foldl mbind Fallible_bind fst snd] in *.
    destruct Hmc as [[found Hdet]|Hdet]; rewrite Hdet; cbn [mbind Fallible_bind].
    + apply IH. apply Exists_cons in Hex as [Hex|Hex]; [|exact Hex].
      cbn in Hex. congruence.
    + apply detect_loop_Throws.
Qed.

Lemma dated_filter (P : Transaction -> Prop) `{∀ c, base.Decision (P c)} txns :
  dated txns -> dated (filter P txns).
Proof.
  unfold dated. rewrite !Forall_forall. intros Hall c Hc.
  apply list_elem_of_filter in Hc as [_ Hc]. apply Hall, Hc.
Qed.

(** X23.  On transactions dated by date objects, call charges recurring
    when they are at least two, all of one amount (a NaN is of one amount
    only with itself), and the days from the earliest to the latest are
    between 25 and 35 times their number less one: only the first and the
    last date count, not the gaps in between.  When the transactions whose
    merchant name is [None] are recurring, [detect_subscriptions] raises
    the [AttributeError] of [None.strip()].  Otherwise it returns, and it
    reports a merchant exactly when the transactions of this merchant are
    recurring. *)
Theorem dated_transactions_are_judged_by_their_span
    (transactions : list Transaction) :
  dated transactions ->
  (recurring (transactions_of None transactions)
   ∧ detect_subscriptions transactions
     = Throws (AttributeError "'NoneType' object has no attribute 'strip'"))
  ∨ (¬ recurring (transactions_of None transactions)
     ∧ ∃ subs,
         detect_subscriptions transactions = Value subs
         ∧ ∀ merchant,
             merchant ∈ map sub_merchant_name subs ↔
             recurring (transactions_of merchant transactions)).
Proof.
  intros Hd. set (nameless := transactions_of None transactions).
  unfold transactions_of in *.
  assert (Hgroups : Forall (λ mc, dated mc.2) (group_by_merchant transactions)).
  { apply Forall_forall. intros [m cs] Hin.
    apply group_by_merchant_elem in Hin as [-> _]. cbn.
    apply dated_filter, Hd. }
  assert (Hnameless : dated nameless) by apply dated_filter, Hd.
  destruct (detect_recurring_dated None nameless Hnameless)
    as [[Hrec Hdet]|[Hrec _]].
  - left. split; [exact Hrec|].
    unfold detect_subscriptions. apply detect_loop_raises_at.
    + apply Forall_forall. intros [m cs] Hin.
      rewrite Forall_forall in Hgroups. pose proof (Hgroups _ Hin) as Hcs.
      cbn in Hcs |- *.
      destruct (detect_recurring_dated m cs Hcs) as [[Hr Hm]|[_ Hm]];
        [|left; eexists; exact Hm].
      destruct m as [merchant_name|]; [|right; exact Hm].
      destruct Hm as [s Hm]. left. eexists. exact Hm.
    + apply Exists_exists. exists (None, nameless). split; [|exact Hdet].
      apply group_by_merchant_elem. split; [reflexivity|].
      intros Hnil. destruct Hrec as [Hlen _]. rewrite Hnil in Hlen.
      cbn in Hlen. lia.
  - right. split; [exact Hrec|].
    assert (Hnamed : Forall (λ mc, mc.1 = None -> ¬ recurring mc.2)
                       (group_by_merchant transactions)).
    { apply Forall_forall. intros [m cs] Hin. cbn. intros ->.
      apply group_by_merchant_elem in Hin as [-> _]. exact Hrec. }
    destruct (detect_all_dated _ Hgroups Hnamed) as [founds Hall].
    assert (Hret : Forall2 (λ mc found, detect_recurring mc.1 mc.2 = Value found)
                     (group_by_merchant transactions) founds).
    { eapply Forall2_impl; [exact Hall|]. cbn. intros ? ? [? _]. assumption. }
    exists (omap id founds). split.
    { unfold detect_subscriptions. rewrite (detect_loop_returns _ [] founds Hret).
      reflexivity. }
    intros merchant. split.
    + intros (s & -> & Hs)%list_elem_of_fmap.
      apply list_elem_of_omap in Hs as (found & Hin & Hs). cbn in Hs. subst found.
      apply list_elem_of_lookup in Hin as [i Hi].
      destruct (Forall2_lookup_r _ _ _ _ _ Hall Hi) as ([m cs] & Hg & Hdet & Hrec').
      cbn in Hdet, Hrec'.
      apply detect_recurring_Some in Hdet as (_ & Hname & _).
      assert (Hcs : (m, cs) ∈ group_by_merchant transactions)
        by (apply list_elem_of_lookup; eauto).
      apply group_by_merchant_elem in Hcs as [Hcs _].
      rewrite Hname, <- Hcs. apply Hrec'. eexists. reflexivity.
    + intros Hrec'.
      set (cs := filter (λ txn, txn_merchant_name txn = merchant) transactions) in *.
      assert (Hin : (merchant, cs) ∈ group_by_merchant transactions).
      { apply group_by_merchant_elem. split; [reflexivity|].
        intros Hnil. destruct Hrec' as [Hlen _]. rewrite Hnil in Hlen.
        cbn in Hlen. lia. }
      apply list_elem_of_lookup in Hin as [i Hi].
      destruct (Forall2_lookup_l _ _ _ _ _ Hall Hi) as (found & Hf & Hdet & Hfound).
      cbn in Hdet, Hfound. apply Hfound in Hrec' as [s ->].
      apply detect_recurring_Some in Hdet as (_ & Hname & _).
      apply list_elem_of_fmap. exists s. split; [symmetry; exact Hname|].
      apply list_elem_of_omap. exists (Some s). split; [|reflexivity].
      apply list_elem_of_lookup. eauto.
Qed.

Lemma detect_loop_raises groups acc m cs e :
  (m, cs) ∈ groups ->
  detect_recurring m cs = Throws e ->
  ∃ e',
    foldl (λ acc mc,
             detected ← acc;
             found ← detect_recurring mc.1 mc.2;
             Value (detected ++ option_list found)%list)
          acc groups = Throws e'.
Proof.
  intros Hin Hd. revert acc.
  induction groups as [|[m' cs'] groups IH]; intros acc.
  - apply elem_of_nil in Hin. destruct Hin.
  - cbn [foldl]. apply elem_of_cons in Hin as [[= <- <-]|Hin].
    + destruct acc as [detected|e0]; cbn [mbind Fallible_bind fst snd].
      * rewrite Hd. cbn [mbind Fallible_bind]. rewrite detect_loop_Throws. eauto.
      * rewrite detect_loop_Throws. eauto.
    + apply IH, Hin.
Qed.

(** Sorting charges of which one is dated by a string and one by a date
    object raises [TypeError]. *)
Lemma sort_by_date_mixed charges c c' s n :
  c ∈ charges -> c' ∈ charges ->
  txn_date c = DateStr s -> txn_date c' = DateObj n ->
  sort_by_date charges = Throws TypeError.
Proof.
  intros Hc Hc' Hs Hn. unfold sort_by_date.
  destruct charges as [|first rest].
  { apply elem_of_nil in Hc. destruct Hc. }
  destruct (forallb _ rest) eqn:Hall; [|reflexivity].
  rewrite forallb_forall in Hall.
  assert (Hkind : ∀ x, x ∈ first :: rest ->
                       same_type (txn_date first) (txn_date x) = true).
  { intros x [->|Hx]%elem_of_cons.
    - destruct (txn_date first); reflexivity.
    - apply Hall, list_elem_of_In, Hx. }
  pose proof (Hkind c Hc) as H1. pose proof (Hkind c' Hc') as H2.
  rewrite Hs in H1. rewrite Hn in H2.
  destruct (txn_date first); discriminate.
Qed.

(** X24.  When a merchant has a transaction dated by a string and one
    dated by a date object, [detect_subscriptions] raises: the sort of this
    merchant's charges cannot compare the two dates, and nothing catches
    its [TypeError]. *)
Theorem mixed_dates_raise (transactions : list Transaction) c c' s n :
  c ∈ transactions -> c' ∈ transactions ->
  txn_merchant_name c = txn_merchant_name c' ->
  txn_date c = DateStr s -> txn_date c' = DateObj n ->
  ∃ e, detect_subscriptions transactions = Throws e.
Proof.
  intros Hc Hc' Hm Hs Hn.
  set (m := txn_merchant_name c).
  set (cs := filter (λ txn, txn_merchant_name txn = m) transactions).
  assert (Hin : c ∈ cs) by (apply list_elem_of_filter; split; [reflexivity | exact Hc]).
  assert (Hin' : c' ∈ cs).
  { apply list_elem_of_filter. split; [symmetry; exact Hm | exact Hc']. }
  assert (Hg : (m, cs) ∈ group_by_merchant transactions).
  { apply group_by_merchant_elem. split; [reflexivity|].
    intros Hnil. rewrite Hnil in Hin. apply elem_of_nil in Hin. destruct Hin. }
  assert (Hlen : (2 ≤ length cs)%nat).
  { destruct cs as [|x [|y l]]; cbn [length]; [| |lia].
    - apply elem_of_nil in Hin. destruct Hin.
    - apply list_elem_of_singleton in Hin, Hin'. subst x. subst c'.
      rewrite Hs in Hn. discriminate Hn. }
  apply (detect_loop_raises _ _ m cs TypeError Hg).
  unfold detect_recurring.
  apply Nat.ltb_ge in Hlen. rewrite Hlen.
  rewrite (sort_by_date_mixed cs c c' s n Hin Hin' Hs Hn). reflexivity.
Qed.

End PlaidDetection.

(* ===================================================================== *)
(** * Concrete runs *)
(* ===================================================================== *)

(** Scenario A: the agent succeeds at once. *)
Example scenario_A :
  ∃ i,
    exec [ ("2026-01-05T10:00:09", ResolveActivity (Completed begin_success));
           ("2026-01-05T10:00:10", ResolveActivity (Completed proof_captured)) ]
         (@start sample_render "2026-01-05T10:00:00" netflix_request) = Some i
    ∧ status (self i) = "COMPLETED"
    ∧ result_of i =
        Some {[ "status" := VStr "SUCCESS";
                "screenshot_url" :=
                  VStr "https://storage.supabase.co/proof/Netflix_123_1767607208.5/screenshot.png";
                "video_url" :=
                  VStr "https://steel.dev/sessions/Netflix_123_1767607208.5/recording.mp4";
                "savings_per_year" := VInt 180;
                "cancelled_at" := VStr "2026-01-05T10:00:10" ]}
    ∧ statuses_of (history i) =
        ["STARTING"; "NAVIGATING"; "CAPTURING_PROOF"; "COMPLETED"].
Proof. eexists. repeat split. Qed.

(** Scenario B: a 2FA challenge, and the code 482913 in time. *)
Example scenario_B :
  ∃ i,
    exec (until_capturing
          ++ [ ("2026-01-05T10:02:33", ResolveActivity (Completed proof_captured)) ])
         (@start sample_render "2026-01-05T10:00:00" netflix_request) = Some i
    ∧ status (self i) = "COMPLETED"
    ∧ statuses_of (history i) =
        ["STARTING"; "NAVIGATING"; "AWAITING_2FA"; "VERIFYING_2FA";
         "CAPTURING_PROOF"; "COMPLETED"]
    ∧ activities_of (history i) =
        [StartCancellation; SendPushNotification; InjectTwoFaCode; CaptureProof].
Proof. eexists. repeat split. Qed.

(** [two_fa_timeout] at the sample run, when it waits for the code. *)
Lemma two_fa_timeout_witness :
  ∃ i,
    exec until_waiting
         (@start sample_render "2026-01-05T10:00:00" netflix_request) = Some i
    ∧ status (self i) = "AWAITING_2FA"
    ∧ two_fa_code (self i) = None
    ∧ minutes 10 = minutes 10
    ∧ ∃ i',
        activate "2026-01-05T10:10:10" FireTimer i = Some i'
        ∧ status (self i') = "TIMEOUT"
        ∧ result_of i' = Some {[ "status" := VStr "FAILED";
                                 "reason" := VStr "2FA code not provided in time" ]}
        ∧ history i' =
            (history i ++ [TimerFired; Transition "AWAITING_2FA" "TIMEOUT"])%list
        ∧ activities_of (history i') = activities_of (history i)
        ∧ ∀ t' j, activate t' j i' = None.
Proof.
  eexists. split; [reflexivity|].
  eapply (two_fa_timeout (R := sample_render) "2026-01-05T10:00:00"
            netflix_request until_waiting); reflexivity.
Defined.

(** C2, as the specification states it, fails: right after the start the
    status is NAVIGATING, no code is there, and a submitted code is neither
    refused nor without effect: it is stored.  The same happens in
    VERIFYING_2FA, after the first code has been consumed: a second code
    replaces it. *)
Lemma signal_accepted_outside_AWAITING_2FA :
  ∃ i0 i1 i2 i3,
    i0 = @start sample_render "2026-01-05T10:00:00" netflix_request
    ∧ status (self i0) = "NAVIGATING"
    ∧ two_fa_code (self i0) = None
    ∧ activate "2026-01-05T10:00:05" (SignalWorkflow "482913") i0 = Some i1
    ∧ status (self i1) = "NAVIGATING"
    ∧ two_fa_code (self i1) = Some "482913"
    ∧ self i1 ≠ self i0
    ∧ exec until_verifying i0 = Some i2
    ∧ status (self i2) = "VERIFYING_2FA"
    ∧ activate "2026-01-05T10:02:31" (SignalWorkflow "000000") i2 = Some i3
    ∧ two_fa_code (self i3) = Some "000000"
    ∧ self i3 ≠ self i2.
Proof.
  eexists _, _, _, _.
  split; [reflexivity|].
  repeat (split; [reflexivity || discriminate|]).
  discriminate.
Qed.

(** [signal_is_never_refused] right after the start of the sample run. *)
Lemma signal_is_never_refused_witness :
  ∃ i,
    exec [] (@start sample_render "2026-01-05T10:00:00" netflix_request) = Some i
    ∧ provide_2fa_code (self i) "482913"
      = {| two_fa_code := Some "482913"; status := status (self i) |}
    ∧ ∃ i',
        activate "2026-01-05T10:00:05" (SignalWorkflow "482913") i = Some i'
        ∧ two_fa_code (self i') = Some "482913"
        ∧ (∀ a payload opts k,
             task i = ExecuteActivity a payload opts k ->
             i' = {| self := provide_2fa_code (self i) "482913";
                     task := task i;
                     history := history i ++ [SignalReceived "482913"] |})
        ∧ (∀ cond timeout k,
             task i = WaitCondition cond timeout k ->
             status (self i) = "AWAITING_2FA"
             ∧ status (self i') = "VERIFYING_2FA").
Proof.
  eexists. split; [reflexivity|].
  apply (signal_is_never_refused (R := sample_render) "2026-01-05T10:00:00"
           netflix_request []); [reflexivity | exact I].
Defined.

(** C3, as the specification states it, fails: when the code 482913 has
    been read and handed to the submit-2FA activity, [two_fa_code] is not
    empty, it still holds 482913, and it does so until the end of the run. *)
Lemma code_survives_its_read :
  ∃ i i',
    exec until_verifying
         (@start sample_render "2026-01-05T10:00:00" netflix_request) = Some i
    ∧ last (history i) =
        Some (ActivityScheduled InjectTwoFaCode
                {[ "session_id" := VStr "Netflix_123_1767607208.5";
                   "code" := VStr "482913" ]}
                {| start_to_close_timeout := minutes 3; retry_policy := None |})
    ∧ two_fa_code (self i) = Some "482913"
    ∧ two_fa_code (self i) ≠ None
    ∧ exec [ ("2026-01-05T10:02:32", ResolveActivity (Completed code_injected));
             ("2026-01-05T10:02:33", ResolveActivity (Completed proof_captured)) ]
           i = Some i'
    ∧ status (self i') = "COMPLETED"
    ∧ two_fa_code (self i') = Some "482913".
Proof.
  eexists _, _.
  repeat (split; [reflexivity || discriminate|]).
  reflexivity.
Qed.

(** [code_is_read_once_and_kept] at the sample run, once 482913 has been
    handed to the activity. *)
Lemma code_is_read_once_and_kept_witness :
  ∃ i,
    exec until_verifying
         (@start sample_render "2026-01-05T10:00:00" netflix_request) = Some i
    ∧ (inject_count (history i) ≤ 1)%nat
    ∧ ((1 ≤ inject_count (history i))%nat -> is_Some (two_fa_code (self i)))
    ∧ ∀ jobs' i',
        exec jobs' i = Some i' ->
        is_Some (two_fa_code (self i)) -> is_Some (two_fa_code (self i')).
Proof.
  eexists. split; [reflexivity|].
  apply (code_is_read_once_and_kept (R := sample_render) "2026-01-05T10:00:00"
           netflix_request until_verifying).
  reflexivity.
Defined.

(** C4, as the specification states it, fails: after three attempts that
    time out, the status is NAVIGATING, not FAILED, and [run] has raised
    instead of returning a terminal result. *)
Lemma three_failures_raise :
  ∃ i,
    fst (invoke (mkRetryPolicy (seconds 1) (minutes 5) 3) always_times_out)
      = Failed "activity StartToClose timeout"
    ∧ length (snd (invoke (mkRetryPolicy (seconds 1) (minutes 5) 3)
                     always_times_out)) = 3%nat
    ∧ activate "2026-01-05T10:15:03"
        (ResolveActivity (Failed "activity StartToClose timeout"))
        (@start sample_render "2026-01-05T10:00:00" netflix_request) = Some i
    ∧ status (self i) = "NAVIGATING"
    ∧ status (self i) ≠ "FAILED"
    ∧ task i = Raise (ActivityError "activity StartToClose timeout")
    ∧ result_of i = None.
Proof.
  eexists.
  repeat (split; [reflexivity || discriminate|]).
  reflexivity.
Qed.

(** [begin_failure_is_not_handled] when every attempt times out. *)
Lemma begin_failure_is_not_handled_witness :
  ∃ i,
    exec [] (@start sample_render "2026-01-05T10:00:00" netflix_request) = Some i
    ∧ retry_policy
        {| start_to_close_timeout := minutes 5;
           retry_policy := Some (mkRetryPolicy (seconds 1) (minutes 5) 3) |}
      = Some (mkRetryPolicy (seconds 1) (minutes 5) 3)
    ∧ invoke (mkRetryPolicy (seconds 1) (minutes 5) 3) always_times_out
      = (Failed "activity StartToClose timeout",
         [ {| attempt_no := 1; waited_before := 0;
              attempt_outcome := Fails Retryable "activity StartToClose timeout" |};
           {| attempt_no := 2; waited_before := 1;
              attempt_outcome := Fails Retryable "activity StartToClose timeout" |};
           {| attempt_no := 3; waited_before := 2;
              attempt_outcome := Fails Retryable "activity StartToClose timeout" |} ])
    ∧ ∃ i',
        activate "2026-01-05T10:15:03"
          (ResolveActivity (Failed "activity StartToClose timeout")) i = Some i'
        ∧ task i' = Raise (ActivityError "activity StartToClose timeout")
        ∧ result_of i' = None
        ∧ status (self i') = "NAVIGATING"
        ∧ history i' = history i
        ∧ ∀ t' j, activate t' j i' = None.
Proof.
  eexists. split; [reflexivity|].
  eapply (begin_failure_is_not_handled (R := sample_render)
            "2026-01-05T10:00:00" netflix_request [] _ netflix_request
            {| start_to_close_timeout := minutes 5;
               retry_policy := Some (mkRetryPolicy (seconds 1) (minutes 5) 3) |}
            _ always_times_out);
    reflexivity.
Defined.

(** C5, as the specification states it, fails: when the proof capture
    fails after a successful 2FA flow, the instance is COMPLETED, but the
    result says SUCCESS like any other and has no [proofMissing] field. *)
Lemma missing_proof_is_not_flagged :
  ∃ i d,
    exec (until_capturing
          ++ [ ("2026-01-05T10:02:33",
                ResolveActivity (Completed proof_not_captured)) ])
         (@start sample_render "2026-01-05T10:00:00" netflix_request) = Some i
    ∧ status (self i) = "COMPLETED"
    ∧ result_of i = Some d
    ∧ d !! "proofMissing" = None
    ∧ d !! "proofMissing" ≠ Some (VBool true)
    ∧ d !! "status" = Some (VStr "SUCCESS")
    ∧ d !! "status" ≠ Some (VStr "cancelled_but_unproven")
    ∧ d !! "screenshot_url" = Some VNone.
Proof.
  eexists _, _.
  repeat (split; [reflexivity || discriminate|]).
  reflexivity.
Qed.

(** [missing_proof_still_completes] at the sample run, with the proof
    capture pending. *)
Lemma missing_proof_still_completes_witness :
  ∃ i,
    exec until_capturing
         (@start sample_render "2026-01-05T10:00:00" netflix_request) = Some i
    ∧ status (self i) = "CAPTURING_PROOF"
    ∧ ∃ i' d,
        activate "2026-01-05T10:02:33"
          (ResolveActivity (Completed proof_not_captured)) i = Some i'
        ∧ status (self i') = "COMPLETED"
        ∧ history i' = (history i ++ [Transition "CAPTURING_PROOF" "COMPLETED"])%list
        ∧ result_of i' = Some d
        ∧ d = {[ "status" := VStr "SUCCESS";
                 "screenshot_url" := VNone;
                 "video_url" := py_get proof_not_captured "video_url";
                 "savings_per_year" :=
                   py_get_default netflix_request "annual_cost" (VInt 0);
                 "cancelled_at" := VStr "2026-01-05T10:02:33" ]}
        ∧ d !! "status" = Some (VStr "SUCCESS")
        ∧ d !! "screenshot_url" = Some VNone
        ∧ d !! "proofMissing" = None.
Proof.
  eexists. split; [reflexivity|].
  eapply (missing_proof_still_completes (R := sample_render)
            "2026-01-05T10:00:00" netflix_request until_capturing);
    reflexivity.
Defined.

(** C6, as the specification states it, fails: in the sample run the push
    is scheduled in AWAITING_2FA; when the engine reports that the activity
    failed (here by running into its timeout of 30 seconds), [run] raises.
    The flow is aborted: the instance is not suspended on the wait, it has
    no result, and the code the user then submits is refused. *)
Lemma push_failure_aborts_the_run :
  ∃ i i',
    exec [ ("2026-01-05T10:00:09", ResolveActivity (Completed begin_2fa_required)) ]
         (@start sample_render "2026-01-05T10:00:00" netflix_request) = Some i
    ∧ status (self i) = "AWAITING_2FA"
    ∧ last (history i) =
        Some (ActivityScheduled SendPushNotification push_payload
                {| start_to_close_timeout := seconds 30; retry_policy := None |})
    ∧ activate "2026-01-05T10:00:39"
        (ResolveActivity (Failed "activity StartToClose timeout")) i = Some i'
    ∧ task i' = Raise (ActivityError "activity StartToClose timeout")
    ∧ result_of i' = None
    ∧ ¬ suspended i'
    ∧ activate "2026-01-05T10:02:30" (SignalWorkflow "482913") i' = None
    ∧ activate "2026-01-05T10:10:39" FireTimer i' = None.
Proof.
  eexists _, _.
  repeat (split; [reflexivity || (intros []) |]).
  reflexivity.
Qed.

(** [notify_failure_aborts_only_when_raised] at a run whose request names
    no user: the push is pending, [send_push_notification] logs the failure
    and returns FAILED, and [run] goes on to the wait. *)
Lemma notify_failure_aborts_only_when_raised_witness :
  ∃ i,
    exec [ ("2026-01-05T10:00:09",
            ResolveActivity (Completed begin_2fa_without_user)) ]
         (@start sample_render "2026-01-05T10:00:00" request_without_user) = Some i
    ∧ status (self i) = "AWAITING_2FA"
    ∧ logged (send_push_notification wall_clock
                {[ "user_id" := VStr "";
                   "title" := VStr "Netflix needs verification";
                   "body" :=
                     VStr "Enter the code from your SMS/email to continue cancellation" ]})
      = [ {| log_level := INFO; log_event := "Sending push notification";
             log_fields := [("user_id", VStr "");
                            ("title", VStr "Netflix needs verification")] |};
          {| log_level := ERROR;
             log_event := "Missing required parameters for push notification";
             log_fields := [] |} ]
    ∧ outcome (send_push_notification wall_clock
                 {[ "user_id" := VStr "";
                    "title" := VStr "Netflix needs verification";
                    "body" :=
                      VStr "Enter the code from your SMS/email to continue cancellation" ]})
      = Returned push_failed
    ∧ (∃ i',
         activate "2026-01-05T10:00:10" (ResolveActivity (Completed push_failed)) i
           = Some i'
         ∧ status (self i') = "AWAITING_2FA"
         ∧ history i' = history i
         ∧ suspended i'
         ∧ ∃ cond k', task i' = WaitCondition cond (minutes 10) k')
    ∧ (∃ i',
         activate "2026-01-05T10:00:39"
           (ResolveActivity (Failed "activity StartToClose timeout")) i = Some i'
         ∧ task i' = Raise (ActivityError "activity StartToClose timeout")
         ∧ result_of i' = None
         ∧ status (self i') = "AWAITING_2FA"
         ∧ history i' = history i
         ∧ ∀ t' j, activate t' j i' = None).
Proof.
  eexists. split; [reflexivity|].
  destruct (notify_failure_aborts_only_when_raised (R := sample_render) wall_clock
              "2026-01-05T10:00:00" request_without_user
              [ ("2026-01-05T10:00:09",
                 ResolveActivity (Completed begin_2fa_without_user)) ]
              _
              {[ "user_id" := VStr "";
                 "title" := VStr "Netflix needs verification";
                 "body" :=
                   VStr "Enter the code from your SMS/email to continue cancellation" ]}
              {| start_to_close_timeout := seconds 30; retry_policy := None |}
              _ "2026-01-05T10:00:10" eq_refl eq_refl)
    as (Hst & (uid & sn & Hu & Hs & _ & _ & Hrun) & Hdrop & _).
  destruct (notify_failure_aborts_only_when_raised (R := sample_render) wall_clock
              "2026-01-05T10:00:00" request_without_user
              [ ("2026-01-05T10:00:09",
                 ResolveActivity (Completed begin_2fa_without_user)) ]
              _
              {[ "user_id" := VStr "";
                 "title" := VStr "Netflix needs verification";
                 "body" :=
                   VStr "Enter the code from your SMS/email to continue cancellation" ]}
              {| start_to_close_timeout := seconds 30; retry_policy := None |}
              _ "2026-01-05T10:00:39" eq_refl eq_refl)
    as (_ & _ & _ & Hraise).
  injection Hu as <-. injection Hs as <-.
  split; [exact Hst|].
  split; [rewrite Hrun; reflexivity|].
  split; [rewrite Hrun; reflexivity|].
  split; [exact (Hdrop push_failed) | exact (Hraise "activity StartToClose timeout")].
Defined.

(** [status_follows_transition_graph] at the end of scenario B, where the
    status is COMPLETED. *)
Lemma status_follows_transition_graph_witness :
  ∃ i,
    exec (until_capturing
          ++ [ ("2026-01-05T10:02:33", ResolveActivity (Completed proof_captured)) ])
         (@start sample_render "2026-01-05T10:00:00" netflix_request) = Some i
    ∧ get_status (self i) = "COMPLETED"
    ∧ terminal (get_status (self i)) = true
    ∧ follows "PENDING" (history i) = Some "COMPLETED"
    ∧ statuses_of (history i) =
        ["STARTING"; "NAVIGATING"; "AWAITING_2FA"; "VERIFYING_2FA";
         "CAPTURING_PROOF"; "COMPLETED"]
    ∧ (∀ before previous new after,
         history i = (before ++ Transition previous new :: after)%list ->
         follows "PENDING" before = Some previous
         ∧ allowed previous new = true
         ∧ terminal previous = false)
    ∧ (∃ before previous,
         history i = (before ++ [Transition previous "COMPLETED"])%list)
    ∧ finished i
    ∧ (∀ t j, activate t j i = None)
    ∧ ∀ jobs' i', exec jobs' i = Some i' -> i' = i.
Proof.
  eexists. split; [reflexivity|]. split; [reflexivity|].
  split; [reflexivity|].
  destruct (status_follows_transition_graph (R := sample_render)
              "2026-01-05T10:00:00" netflix_request
              (until_capturing
               ++ [ ("2026-01-05T10:02:33",
                     ResolveActivity (Completed proof_captured)) ])
              _ eq_refl)
    as (Hfollows & Hedges & Hterminal).
  split; [exact Hfollows|]. split; [reflexivity|]. split; [exact Hedges|].
  exact (Hterminal eq_refl).
Defined.

(** [direct_success_completes] for the sample request, with a stray signal
    while the proof is captured. *)
Lemma direct_success_completes_witness :
  ∃ sid proof url i d,
    begin_success !! "session_id" = Some (VStr sid)
    ∧ sid = "Netflix_123_1767607208.5"
    ∧ outcome (@capture_proof sample_render wall_clock
                 {[ "session_id" := VStr sid ]}) = Returned proof
    ∧ proof !! "screenshot_url" = Some (VStr url)
    ∧ url = "https://storage.supabase.co/proof/" ++ sid ++ "/screenshot.png"
    ∧ exec (signals [] ++ [ ("2026-01-05T10:00:09",
                             ResolveActivity (Completed begin_success)) ]
            ++ signals [ ("2026-01-05T10:00:10", "482913") ]
            ++ [ ("2026-01-05T10:00:11", ResolveActivity (Completed proof)) ])
           (@start sample_render "2026-01-05T10:00:00" netflix_request) = Some i
    ∧ status (self i) = "COMPLETED"
    ∧ history i =
        [ Transition "PENDING" "STARTING";
          Transition "STARTING" "NAVIGATING";
          ActivityScheduled StartCancellation netflix_request
            {| start_to_close_timeout := minutes 5;
               retry_policy := Some (mkRetryPolicy (seconds 1) (minutes 5) 3) |};
          Transition "NAVIGATING" "CAPTURING_PROOF";
          ActivityScheduled CaptureProof {[ "session_id" := VStr sid ]}
            {| start_to_close_timeout := seconds 30; retry_policy := None |};
          SignalReceived "482913";
          Transition "CAPTURING_PROOF" "COMPLETED" ]
    ∧ result_of i = Some d
    ∧ d = {[ "status" := VStr "SUCCESS";
             "screenshot_url" := VStr url;
             "video_url" := py_get proof "video_url";
             "savings_per_year" := VInt 180;
             "cancelled_at" := VStr "2026-01-05T10:00:11" ]}
    ∧ d !! "status" = Some (VStr "SUCCESS")
    ∧ d !! "screenshot_url" = Some (VStr url)
    ∧ url ≠ ""
    ∧ activities_of (history i) = [StartCancellation; CaptureProof]
    ∧ statuses_of (history i) =
        ["STARTING"; "NAVIGATING"; "CAPTURING_PROOF"; "COMPLETED"].
Proof.
  apply (direct_success_completes (R := sample_render) agent_succeeds wall_clock
           "2026-01-05T10:00:00" "2026-01-05T10:00:09" "2026-01-05T10:00:11"
           netflix_request begin_success []
           [ ("2026-01-05T10:00:10", "482913") ]);
    reflexivity.
Defined.

(** [any_code_is_accepted] at the sample run, when it waits for the code
    with the handle that [start_cancellation] returned, and the code
    000000: the run goes on to COMPLETED. *)
Lemma any_code_is_accepted_witness :
  ∃ i i1 i2 i3 proof d,
    exec until_waiting
         (@start sample_render "2026-01-05T10:00:00" netflix_request) = Some i
    ∧ task i = wait_for_2fa_code netflix_request begin_2fa_required
    ∧ begin_2fa_required !! "session_id" = Some (VStr "Netflix_123_1767607208.5")
    ∧ truthy (VStr "Netflix_123_1767607208.5") = true
    ∧ outcome (@start_cancellation sample_render agent_meets_2fa netflix_request)
      = Returned begin_2fa_required
    ∧ (∃ handle,
         begin_2fa_required !! "session_id" = Some handle ∧ truthy handle = true)
    ∧ status (self i) = "AWAITING_2FA"
    ∧ activate "2026-01-05T10:02:30" (SignalWorkflow "000000") i = Some i1
    ∧ status (self i1) = "VERIFYING_2FA"
    ∧ history i1 =
        (history i
         ++ [ SignalReceived "000000";
              Transition "AWAITING_2FA" "VERIFYING_2FA";
              ActivityScheduled InjectTwoFaCode
                {[ "session_id" := VStr "Netflix_123_1767607208.5";
                   "code" := VStr "000000" ]}
                {| start_to_close_timeout := minutes 3; retry_policy := None |} ])%list
    ∧ outcome (inject_2fa_code wall_clock
                 {[ "session_id" := VStr "Netflix_123_1767607208.5";
                    "code" := VStr "000000" ]})
      = Returned code_injected
    ∧ activate "2026-01-05T10:02:32" (ResolveActivity (Completed code_injected)) i1
      = Some i2
    ∧ status (self i2) = "CAPTURING_PROOF"
    ∧ history i2 =
        (history i1
         ++ [ Transition "VERIFYING_2FA" "CAPTURING_PROOF";
              ActivityScheduled CaptureProof
                {[ "session_id" := VStr "Netflix_123_1767607208.5" ]}
                {| start_to_close_timeout := seconds 30; retry_policy := None |} ])%list
    ∧ outcome (@capture_proof sample_render wall_clock
                 {[ "session_id" := VStr "Netflix_123_1767607208.5" ]})
      = Returned proof
    ∧ activate "2026-01-05T10:02:33" (ResolveActivity (Completed proof)) i2 = Some i3
    ∧ status (self i3) = "COMPLETED"
    ∧ history i3 = (history i2 ++ [ Transition "CAPTURING_PROOF" "COMPLETED" ])%list
    ∧ result_of i3 = Some d
    ∧ d !! "status" = Some (VStr "SUCCESS")
    ∧ d !! "screenshot_url" = proof !! "screenshot_url"
    ∧ "FAILED" ∉ statuses_of (history i3).
Proof.
  destruct (any_code_is_accepted (R := sample_render) wall_clock
              "2026-01-05T10:00:00" netflix_request until_waiting _
              begin_2fa_required (VStr "Netflix_123_1767607208.5")
              "2026-01-05T10:02:30" "2026-01-05T10:02:32" "2026-01-05T10:02:33"
              "000000" eq_refl eq_refl eq_refl eq_refl
              ltac:(discriminate))
    as (_ & Hhandle & Hst & i1 & verified & i2 & proof & i3 & d
        & H1 & Hst1 & Hh1 & Hinject & -> & H2 & Hst2 & Hh2 & Hproof
        & H3 & Hst3 & Hh3 & Hres & Hd & Hshot & Hnever).
  eexists _, i1, i2, i3, proof, d.
  split; [reflexivity|]. split; [reflexivity|]. split; [reflexivity|].
  split; [reflexivity|]. split; [reflexivity|].
  split; [exact (Hhandle agent_meets_2fa netflix_request begin_2fa_required
                   eq_refl eq_refl)|].
  split; [exact Hst|]. split; [exact H1|]. split; [exact Hst1|].
  split; [exact Hh1|]. split; [exact Hinject|]. split; [exact H2|].
  split; [exact Hst2|]. split; [exact Hh2|]. split; [exact Hproof|].
  split; [exact H3|]. split; [exact Hst3|]. split; [exact Hh3|].
  split; [exact Hres|]. split; [exact Hd|]. split; [exact Hshot | exact Hnever].
Defined.

(** A request without a password is turned down before the agent is
    called. *)
Example start_cancellation_sample_missing :
  outcome (@start_cancellation sample_render agent_succeeds request_without_password)
  = Returned {[ "status" := VStr "FAILED";
                "message" :=
                  VStr "Missing required parameters: service_name, login_url, email, password" ]}.
Proof. reflexivity. Qed.

(** [close_failure_hides_the_outcome] when the agent succeeds and the
    browser does not close. *)
Lemma close_failure_hides_the_outcome_witness :
  outcome (@cancel_subscription sample_render browser_does_not_close
             (py_get netflix_request "service_name")
             (py_get netflix_request "login_url")
             (py_get netflix_request "email")
             (py_get netflix_request "password")
             (py_get_default netflix_request "use_steel" (VBool false)))
    = Raised (Exception "Target closed")
  ∧ outcome (@start_cancellation sample_render browser_does_not_close
               netflix_request) =
    Returned {[ "status" := VStr "FAILED";
                "message" :=
                  VStr ("Exception occurred: " ++ exn_str (Exception "Target closed"));
                "service_name" := py_get netflix_request "service_name" ]}.
Proof.
  apply (close_failure_hides_the_outcome (R := sample_render)
           browser_does_not_close netflix_request (Exception "Target closed"));
    reflexivity.
Defined.

(** [status_tells_the_activities] at the sample run, with the proof
    capture pending. *)
Lemma status_tells_the_activities_witness :
  ∃ i,
    exec until_capturing
         (@start sample_render "2026-01-05T10:00:00" netflix_request) = Some i
    ∧ (status (self i), activities_of (history i)) ∈ progress.
Proof.
  eexists. split; [reflexivity|].
  apply (status_tells_the_activities (R := sample_render) "2026-01-05T10:00:00"
           netflix_request until_capturing).
  reflexivity.
Defined.

(** [run_takes_at_most_four_results] at the same point. *)
Lemma run_takes_at_most_four_results_witness :
  ∃ i,
    exec until_capturing
         (@start sample_render "2026-01-05T10:00:00" netflix_request) = Some i
    ∧ (results_in until_capturing + pending i)%nat
      = length (activities_of (history i))
    ∧ (results_in until_capturing ≤ 4)%nat.
Proof.
  eexists. split; [reflexivity|].
  apply (run_takes_at_most_four_results (R := sample_render)
           "2026-01-05T10:00:00" netflix_request until_capturing).
  reflexivity.
Defined.

(** [activity_failure_is_never_handled] when the push times out. *)
Lemma activity_failure_is_never_handled_witness :
  ∃ i,
    exec [ ("2026-01-05T10:00:09", ResolveActivity (Completed begin_2fa_required)) ]
         (@start sample_render "2026-01-05T10:00:00" netflix_request) = Some i
    ∧ ∃ i',
        activate "2026-01-05T10:00:40"
          (ResolveActivity (Failed "activity StartToClose timeout")) i = Some i'
        ∧ task i' = Raise (ActivityError "activity StartToClose timeout")
        ∧ result_of i' = None
        ∧ self i' = self i
        ∧ history i' = history i
        ∧ ∀ t' j, activate t' j i' = None.
Proof.
  eexists. split; [reflexivity|].
  eapply (activity_failure_is_never_handled (R := sample_render)
            "2026-01-05T10:00:00" netflix_request
            [ ("2026-01-05T10:00:09",
               ResolveActivity (Completed begin_2fa_required)) ]);
    reflexivity.
Defined.

(** [begin_other_status_fails] when the agent gives up. *)
Lemma begin_other_status_fails_witness :
  ∃ i,
    exec [] (@start sample_render "2026-01-05T10:00:00" netflix_request) = Some i
    ∧ ∃ i',
        activate "2026-01-05T10:00:09" (ResolveActivity (Completed begin_failed)) i
          = Some i'
        ∧ status (self i') = "FAILED"
        ∧ result_of i' = Some begin_failed
        ∧ history i' = (history i ++ [Transition "NAVIGATING" "FAILED"])%list
        ∧ ∀ t' j, activate t' j i' = None.
Proof.
  eexists. split; [reflexivity|].
  eapply (begin_other_status_fails (R := sample_render)
            "2026-01-05T10:00:00" netflix_request [] _ _ _ _ _
            begin_failed (VStr "FAILED"));
    reflexivity.
Defined.

(** [rejected_code_fails_the_run] at the sample run, with the code
    injection pending. *)
Lemma rejected_code_fails_the_run_witness :
  ∃ i,
    exec until_verifying
         (@start sample_render "2026-01-05T10:00:00" netflix_request) = Some i
    ∧ ∃ i',
        activate "2026-01-05T10:02:32" (ResolveActivity (Completed code_rejected)) i
          = Some i'
        ∧ status (self i') = "FAILED"
        ∧ result_of i' = Some code_rejected
        ∧ history i' = (history i ++ [Transition "VERIFYING_2FA" "FAILED"])%list
        ∧ ∀ t' j, activate t' j i' = None.
Proof.
  eexists. split; [reflexivity|].
  eapply (rejected_code_fails_the_run (R := sample_render)
            "2026-01-05T10:00:00" netflix_request until_verifying _ _ _ _ _
            code_rejected (VStr "FAILED"));
    reflexivity.
Defined.

(** [missing_key_ends_the_run] for an empty result of the begin
    activity. *)
Lemma missing_key_ends_the_run_witness :
  ∃ i,
    exec [] (@start sample_render "2026-01-05T10:00:00" netflix_request) = Some i
    ∧ ∃ i',
        activate "2026-01-05T10:00:09" (ResolveActivity (Completed ∅)) i = Some i'
        ∧ ((∅ : dict) !! "status" = None ->
             task i' = Raise (KeyError "status")
             ∧ status (self i') = "NAVIGATING"
             ∧ history i' = history i)
        ∧ ((∅ : dict) !! "status" = Some (VStr "2FA_REQUIRED") ->
           netflix_request !! "user_id" = None ->
             task i' = Raise (KeyError "user_id")
             ∧ status (self i') = "AWAITING_2FA"
             ∧ history i' =
                 (history i ++ [Transition "NAVIGATING" "AWAITING_2FA"])%list)
        ∧ ((∅ : dict) !! "status" = Some (VStr "2FA_REQUIRED") ->
           is_Some (netflix_request !! "user_id") ->
           netflix_request !! "service_name" = None ->
             task i' = Raise (KeyError "service_name")
             ∧ status (self i') = "AWAITING_2FA"
             ∧ history i' =
                 (history i ++ [Transition "NAVIGATING" "AWAITING_2FA"])%list)
        ∧ ((∅ : dict) !! "status" = Some (VStr "SUCCESS") ->
           (∅ : dict) !! "session_id" = None ->
             task i' = Raise (KeyError "session_id")
             ∧ status (self i') = "CAPTURING_PROOF"
             ∧ history i' =
                 (history i ++ [Transition "NAVIGATING" "CAPTURING_PROOF"])%list).
Proof.
  eexists. split; [reflexivity|].
  eapply (missing_key_ends_the_run (R := sample_render)
            "2026-01-05T10:00:00" netflix_request []);
    reflexivity.
Defined.

(** [completed_before_the_proof_is_read] at the sample run, with the proof
    capture pending. *)
Lemma completed_before_the_proof_is_read_witness :
  ∃ i,
    exec until_capturing
         (@start sample_render "2026-01-05T10:00:00" netflix_request) = Some i
    ∧ ∃ i',
        activate "2026-01-05T10:02:33" (ResolveActivity (Completed proof_captured)) i
          = Some i'
        ∧ status (self i') = "COMPLETED"
        ∧ history i' = (history i ++ [Transition "CAPTURING_PROOF" "COMPLETED"])%list
        ∧ (∀ url, proof_captured !! "screenshot_url" = Some url ->
             result_of i' =
               Some {[ "status" := VStr "SUCCESS";
                       "screenshot_url" := url;
                       "video_url" := py_get proof_captured "video_url";
                       "savings_per_year" :=
                         py_get_default netflix_request "annual_cost" (VInt 0);
                       "cancelled_at" := VStr "2026-01-05T10:02:33" ]})
        ∧ (proof_captured !! "screenshot_url" = None ->
             task i' = Raise (KeyError "screenshot_url")
             ∧ result_of i' = None)
        ∧ ∀ t' j, activate t' j i' = None.
Proof.
  eexists. split; [reflexivity|].
  eapply (completed_before_the_proof_is_read (R := sample_render)
            "2026-01-05T10:00:00" netflix_request until_capturing);
    reflexivity.
Defined.

(** [last_code_wins] when two codes arrive during the push. *)
Lemma last_code_wins_witness :
  ∃ i,
    exec [ ("2026-01-05T10:00:09", ResolveActivity (Completed begin_2fa_required)) ]
         (@start sample_render "2026-01-05T10:00:00" netflix_request) = Some i
    ∧ ∃ i',
        exec (signals ([ ("2026-01-05T10:00:10", "111111") ]
                       ++ [ ("2026-01-05T10:00:11", "482913") ])
              ++ [ ("2026-01-05T10:00:12", ResolveActivity (Completed push_sent)) ])
             i = Some i'
        ∧ two_fa_code (self i') = Some "482913"
        ∧ status (self i') = "VERIFYING_2FA"
        ∧ statuses_of (history i')
          = (statuses_of (history i) ++ ["VERIFYING_2FA"])%list
        ∧ ∀ payload' opts' k',
            task i' = ExecuteActivity InjectTwoFaCode payload' opts' k' ->
            payload' !! "code" = Some (VStr "482913").
Proof.
  eexists. split; [reflexivity|].
  eapply (last_code_wins (R := sample_render)
            "2026-01-05T10:00:00" netflix_request
            [ ("2026-01-05T10:00:09",
               ResolveActivity (Completed begin_2fa_required)) ]);
    reflexivity.
Defined.

(** [empty_code_fails_the_run] at the sample run, when it waits for the
    code with the handle that [start_cancellation] returned. *)
Lemma empty_code_fails_the_run_witness :
  ∃ i,
    exec until_waiting
         (@start sample_render "2026-01-05T10:00:00" netflix_request) = Some i
    ∧ task i = wait_for_2fa_code netflix_request begin_2fa_required
    ∧ begin_2fa_required !! "session_id" = Some (VStr "Netflix_123_1767607208.5")
    ∧ status (self i) = "AWAITING_2FA"
    ∧ ∃ i1 i2,
        activate "2026-01-05T10:02:30" (SignalWorkflow "") i = Some i1
        ∧ status (self i1) = "VERIFYING_2FA"
        ∧ two_fa_code (self i1) = Some ""
        ∧ history i1 =
            (history i
             ++ [ SignalReceived "";
                  Transition "AWAITING_2FA" "VERIFYING_2FA";
                  ActivityScheduled InjectTwoFaCode
                    {[ "session_id" := VStr "Netflix_123_1767607208.5";
                       "code" := VStr "" ]}
                    {| start_to_close_timeout := minutes 3;
                       retry_policy := None |} ])%list
        ∧ outcome (inject_2fa_code wall_clock
                     {[ "session_id" := VStr "Netflix_123_1767607208.5";
                        "code" := VStr "" ]})
          = Returned code_rejected
        ∧ activate "2026-01-05T10:02:32"
            (ResolveActivity (Completed code_rejected)) i1 = Some i2
        ∧ status (self i2) = "FAILED"
        ∧ history i2 = (history i1 ++ [ Transition "VERIFYING_2FA" "FAILED" ])%list
        ∧ result_of i2 = Some code_rejected
        ∧ activities_of (history i2) = activities_of (history i1)
        ∧ ∀ t'' j, activate t'' j i2 = None.
Proof.
  eexists. split; [reflexivity|]. split; [reflexivity|]. split; [reflexivity|].
  apply (empty_code_fails_the_run (R := sample_render) wall_clock
           "2026-01-05T10:00:00" netflix_request until_waiting _
           begin_2fa_required (VStr "Netflix_123_1767607208.5"));
    reflexivity.
Defined.

(** [verification_prompt_leads_to_the_push] for the sample request. *)
Lemma verification_prompt_leads_to_the_push_witness :
  ∃ begin i,
    outcome (@start_cancellation sample_render agent_meets_2fa netflix_request)
      = Returned begin
    ∧ begin =
        {[ "status" := VStr "2FA_REQUIRED";
           "session_id" :=
             VStr (@py_str sample_render (py_get netflix_request "service_name")
                   ++ "_" ++ @py_str sample_render (VStr "123") ++ "_"
                   ++ session_clock agent_meets_2fa);
           "message" := VStr "User needs to provide verification code";
           "service_name" := py_get netflix_request "service_name" ]}
    ∧ activate "2026-01-05T10:00:09" (ResolveActivity (Completed begin))
        (@start sample_render "2026-01-05T10:00:00" netflix_request) = Some i
    ∧ status (self i) = "AWAITING_2FA"
    ∧ last (history i) =
        Some (ActivityScheduled SendPushNotification
                {[ "user_id" := VStr "123";
                   "title" :=
                     VStr (@py_str sample_render
                             (py_get netflix_request "service_name")
                           ++ " needs verification");
                   "body" :=
                     VStr "Enter the code from your SMS/email to continue cancellation" ]}
                {| start_to_close_timeout := seconds 30; retry_policy := None |}).
Proof.
  apply (verification_prompt_leads_to_the_push (R := sample_render)
           agent_meets_2fa "2026-01-05T10:00:00" "2026-01-05T10:00:09"
           netflix_request (Exception "2FA_REQUIRED: the site asks for a code")
           (VStr "123"));
    reflexivity.
Defined.

(** [push_fails_only_without_user] at the sample run, with the push
    pending. *)
Lemma push_fails_only_without_user_witness :
  ∃ i,
    exec [ ("2026-01-05T10:00:09", ResolveActivity (Completed begin_2fa_required)) ]
         (@start sample_render "2026-01-05T10:00:00" netflix_request) = Some i
    ∧ ∃ d,
        outcome (send_push_notification wall_clock push_payload) = Returned d
        ∧ push_payload !! "user_id" = netflix_request !! "user_id"
        ∧ (truthy (py_get netflix_request "user_id") = true ->
             d !! "status" = Some (VStr "SUCCESS"))
        ∧ (truthy (py_get netflix_request "user_id") = false ->
             d = {[ "status" := VStr "FAILED";
                    "delivery_status" :=
                      VStr "Missing required parameters: user_id, title, body";
                    "timestamp" := VStr (now_isoformat wall_clock) ]}).
Proof.
  eexists. split; [reflexivity|].
  eapply (push_fails_only_without_user (R := sample_render) wall_clock
            "2026-01-05T10:00:00" netflix_request
            [ ("2026-01-05T10:00:09",
               ResolveActivity (Completed begin_2fa_required)) ]
            _ push_payload);
    reflexivity.
Defined.

(** [two_fa_flow_completes] for the sample request and the code 482913. *)
Lemma two_fa_flow_completes_witness :
  ∃ begin sid notify verified proof url i d,
    outcome (@start_cancellation sample_render agent_meets_2fa netflix_request)
      = Returned begin
    ∧ begin !! "session_id" = Some (VStr sid)
    ∧ sid = "Netflix_123_1767607208.5"
    ∧ outcome (send_push_notification wall_clock
                 {[ "user_id" := VStr "123";
                    "title" := VStr "Netflix needs verification";
                    "body" :=
                      VStr "Enter the code from your SMS/email to continue cancellation" ]})
      = Returned notify
    ∧ outcome (inject_2fa_code wall_clock
                 {[ "session_id" := VStr sid; "code" := VStr "482913" ]})
      = Returned verified
    ∧ verified =
        {[ "status" := VStr "SUCCESS";
           "session_id" := VStr sid;
           "message" := VStr "2FA code verified and cancellation continued" ]}
    ∧ outcome (@capture_proof sample_render wall_clock
                 {[ "session_id" := VStr sid ]}) = Returned proof
    ∧ proof !! "screenshot_url" = Some (VStr url)
    ∧ url = "https://storage.supabase.co/proof/" ++ sid ++ "/screenshot.png"
    ∧ exec [ ("2026-01-05T10:00:09", ResolveActivity (Completed begin));
             ("2026-01-05T10:00:10", ResolveActivity (Completed notify));
             ("2026-01-05T10:02:30", SignalWorkflow "482913");
             ("2026-01-05T10:02:32", ResolveActivity (Completed verified));
             ("2026-01-05T10:02:33", ResolveActivity (Completed proof)) ]
           (@start sample_render "2026-01-05T10:00:00" netflix_request) = Some i
    ∧ history i =
        [ Transition "PENDING" "STARTING";
          Transition "STARTING" "NAVIGATING";
          ActivityScheduled StartCancellation netflix_request
            {| start_to_close_timeout := minutes 5;
               retry_policy := Some (mkRetryPolicy (seconds 1) (minutes 5) 3) |};
          Transition "NAVIGATING" "AWAITING_2FA";
          ActivityScheduled SendPushNotification
            {[ "user_id" := VStr "123";
               "title" := VStr "Netflix needs verification";
               "body" :=
                 VStr "Enter the code from your SMS/email to continue cancellation" ]}
            {| start_to_close_timeout := seconds 30; retry_policy := None |};
          SignalReceived "482913";
          Transition "AWAITING_2FA" "VERIFYING_2FA";
          ActivityScheduled InjectTwoFaCode
            {[ "session_id" := VStr sid; "code" := VStr "482913" ]}
            {| start_to_close_timeout := minutes 3; retry_policy := None |};
          Transition "VERIFYING_2FA" "CAPTURING_PROOF";
          ActivityScheduled CaptureProof {[ "session_id" := VStr sid ]}
            {| start_to_close_timeout := seconds 30; retry_policy := None |};
          Transition "CAPTURING_PROOF" "COMPLETED" ]
    ∧ status (self i) = "COMPLETED"
    ∧ two_fa_code (self i) = Some "482913"
    ∧ result_of i = Some d
    ∧ d = {[ "status" := VStr "SUCCESS";
             "screenshot_url" := VStr url;
             "video_url" := py_get proof "video_url";
             "savings_per_year" := VInt 180;
             "cancelled_at" := VStr "2026-01-05T10:02:33" ]}
    ∧ d !! "status" = Some (VStr "SUCCESS")
    ∧ d !! "screenshot_url" = Some (VStr url)
    ∧ url ≠ ""
    ∧ activities_of (history i) =
        [StartCancellation; SendPushNotification; InjectTwoFaCode; CaptureProof]
    ∧ statuses_of (history i) =
        ["STARTING"; "NAVIGATING"; "AWAITING_2FA"; "VERIFYING_2FA";
         "CAPTURING_PROOF"; "COMPLETED"].
Proof.
  apply (two_fa_flow_completes (R := sample_render) agent_meets_2fa wall_clock
           "2026-01-05T10:00:00" "2026-01-05T10:00:09" "2026-01-05T10:00:10"
           "2026-01-05T10:02:30" "2026-01-05T10:02:32" "2026-01-05T10:02:33"
           netflix_request (Exception "2FA_REQUIRED: the site asks for a code")
           (VStr "123") "482913");
    reflexivity || discriminate.
Defined.

(** The sanitizer on the sample credentials. *)
Example sanitize_credentials_sample :
  sanitize_credentials_for_logging sample_credentials = Value sanitized_sample.
Proof. reflexivity. Qed.

(** [sanitize_masks_secrets] for the sample credentials. *)
Lemma sanitize_masks_secrets_witness :
  sanitize_credentials_for_logging sample_credentials = Value sanitized_sample
  ∧ (∀ k, is_Some (sanitized_sample !! k) ↔ is_Some (sample_credentials !! k))
  ∧ (∀ k, is_Some (sample_credentials !! k) ->
          k = "password" ∨ contains "secret" (lower k) = true ->
          sanitized_sample !! k = Some (VStr "***"))
  ∧ (∀ k, k ≠ "password" -> contains "secret" (lower k) = false ->
          k ≠ "email" ->
          sanitized_sample !! k = sample_credentials !! k)
  ∧ (∀ v, sample_credentials !! "email" = Some v ->
          (∀ s, v = VStr s -> contains "@" s = false) ->
          sanitized_sample !! "email" = Some v)
  ∧ validate_credentials sanitized_sample
    = validate_credentials sample_credentials.
Proof.
  split; [reflexivity|].
  apply (sanitize_masks_secrets sample_credentials sanitized_sample).
  reflexivity.
Defined.

(** [sanitize_email_keeps_initial_and_domain] for user@example.com. *)
Lemma sanitize_email_keeps_initial_and_domain_witness :
  ∃ d,
    sanitize_credentials_for_logging sample_credentials = Value d
    ∧ d !! "email" = Some (VStr "u***@example.com").
Proof.
  apply (sanitize_email_keeps_initial_and_domain sample_credentials
           (Ascii.ascii_of_nat 117) "ser" "example.com" "");
    [reflexivity | reflexivity | reflexivity | left; reflexivity].
Defined.

(** The detection on the sample transactions: the two NaN charges are not
    of one amount, the single charges are no pattern. *)
Example detect_subscriptions_sample :
  detect_subscriptions sample_transactions = Value [sample_subscription].
Proof. reflexivity. Qed.

(** Recurring charges without a merchant name make the detection raise. *)
Example detect_subscriptions_nameless :
  detect_subscriptions nameless_transactions
  = Throws (AttributeError "'NoneType' object has no attribute 'strip'").
Proof. reflexivity. Qed.

(** Two charges that share one NaN object are of one amount. *)
Example detect_subscriptions_shared_nan :
  detect_subscriptions
    [ {| txn_merchant_name := Some "Broken Feed";
         txn_date := DateObj 738886;
         txn_amount := nan 0 |};
      {| txn_merchant_name := Some "Broken Feed";
         txn_date := DateObj 738916;
         txn_amount := nan 0 |} ]
  = Value [ {| sub_merchant_name := Some "Broken Feed";
               sub_normalized_name := "Broken Feed";
               sub_monthly_price := "NaN" : @Decimal sample_data;
               sub_last_charge_date := DateObj 738916;
               sub_status := "active";
               sub_logo_url := None;
               sub_cancellation_url := None |} ].
Proof. reflexivity. Qed.

(** Charges dated by strings are read by [strptime]. *)
Example detect_subscriptions_strings :
  detect_subscriptions
    [ charge_dated_by_string;
      {| txn_merchant_name := Some "NETFLIX.COM";
         txn_date := DateStr "2024-01-31";
         txn_amount := amount "15.99" |} ]
  = Value [ {| sub_merchant_name := Some "NETFLIX.COM";
               sub_normalized_name := "Netflix";
               sub_monthly_price := "15.99" : @Decimal sample_data;
               sub_last_charge_date := DateStr "2024-01-31";
               sub_status := "active";
               sub_logo_url := None;
               sub_cancellation_url := None |} ].
Proof. reflexivity. Qed.

(** [detected_subscription_is_recurring] for the sample transactions. *)
Lemma detected_subscription_is_recurring_witness :
  detect_subscriptions sample_transactions = Value [sample_subscription]
  ∧ NoDup (map sub_merchant_name [sample_subscription])
  ∧ ∀ s, s ∈ [sample_subscription] ->
      let charges :=
        filter (λ txn, txn_merchant_name txn = sub_merchant_name s)
               sample_transactions in
      (2 ≤ length charges)%nat
      ∧ (∃ a, sub_monthly_price s = Decimal_of_str a
              ∧ ∀ c, c ∈ charges -> txn_amount c = a)
      ∧ (∃ c, c ∈ charges ∧ sub_last_charge_date s = txn_date c)
      ∧ (∃ merchant_name,
           sub_merchant_name s = Some merchant_name
           ∧ sub_normalized_name s = _normalize_merchant_name merchant_name)
      ∧ sub_status s = "active"
      ∧ sub_logo_url s = None
      ∧ sub_cancellation_url s = None.
Proof.
  split; [reflexivity|].
  apply (@detected_subscription_is_recurring sample_data sample_transactions
           [sample_subscription]).
  reflexivity.
Defined.

(** [dated_transactions_are_judged_by_their_span] twice.  In the sample
    transactions the single charge without a merchant name is not
    recurring: the detection returns, and what it reports are the merchants
    with recurring charges.  The two monthly charges without a merchant
    name are recurring: the detection raises. *)
Lemma dated_transactions_are_judged_by_their_span_witness :
  (dated sample_transactions
   ∧ detect_subscriptions sample_transactions = Value [sample_subscription]
   ∧ ∃ subs,
       detect_subscriptions sample_transactions = Value subs
       ∧ ∀ merchant,
           merchant ∈ map sub_merchant_name subs ↔
           recurring (transactions_of merchant sample_transactions))
  ∧ (dated nameless_transactions
     ∧ recurring (transactions_of None nameless_transactions)
     ∧ detect_subscriptions nameless_transactions
       = Throws (AttributeError "'NoneType' object has no attribute 'strip'")).
Proof.
  assert (Hdated : dated sample_transactions)
    by (repeat constructor; eexists; reflexivity).
  assert (Hdated' : dated nameless_transactions)
    by (repeat constructor; eexists; reflexivity).
  split.
  - split; [exact Hdated|]. split; [reflexivity|].
    destruct (@dated_transactions_are_judged_by_their_span sample_data
                sample_transactions Hdated)
      as [[_ Hraises]|[_ Hreturns]].
    + discriminate Hraises.
    + exact Hreturns.
  - split; [exact Hdated'|].
    destruct (@dated_transactions_are_judged_by_their_span sample_data
                nameless_transactions Hdated')
      as [[Hrecurring Hraises]|[_ (subs & Hreturns & _)]].
    + split; [exact Hrecurring | exact Hraises].
    + discriminate Hreturns.
Defined.

(** [mixed_dates_raise] for two charges of one merchant. *)
Lemma mixed_dates_raise_witness :
  charge_dated_by_string ∈ [charge_dated_by_string; charge_dated_by_date]
  ∧ charge_dated_by_date ∈ [charge_dated_by_string; charge_dated_by_date]
  ∧ txn_merchant_name charge_dated_by_string
    = txn_merchant_name charge_dated_by_date
  ∧ txn_date charge_dated_by_string = DateStr "2024-01-01"
  ∧ txn_date charge_dated_by_date = DateObj 738916
  ∧ ∃ e, detect_subscriptions [charge_dated_by_string; charge_dated_by_date]
         = Throws e.
Proof.
  assert (H1 : charge_dated_by_string
               ∈ [charge_dated_by_string; charge_dated_by_date])
    by apply list_elem_of_here.
  assert (H2 : charge_dated_by_date
               ∈ [charge_dated_by_string; charge_dated_by_date])
    by apply list_elem_of_further, list_elem_of_here.
  split; [exact H1|]. split; [exact H2|]. do 3 (split; [reflexivity|]).
  apply (@mixed_dates_raise sample_data
           [charge_dated_by_string; charge_dated_by_date]
           charge_dated_by_string charge_dated_by_date
           "2024-01-01" 738916%Z H1 H2);
    reflexivity.
Defined.
